(** * Nano-ELS-H4: the real-time motion core

    A shallow embedding of the three classes that make up the motion
    core of the firmware and the properties of them that the design
    document states:

    - [SpindleEncoder]   (src/SpindleEncoder.h)
    - [AxisController]   (src/AxisController.h)
    - [MotionController] (src/MotionController.h)

    Conventions of the embedding.

    - The target is the ESP32: [long] and [int] are 32 bits wide.  Signed
      overflow is undefined in C++, so signed quantities are integers of
      [Z] and every statement below is about executions in which no
      signed operation overflows.  [unsigned long] time stamps wrap
      modulo 2^32, which is written out ([usub]).
    - [micros()] and the hardware pulse counter are inputs: every
      operation that reads one takes the value read as an argument.
    - [digitalWrite] is an output: every call is appended to the [gpio]
      log of the axis that owns the pin (most recent first).  Delays
      ([delay], [delayMicroseconds]) and logging have no effect on the
      state and are left out.
    - A method that takes a FreeRTOS mutex gives it back before it
      returns.  The embedding is sequential: a method always finds the
      mutex free.  The setters of [MotionController] take no mutex;
      where a property turns on a tick of the motion task that runs
      inside such a call, the state between two statements of the call
      is written out ([storePitch]).
    - Floating-point expressions (the inter-pulse delay, the speed ramp,
      the step counts derived in the constructor) are evaluated in exact
      rational arithmetic ([Q]); conversion to [long] truncates toward
      zero ([Qtrunc]).
    - Integer division by zero does not return: [exec] carries the
      trap.
    - The constants the code takes from Config.h are the fields of
      [ConfigH]; every definition that reads one takes the record as
      its first argument. *)

From Stdlib Require Import ZArith QArith List Bool Lia.
Import ListNotations.
#[local] Open Scope Z_scope.

(** ** Platform *)

Definition LONG_MAX : Z := 2147483647.
Definition LONG_MIN : Z := -2147483648.

(** A value that a [long] holds (32 bits on the ESP32). *)
Definition fitsLong (z : Z) : Prop := LONG_MIN <= z <= LONG_MAX.

(** [a - b] on [unsigned long]. *)
Definition usub (a b : Z) : Z := (a - b) mod 2 ^ 32.

(** Conversion of a floating-point value to [long]. *)
Definition Qtrunc (q : Q) : Z := Z.quot (Qnum q) (Z.pos (Qden q)).

(** [x < y] on floating-point values. *)
Definition Qltb (x y : Q) : bool := negb (Qle_bool y x).

(** The constants of Config.h that the modelled code reads. *)
Record ConfigH : Type := mkConfigH {
  ENCODER_STEPS_INT : Z;
  ENCODER_BACKLASH : Z;
  PCNT_CLEAR : Z;
  DUPR_MAX : Z;
  STARTS_MAX : Z;
  PASSES_MAX : Z;
  MODE_NORMAL : Z;
  MODE_CONE : Z;
  MODE_TURN : Z
}.

(** Values for illustration: a 600-line encoder counted on both edges
    and the limits of the original firmware. *)
Definition sampleConfigH : ConfigH :=
  mkConfigH 1200 5 30000 254000 124 999 0 2 3.

(** Outcome of code that may divide by zero. *)
Inductive exec (A : Type) : Type :=
| Done (a : A)
| DivideByZero.

Arguments Done {A} a.
Arguments DivideByZero {A}.

Definition bind {A B : Type} (x : exec A) (k : A -> exec B) : exec B :=
  match x with
  | Done a => k a
  | DivideByZero => DivideByZero
  end.

Notation "x <- e ;; k" := (bind e (fun x => k))
  (at level 61, e at next level, right associativity).

(** [a / b] on [long]. *)
Definition cdiv (a b : Z) : exec Z :=
  if b =? 0 then DivideByZero else Done (Z.quot a b).

(** ** AxisController *)

Module AxisController.

Inductive Pin : Type := EnaPin | DirPin | StepPin.

(** [digitalWrite(pin, level)]; [true] is HIGH. *)
Inductive PinWrite : Type :=
| DigitalWrite (pin : Pin) (level : bool).

(** [struct AxisConfig], without the axis letter and the pin numbers. *)
Record AxisConfig : Type := mkAxisConfig {
  active : bool;
  rotational : bool;
  motorSteps : Q;
  screwPitch : Q;
  speedStart : Z;
  speedManualMove : Z;
  cfgAcceleration : Z;
  invertStepper : bool;
  needsRest : bool;
  maxTravelMm : Z;
  backlashDu : Z
}.

Record Axis : Type := mkAxis {
  config : AxisConfig;
  pos : Z;
  originPos : Z;
  posGlobal : Z;
  motorPos : Z;
  fractionalPos : Q;
  pendingPos : Z;
  leftStop : Z;
  rightStop : Z;
  speed : Z;
  speedMax : Z;
  acceleration : Z;
  decelerateSteps : Z;
  direction : bool;
  directionInitialized : bool;
  stepStartUs : Z;
  stepperEnableCounter : Z;
  disabled : bool;
  movingManually : bool;
  continuous : bool;
  estopSteps : Z;
  backlashSteps : Z;
  gcodeRelativePos : Z;
  gpio : list PinWrite
}.

(** Assignment to one member. *)
Definition with_pos (v : Z) (a : Axis) : Axis :=
  mkAxis (config a) v (originPos a) (posGlobal a) (motorPos a)
    (fractionalPos a) (pendingPos a) (leftStop a) (rightStop a) (speed a)
    (speedMax a) (acceleration a) (decelerateSteps a) (direction a)
    (directionInitialized a) (stepStartUs a) (stepperEnableCounter a)
    (disabled a) (movingManually a) (continuous a) (estopSteps a)
    (backlashSteps a) (gcodeRelativePos a) (gpio a).

Definition with_originPos (v : Z) (a : Axis) : Axis :=
  mkAxis (config a) (pos a) v (posGlobal a) (motorPos a) (fractionalPos a)
    (pendingPos a) (leftStop a) (rightStop a) (speed a) (speedMax a)
    (acceleration a) (decelerateSteps a) (direction a) (directionInitialized
    a) (stepStartUs a) (stepperEnableCounter a) (disabled a) (movingManually
    a) (continuous a) (estopSteps a) (backlashSteps a) (gcodeRelativePos a)
    (gpio a).

Definition with_posGlobal (v : Z) (a : Axis) : Axis :=
  mkAxis (config a) (pos a) (originPos a) v (motorPos a) (fractionalPos a)
    (pendingPos a) (leftStop a) (rightStop a) (speed a) (speedMax a)
    (acceleration a) (decelerateSteps a) (direction a) (directionInitialized
    a) (stepStartUs a) (stepperEnableCounter a) (disabled a) (movingManually
    a) (continuous a) (estopSteps a) (backlashSteps a) (gcodeRelativePos a)
    (gpio a).

Definition with_motorPos (v : Z) (a : Axis) : Axis :=
  mkAxis (config a) (pos a) (originPos a) (posGlobal a) v (fractionalPos a)
    (pendingPos a) (leftStop a) (rightStop a) (speed a) (speedMax a)
    (acceleration a) (decelerateSteps a) (direction a) (directionInitialized
    a) (stepStartUs a) (stepperEnableCounter a) (disabled a) (movingManually
    a) (continuous a) (estopSteps a) (backlashSteps a) (gcodeRelativePos a)
    (gpio a).

Definition with_fractionalPos (v : Q) (a : Axis) : Axis :=
  mkAxis (config a) (pos a) (originPos a) (posGlobal a) (motorPos a) v
    (pendingPos a) (leftStop a) (rightStop a) (speed a) (speedMax a)
    (acceleration a) (decelerateSteps a) (direction a) (directionInitialized
    a) (stepStartUs a) (stepperEnableCounter a) (disabled a) (movingManually
    a) (continuous a) (estopSteps a) (backlashSteps a) (gcodeRelativePos a)
    (gpio a).

Definition with_pendingPos (v : Z) (a : Axis) : Axis :=
  mkAxis (config a) (pos a) (originPos a) (posGlobal a) (motorPos a)
    (fractionalPos a) v (leftStop a) (rightStop a) (speed a) (speedMax a)
    (acceleration a) (decelerateSteps a) (direction a) (directionInitialized
    a) (stepStartUs a) (stepperEnableCounter a) (disabled a) (movingManually
    a) (continuous a) (estopSteps a) (backlashSteps a) (gcodeRelativePos a)
    (gpio a).

Definition with_leftStop (v : Z) (a : Axis) : Axis :=
  mkAxis (config a) (pos a) (originPos a) (posGlobal a) (motorPos a)
    (fractionalPos a) (pendingPos a) v (rightStop a) (speed a) (speedMax a)
    (acceleration a) (decelerateSteps a) (direction a) (directionInitialized
    a) (stepStartUs a) (stepperEnableCounter a) (disabled a) (movingManually
    a) (continuous a) (estopSteps a) (backlashSteps a) (gcodeRelativePos a)
    (gpio a).

Definition with_rightStop (v : Z) (a : Axis) : Axis :=
  mkAxis (config a) (pos a) (originPos a) (posGlobal a) (motorPos a)
    (fractionalPos a) (pendingPos a) (leftStop a) v (speed a) (speedMax a)
    (acceleration a) (decelerateSteps a) (direction a) (directionInitialized
    a) (stepStartUs a) (stepperEnableCounter a) (disabled a) (movingManually
    a) (continuous a) (estopSteps a) (backlashSteps a) (gcodeRelativePos a)
    (gpio a).

Definition with_speed (v : Z) (a : Axis) : Axis :=
  mkAxis (config a) (pos a) (originPos a) (posGlobal a) (motorPos a)
    (fractionalPos a) (pendingPos a) (leftStop a) (rightStop a) v (speedMax
    a) (acceleration a) (decelerateSteps a) (direction a)
    (directionInitialized a) (stepStartUs a) (stepperEnableCounter a)
    (disabled a) (movingManually a) (continuous a) (estopSteps a)
    (backlashSteps a) (gcodeRelativePos a) (gpio a).

Definition with_speedMax (v : Z) (a : Axis) : Axis :=
  mkAxis (config a) (pos a) (originPos a) (posGlobal a) (motorPos a)
    (fractionalPos a) (pendingPos a) (leftStop a) (rightStop a) (speed a) v
    (acceleration a) (decelerateSteps a) (direction a) (directionInitialized
    a) (stepStartUs a) (stepperEnableCounter a) (disabled a) (movingManually
    a) (continuous a) (estopSteps a) (backlashSteps a) (gcodeRelativePos a)
    (gpio a).

Definition with_direction (v : bool) (a : Axis) : Axis :=
  mkAxis (config a) (pos a) (originPos a) (posGlobal a) (motorPos a)
    (fractionalPos a) (pendingPos a) (leftStop a) (rightStop a) (speed a)
    (speedMax a) (acceleration a) (decelerateSteps a) v
    (directionInitialized a) (stepStartUs a) (stepperEnableCounter a)
    (disabled a) (movingManually a) (continuous a) (estopSteps a)
    (backlashSteps a) (gcodeRelativePos a) (gpio a).

Definition with_directionInitialized (v : bool) (a : Axis) : Axis :=
  mkAxis (config a) (pos a) (originPos a) (posGlobal a) (motorPos a)
    (fractionalPos a) (pendingPos a) (leftStop a) (rightStop a) (speed a)
    (speedMax a) (acceleration a) (decelerateSteps a) (direction a) v
    (stepStartUs a) (stepperEnableCounter a) (disabled a) (movingManually a)
    (continuous a) (estopSteps a) (backlashSteps a) (gcodeRelativePos a)
    (gpio a).

Definition with_stepStartUs (v : Z) (a : Axis) : Axis :=
  mkAxis (config a) (pos a) (originPos a) (posGlobal a) (motorPos a)
    (fractionalPos a) (pendingPos a) (leftStop a) (rightStop a) (speed a)
    (speedMax a) (acceleration a) (decelerateSteps a) (direction a)
    (directionInitialized a) v (stepperEnableCounter a) (disabled a)
    (movingManually a) (continuous a) (estopSteps a) (backlashSteps a)
    (gcodeRelativePos a) (gpio a).

Definition with_stepperEnableCounter (v : Z) (a : Axis) : Axis :=
  mkAxis (config a) (pos a) (originPos a) (posGlobal a) (motorPos a)
    (fractionalPos a) (pendingPos a) (leftStop a) (rightStop a) (speed a)
    (speedMax a) (acceleration a) (decelerateSteps a) (direction a)
    (directionInitialized a) (stepStartUs a) v (disabled a) (movingManually
    a) (continuous a) (estopSteps a) (backlashSteps a) (gcodeRelativePos a)
    (gpio a).

Definition with_continuous (v : bool) (a : Axis) : Axis :=
  mkAxis (config a) (pos a) (originPos a) (posGlobal a) (motorPos a)
    (fractionalPos a) (pendingPos a) (leftStop a) (rightStop a) (speed a)
    (speedMax a) (acceleration a) (decelerateSteps a) (direction a)
    (directionInitialized a) (stepStartUs a) (stepperEnableCounter a)
    (disabled a) (movingManually a) v (estopSteps a) (backlashSteps a)
    (gcodeRelativePos a) (gpio a).

Definition with_gpio (v : list PinWrite) (a : Axis) : Axis :=
  mkAxis (config a) (pos a) (originPos a) (posGlobal a) (motorPos a)
    (fractionalPos a) (pendingPos a) (leftStop a) (rightStop a) (speed a)
    (speedMax a) (acceleration a) (decelerateSteps a) (direction a)
    (directionInitialized a) (stepStartUs a) (stepperEnableCounter a)
    (disabled a) (movingManually a) (continuous a) (estopSteps a)
    (backlashSteps a) (gcodeRelativePos a) v.

Definition digitalWrite (pin : Pin) (level : bool) (a : Axis) : Axis :=
  with_gpio (DigitalWrite pin level :: gpio a) a.

(** The loop of the constructor that counts [decelerateSteps]:
    [while (s > speedStart) { decelerateSteps++; s -= acceleration / float(s); }].
    [fuel] bounds the number of iterations of the model. *)
Fixpoint decelerate_loop (fuel : nat) (speedStart acc s n : Z) : Z :=
  match fuel with
  | O => n
  | S fuel' =>
      if s >? speedStart
      then decelerate_loop fuel' speedStart acc
             (Qtrunc (inject_Z s - inject_Z acc / inject_Z s)) (n + 1)
      else n
  end.

(** The constructor. *)
Definition new (c : AxisConfig) : Axis :=
  mkAxis c
    0 0 0 0 0%Q 0
    LONG_MAX LONG_MIN
    (speedStart c) LONG_MAX (cfgAcceleration c)
    (decelerate_loop (Z.to_nat (speedManualMove c - speedStart c))
       (speedStart c) (cfgAcceleration c) (speedManualMove c) 0)
    true false 0 0 false false false
    (Qtrunc (inject_Z (maxTravelMm c * 10000) / screwPitch c * motorSteps c))
    (Qtrunc (inject_Z (backlashDu c) * motorSteps c / screwPitch c))
    0 [].

Definition begin (a : Axis) : Axis :=
  let a := digitalWrite StepPin true a in
  if negb (needsRest (config a)) && negb (disabled a)
  then digitalWrite EnaPin true a
  else a.

(** [moveTo]: the result is the pair of the returned flag and the
    state the call leaves behind. *)
Definition moveTo (newPos : Z) (continuousMode : bool) (a : Axis) : bool * Axis :=
  let a := with_continuous continuousMode a in
  if newPos =? pos a then
    (true, with_pendingPos 0 a)
  else
    let a := with_pendingPos
               (newPos - motorPos a - (if newPos >? pos a then 0 else backlashSteps a)) a in
    let travel := Z.abs (newPos - pos a) in
    if travel >? estopSteps a then (false, a) else (true, a).

Definition setDirection (dir : bool) (a : Axis) : Axis :=
  if negb (Bool.eqb (direction a) dir) || negb (directionInitialized a) then
    let a := with_speed (speedStart (config a)) a in
    let a := with_direction dir a in
    let a := with_directionInitialized true a in
    digitalWrite DirPin (xorb dir (invertStepper (config a))) a
  else a.

(** [delayUs = 1000000.0 / speed]. *)
Definition delayUs (a : Axis) : Q := 1000000 / inject_Z (speed a).

(** [nowUs - stepStartUs < delayUs - 5].  With [speed = 0] the quotient
    is the floating-point infinity and the comparison holds. *)
Definition tooEarly (nowUs : Z) (a : Axis) : bool :=
  if speed a =? 0 then true
  else Qltb (inject_Z (usub nowUs (stepStartUs a))) (delayUs a - 5).

Definition update (nowUs : Z) (a : Axis) : Axis :=
  if pendingPos a =? 0 then
    if speed a >? speedStart (config a) then with_speed (speed a - 1) a else a
  else
    let d := delayUs a in
    if tooEarly nowUs a then a
    else if negb (pendingPos a =? 0) then
      let dir := pendingPos a >? 0 in
      let a := setDirection dir a in
      let a := digitalWrite StepPin false a in
      let delta := if dir then 1 else -1 in
      let a := with_pendingPos (pendingPos a - delta) a in
      let a := if dir && (motorPos a >=? pos a) then with_pos (pos a + 1) a
               else if negb dir && (motorPos a <=? pos a - backlashSteps a)
                    then with_pos (pos a - 1) a
                    else a in
      let a := with_motorPos (motorPos a + delta) a in
      let a := with_posGlobal (posGlobal a + delta) a in
      let accelerate := continuous a
                        || (pendingPos a >=? decelerateSteps a)
                        || (pendingPos a <=? - decelerateSteps a) in
      let a := with_speed
                 (Qtrunc (inject_Z (speed a)
                          + inject_Z ((if accelerate then 1 else -1) * acceleration a)
                            * d / 1000000)) a in
      let a := if speed a >? speedMax a then with_speed (speedMax a) a
               else if speed a <? speedStart (config a)
                    then with_speed (speedStart (config a)) a
                    else a in
      let a := with_stepStartUs nowUs a in
      digitalWrite StepPin true a
    else a.

Definition updateEnablePin (a : Axis) : Axis :=
  if negb (disabled a)
     && (negb (needsRest (config a)) || (stepperEnableCounter a >? 0))
  then digitalWrite EnaPin true a
  else digitalWrite EnaPin false a.

Definition setEnabled (enable : bool) (a : Axis) : Axis :=
  if negb (needsRest (config a)) || negb (active (config a)) then a
  else if enable then
    let a := with_stepperEnableCounter (stepperEnableCounter a + 1) a in
    if stepperEnableCounter a =? 1 then updateEnablePin a else a
  else if stepperEnableCounter a >? 0 then
    let a := with_stepperEnableCounter (stepperEnableCounter a - 1) a in
    if stepperEnableCounter a =? 0 then updateEnablePin a else a
  else a.

Definition setLeftStop (stopPos : Z) (a : Axis) : Axis :=
  with_leftStop stopPos a.

Definition setRightStop (stopPos : Z) (a : Axis) : Axis :=
  with_rightStop stopPos a.

Definition setOrigin (a : Axis) : Axis :=
  let a := if negb (leftStop a =? LONG_MAX)
           then with_leftStop (leftStop a - pos a) a else a in
  let a := if negb (rightStop a =? LONG_MIN)
           then with_rightStop (rightStop a - pos a) a else a in
  let a := with_motorPos (motorPos a - pos a) a in
  let a := with_originPos (originPos a + pos a) a in
  let a := with_pos 0 a in
  let a := with_fractionalPos 0%Q a in
  with_pendingPos 0 a.

Definition resetOrigin (a : Axis) : Axis :=
  with_originPos (- pos a) a.

Definition getPositionSteps (a : Axis) : Z := pos a.

Definition isMoving (nowUs : Z) (a : Axis) : bool :=
  negb (pendingPos a =? 0) || (usub nowUs (stepStartUs a) <? 50000).

Definition isTargetReached (tolerance : Z) (a : Axis) : bool :=
  Z.abs (pendingPos a) <=? tolerance.

Definition setMaxSpeed (maxSpeed : Z) (a : Axis) : Axis :=
  with_speedMax maxSpeed a.

Definition resetMaxSpeed (a : Axis) : Axis :=
  with_speedMax (speedManualMove (config a)) a.

Definition isActive (a : Axis) : bool := active (config a).
Definition getLeftStop (a : Axis) : Z := leftStop a.
Definition getRightStop (a : Axis) : Z := rightStop a.
Definition getMotorPos (a : Axis) : Z := motorPos a.
Definition getOriginPos (a : Axis) : Z := originPos a.

(** Number of step pulses in a log: one per falling edge written to
    the step pin. *)
Definition stepPulses (l : list PinWrite) : nat :=
  length (filter (fun w => match w with
                           | DigitalWrite StepPin false => true
                           | _ => false
                           end) l).

(** Level of the enable line: the latest write to it, if any. *)
Fixpoint enaLevel (l : list PinWrite) : option bool :=
  match l with
  | [] => None
  | DigitalWrite EnaPin v :: _ => Some v
  | _ :: l' => enaLevel l'
  end.

(** Whether a stepping tick at [nowUs] emits a pulse. *)
Definition fires (nowUs : Z) (a : Axis) : bool :=
  negb (pendingPos a =? 0) && negb (tooEarly nowUs a).

(** The commands an axis receives: targets and stepping ticks. *)
Inductive Command : Type :=
| MoveTo (target : Z) (continuousMode : bool)
| Update (nowUs : Z).

Definition step (c : Command) (a : Axis) : Axis :=
  match c with
  | MoveTo target k => snd (moveTo target k a)
  | Update nowUs => update nowUs a
  end.

Definition run (cs : list Command) (a : Axis) : Axis :=
  fold_left (fun a c => step c a) cs a.

(** The states after each command of a sequence, in order. *)
Fixpoint states (cs : list Command) (a : Axis) : list Axis :=
  match cs with
  | [] => []
  | c :: cs' => step c a :: states cs' (step c a)
  end.

(** [|motor_pos - pos| <= backlash_steps]. *)
Definition backlashBound (a : Axis) : Prop :=
  Z.abs (motorPos a - pos a) <= backlashSteps a.

(** The motor is at the tool or behind it by no more than the backlash:
    the form in which the stepping tick keeps the bound. *)
Definition motorLag (a : Axis) : Prop :=
  pos a - backlashSteps a <= motorPos a <= pos a.

(** Both soft stops are set. *)
Definition bothStops (a : Axis) : bool :=
  negb (leftStop a =? LONG_MAX) && negb (rightStop a =? LONG_MIN).

(** [right_stop <= pos <= left_stop]. *)
Definition withinStops (a : Axis) : Prop :=
  rightStop a <= pos a <= leftStop a.

(** The tool position at which the pending steps end. *)
Definition pendingTarget (a : Axis) : Z :=
  if pendingPos a >? 0 then motorPos a + pendingPos a
  else if pendingPos a <? 0 then motorPos a + pendingPos a + backlashSteps a
       else pos a.

(** The tool and the pending target are inside the soft-limit window,
    and the pending steps lead from the tool toward the target. *)
Definition windowInv (a : Axis) : Prop :=
  withinStops a /\
  rightStop a <= pendingTarget a <= leftStop a /\
  (pendingPos a > 0 -> pos a <= pendingTarget a) /\
  (pendingPos a < 0 -> pendingTarget a <= pos a).

(** Every target of the sequence lies between the stops of [a]. *)
Definition targetsWithin (cs : list Command) (a : Axis) : Prop :=
  Forall (fun c => match c with
                   | MoveTo target _ => rightStop a <= target <= leftStop a
                   | Update _ => True
                   end) cs.

(** A linear axis with a 2 mm screw and 800 steps per turn, 25 mm of
    travel (10000 steps) and 0.125 mm of backlash (50 steps). *)
Definition sampleConfig : AxisConfig :=
  mkAxisConfig true false 800 20000 800 4800 25000 false false 25 1250.

(** The same axis with a driver that rests when idle. *)
Definition restingConfig : AxisConfig :=
  mkAxisConfig true false 800 20000 800 4800 25000 false true 25 1250.

(** A rotary axis that is not fitted. *)
Definition absentConfig : AxisConfig :=
  mkAxisConfig false true 800 20000 800 4800 25000 false false 25 0.

(** What [setOrigin] does to an axis, [a] before and [a'] after: the
    origin offset absorbs the position, position and pending steps
    become zero, motor position and the stops that are set shift. *)
Definition originReset (a a' : Axis) : Prop :=
  originPos a' = originPos a + pos a /\
  pos a' = 0 /\
  pendingPos a' = 0 /\
  motorPos a' = motorPos a - pos a /\
  leftStop a' = (if leftStop a =? LONG_MAX then LONG_MAX else leftStop a - pos a) /\
  rightStop a' = (if rightStop a =? LONG_MIN then LONG_MIN else rightStop a - pos a).

(** Whether [setEnabled] reaches the enable counter of the axis: the
    driver rests when idle and the axis is active. *)
Definition counted (a : Axis) : bool :=
  needsRest (config a) && active (config a).

(** What [setEnabled(true)] does to an axis when [on] holds and nothing
    otherwise, [a] before and [a'] after. *)
Definition enableEffect (on : bool) (a a' : Axis) : Prop :=
  config a' = config a /\
  disabled a' = disabled a /\
  stepperEnableCounter a'
    = stepperEnableCounter a + (if on && counted a then 1 else 0) /\
  gpio a'
    = (if on && counted a && (stepperEnableCounter a =? 0)
       then DigitalWrite EnaPin (negb (disabled a)) :: gpio a
       else gpio a).

(** One stepping tick takes at most one step off the pending ones. *)
Definition pendingStep (a a' : Axis) : Prop :=
  pendingPos a' = pendingPos a
  \/ (0 < pendingPos a /\ pendingPos a' = pendingPos a - 1)
  \/ (pendingPos a < 0 /\ pendingPos a' = pendingPos a + 1).

(** [n] stepping ticks, 2 ms apart, the first at [t0]. *)
Fixpoint ticks (n : nat) (t0 : Z) : list Command :=
  match n with
  | O => []
  | S n' => Update t0 :: ticks n' (t0 + 2000)
  end.

(** Every public operation of the class. *)
Inductive Op : Type :=
| OpBegin
| OpMoveTo (target : Z) (continuousMode : bool)
| OpUpdate (nowUs : Z)
| OpSetEnabled (enable : bool)
| OpSetLeftStop (stopPos : Z)
| OpSetRightStop (stopPos : Z)
| OpSetOrigin
| OpResetOrigin
| OpSetMaxSpeed (maxSpeed : Z)
| OpResetMaxSpeed.

Definition apply (o : Op) (a : Axis) : Axis :=
  match o with
  | OpBegin => begin a
  | OpMoveTo target k => snd (moveTo target k a)
  | OpUpdate nowUs => update nowUs a
  | OpSetEnabled enable => setEnabled enable a
  | OpSetLeftStop stopPos => setLeftStop stopPos a
  | OpSetRightStop stopPos => setRightStop stopPos a
  | OpSetOrigin => setOrigin a
  | OpResetOrigin => resetOrigin a
  | OpSetMaxSpeed maxSpeed => setMaxSpeed maxSpeed a
  | OpResetMaxSpeed => resetMaxSpeed a
  end.

Definition applyAll (os : list Op) (a : Axis) : Axis :=
  fold_left (fun a o => apply o a) os a.

Definition isResetOrigin (o : Op) : bool :=
  match o with
  | OpResetOrigin => true
  | _ => false
  end.

(** Level of the direction line: the latest write to it, if any. *)
Fixpoint dirLevel (l : list PinWrite) : option bool :=
  match l with
  | [] => None
  | DigitalWrite DirPin v :: _ => Some v
  | _ :: l' => dirLevel l'
  end.

(** The direction line agrees with the direction the axis holds. *)
Definition dirLineOk (a : Axis) : Prop :=
  dirLevel (gpio a)
  = if directionInitialized a
    then Some (xorb (direction a) (invertStepper (config a)))
    else None.

(** The enable line of a driver that rests when idle: high (unless the
    axis is disabled by the user) exactly while the counter is
    positive. *)
Definition enaLineOk (a : Axis) : Prop :=
  0 <= stepperEnableCounter a /\
  (0 < stepperEnableCounter a -> enaLevel (gpio a) = Some (negb (disabled a))) /\
  (stepperEnableCounter a = 0 -> enaLevel (gpio a) <> Some true).

(** Stepping ticks at the given times. *)
Definition tickAll (ts : list Z) (a : Axis) : Axis :=
  fold_left (fun a t => update t a) ts a.

(** The pending steps lead from the tool, which started at [p0], to
    the target [t] and not past it. *)
Definition aimsAt (p0 t : Z) (a : Axis) : Prop :=
  (p0 < t ->
   0 <= pendingPos a /\ motorPos a + pendingPos a = t /\ p0 <= pos a <= t) /\
  (t < p0 ->
   pendingPos a <= 0 /\ motorPos a + pendingPos a + backlashSteps a = t
   /\ t <= pos a <= p0) /\
  (t = p0 -> pendingPos a = 0 /\ pos a = t).

(** [speed_start <= speed <= speed_max]. *)
Definition speedInRange (a : Axis) : Prop :=
  speedStart (config a) <= speed a <= speedMax a.

End AxisController.

(** ** SpindleEncoder *)

Module SpindleEncoder.

(** The members of the class; [pcntClears] counts the calls of
    [pcnt_counter_clear]. *)
Record Encoder : Type := mkEncoder {
  position : Z;
  positionAvg : Z;
  positionGlobal : Z;
  counterValue : Z;
  lastUpdateUs : Z;
  bulkStartTimeUs : Z;
  bulkPulseCount : Z;
  currentRpm : Z;
  lastRpmUpdateUs : Z;
  syncOffset : Z;
  pcntClears : nat
}.

Definition with_position (v : Z) (e : Encoder) : Encoder :=
  mkEncoder v (positionAvg e) (positionGlobal e) (counterValue e)
    (lastUpdateUs e) (bulkStartTimeUs e) (bulkPulseCount e) (currentRpm e)
    (lastRpmUpdateUs e) (syncOffset e) (pcntClears e).

Definition with_positionAvg (v : Z) (e : Encoder) : Encoder :=
  mkEncoder (position e) v (positionGlobal e) (counterValue e) (lastUpdateUs
    e) (bulkStartTimeUs e) (bulkPulseCount e) (currentRpm e)
    (lastRpmUpdateUs e) (syncOffset e) (pcntClears e).

Definition with_positionGlobal (v : Z) (e : Encoder) : Encoder :=
  mkEncoder (position e) (positionAvg e) v (counterValue e) (lastUpdateUs e)
    (bulkStartTimeUs e) (bulkPulseCount e) (currentRpm e) (lastRpmUpdateUs
    e) (syncOffset e) (pcntClears e).

Definition with_counterValue (v : Z) (e : Encoder) : Encoder :=
  mkEncoder (position e) (positionAvg e) (positionGlobal e) v (lastUpdateUs
    e) (bulkStartTimeUs e) (bulkPulseCount e) (currentRpm e)
    (lastRpmUpdateUs e) (syncOffset e) (pcntClears e).

Definition with_lastUpdateUs (v : Z) (e : Encoder) : Encoder :=
  mkEncoder (position e) (positionAvg e) (positionGlobal e) (counterValue e)
    v (bulkStartTimeUs e) (bulkPulseCount e) (currentRpm e) (lastRpmUpdateUs
    e) (syncOffset e) (pcntClears e).

Definition with_bulkStartTimeUs (v : Z) (e : Encoder) : Encoder :=
  mkEncoder (position e) (positionAvg e) (positionGlobal e) (counterValue e)
    (lastUpdateUs e) v (bulkPulseCount e) (currentRpm e) (lastRpmUpdateUs e)
    (syncOffset e) (pcntClears e).

Definition with_bulkPulseCount (v : Z) (e : Encoder) : Encoder :=
  mkEncoder (position e) (positionAvg e) (positionGlobal e) (counterValue e)
    (lastUpdateUs e) (bulkStartTimeUs e) v (currentRpm e) (lastRpmUpdateUs
    e) (syncOffset e) (pcntClears e).

Definition with_currentRpm (v : Z) (e : Encoder) : Encoder :=
  mkEncoder (position e) (positionAvg e) (positionGlobal e) (counterValue e)
    (lastUpdateUs e) (bulkStartTimeUs e) (bulkPulseCount e) v
    (lastRpmUpdateUs e) (syncOffset e) (pcntClears e).

Definition with_syncOffset (v : Z) (e : Encoder) : Encoder :=
  mkEncoder (position e) (positionAvg e) (positionGlobal e) (counterValue e)
    (lastUpdateUs e) (bulkStartTimeUs e) (bulkPulseCount e) (currentRpm e)
    (lastRpmUpdateUs e) v (pcntClears e).

Definition with_pcntClears (v : nat) (e : Encoder) : Encoder :=
  mkEncoder (position e) (positionAvg e) (positionGlobal e) (counterValue e)
    (lastUpdateUs e) (bulkStartTimeUs e) (bulkPulseCount e) (currentRpm e)
    (lastRpmUpdateUs e) (syncOffset e) v.

(** The constructor; [nowUs] is the value of [micros()]. *)
Definition new (nowUs : Z) : Encoder :=
  mkEncoder 0 0 0 0 nowUs nowUs 0 0 nowUs 0 0.

Section WithConfig.

Variable K : ConfigH.

Definition processPulses (delta : Z) (microsNow : Z) (e : Encoder) : Encoder :=
  let e :=
    if bulkPulseCount e >=? ENCODER_STEPS_INT K then
      let timeDiff := usub microsNow (bulkStartTimeUs e) in
      let e := if timeDiff >? 0
               then with_currentRpm (Z.quot 60000000 timeDiff) e else e in
      let e := with_bulkStartTimeUs microsNow e in
      with_bulkPulseCount 0 e
    else e in
  let e := with_bulkPulseCount (bulkPulseCount e + Z.abs delta) e in
  let e := with_position (position e + delta) e in
  let e := with_positionGlobal (positionGlobal e + delta) e in
  let e := if positionGlobal e >? ENCODER_STEPS_INT K
           then with_positionGlobal (positionGlobal e - ENCODER_STEPS_INT K) e
           else if positionGlobal e <? 0
                then with_positionGlobal (positionGlobal e + ENCODER_STEPS_INT K) e
                else e in
  let e := if position e >? positionAvg e
           then with_positionAvg (position e) e
           else if position e <? positionAvg e - ENCODER_BACKLASH K
                then with_positionAvg (position e + ENCODER_BACKLASH K) e
                else e in
  with_lastUpdateUs microsNow e.

(** [update]: [count] is the value read from the hardware counter. *)
Definition update (count : Z) (microsNow : Z) (e : Encoder) : Encoder :=
  let delta := count - counterValue e in
  if delta =? 0 then e
  else
    let e := if (count >=? PCNT_CLEAR K) || (count <=? - PCNT_CLEAR K)
             then with_counterValue 0 (with_pcntClears (S (pcntClears e)) e)
             else with_counterValue count e in
    processPulses delta microsNow e.

Definition normalizePosition (p : Z) : Z :=
  let p := Z.rem p (ENCODER_STEPS_INT K) in
  if p <? 0 then p + ENCODER_STEPS_INT K else p.

(** The encoder after the pulse deltas [ds], each read at the time
    paired with it. *)
Fixpoint feed (ds : list (Z * Z)) (e : Encoder) : Encoder :=
  match ds with
  | [] => e
  | (delta, t) :: ds' => feed ds' (processPulses delta t e)
  end.

(** [position <= position_avg <= position + ENCODER_BACKLASH]. *)
Definition avgWindow (e : Encoder) : Prop :=
  position e <= positionAvg e <= position e + ENCODER_BACKLASH K.

(** What one call of [processPulses] does to the compensated position,
    [e] before and [e'] after. *)
Definition pulseOk (e e' : Encoder) : Prop :=
  (Z.sgn (positionAvg e' - positionAvg e) = Z.sgn (position e' - position e)
   \/ positionAvg e' = positionAvg e) /\
  avgWindow e' /\
  (positionAvg e < position e' -> positionAvg e' = position e').

(** [P] relates the states before and after every delta of a sequence. *)
Fixpoint everyPulse (P : Encoder -> Encoder -> Prop) (ds : list (Z * Z))
    (e : Encoder) : Prop :=
  match ds with
  | [] => True
  | (delta, t) :: ds' =>
      P e (processPulses delta t e) /\ everyPulse P ds' (processPulses delta t e)
  end.

(** Successive calls of [update], each with the counter value read
    and the time. *)
Fixpoint readAll (rs : list (Z * Z)) (e : Encoder) : Encoder :=
  match rs with
  | [] => e
  | (count, t) :: rs' => readAll rs' (update count t e)
  end.

(** The reads stay inside the band in which the hardware counter is
    not cleared. *)
Definition belowClear (rs : list (Z * Z)) : Prop :=
  Forall (fun r => - PCNT_CLEAR K < fst r < PCNT_CLEAR K) rs.

(** No delta is longer than a turn. *)
Definition withinTurn (ds : list (Z * Z)) : Prop :=
  Forall (fun d => Z.abs (fst d) <= ENCODER_STEPS_INT K) ds.

End WithConfig.

(** Sum of the deltas of a sequence. *)
Definition sumDeltas (ds : list (Z * Z)) : Z :=
  fold_right (fun d s => fst d + s) 0 ds.

(** The last counter value of a sequence of reads, [c0] if there is
    none. *)
Definition lastCount (c0 : Z) (rs : list (Z * Z)) : Z :=
  fold_left (fun _ r => fst r) rs c0.

Definition getPosition (e : Encoder) : Z := position e.
Definition getAveragePosition (e : Encoder) : Z := positionAvg e.
Definition getGlobalPosition (e : Encoder) : Z := positionGlobal e.
Definition getRpm (e : Encoder) : Z := currentRpm e.
Definition getSyncOffset (e : Encoder) : Z := syncOffset e.

Definition resetPosition (e : Encoder) : Encoder :=
  with_syncOffset 0 (with_positionAvg 0 (with_position 0 e)).

Definition setSyncOffset (offset : Z) (e : Encoder) : Encoder :=
  with_syncOffset offset e.

Definition isSpinning (timeoutMs : Z) (nowUs : Z) (e : Encoder) : bool :=
  usub nowUs (lastUpdateUs e) <? (timeoutMs * 1000) mod 2 ^ 32.

End SpindleEncoder.

(** ** MotionController *)

Module MotionController.

(** The members of the class.  The encoder and the three axes, which
    the class holds by reference, are kept in the same record: every
    call on them goes through this state. *)
Record Motion : Type := mkMotion {
  spindle : SpindleEncoder.Encoder;
  zAxis : AxisController.Axis;
  xAxis : AxisController.Axis;
  a1Axis : AxisController.Axis;
  currentMode : Z;
  systemEnabled : bool;
  currentPitch : Z;
  currentStarts : Z;
  operationIndex : Z;
  operationSubIndex : Z;
  operationAdvanceFlag : bool;
  operationStartPitch : Z;
  operationPitchSign : Z;
  coneRatio : Q;
  turnPasses : Z;
  auxDirectionForward : bool
}.

Definition with_spindle (v : SpindleEncoder.Encoder) (m : Motion) : Motion :=
  mkMotion v (zAxis m) (xAxis m) (a1Axis m) (currentMode m) (systemEnabled
    m) (currentPitch m) (currentStarts m) (operationIndex m)
    (operationSubIndex m) (operationAdvanceFlag m) (operationStartPitch m)
    (operationPitchSign m) (coneRatio m) (turnPasses m) (auxDirectionForward
    m).

Definition with_zAxis (v : AxisController.Axis) (m : Motion) : Motion :=
  mkMotion (spindle m) v (xAxis m) (a1Axis m) (currentMode m) (systemEnabled
    m) (currentPitch m) (currentStarts m) (operationIndex m)
    (operationSubIndex m) (operationAdvanceFlag m) (operationStartPitch m)
    (operationPitchSign m) (coneRatio m) (turnPasses m) (auxDirectionForward
    m).

Definition with_xAxis (v : AxisController.Axis) (m : Motion) : Motion :=
  mkMotion (spindle m) (zAxis m) v (a1Axis m) (currentMode m) (systemEnabled
    m) (currentPitch m) (currentStarts m) (operationIndex m)
    (operationSubIndex m) (operationAdvanceFlag m) (operationStartPitch m)
    (operationPitchSign m) (coneRatio m) (turnPasses m) (auxDirectionForward
    m).

Definition with_a1Axis (v : AxisController.Axis) (m : Motion) : Motion :=
  mkMotion (spindle m) (zAxis m) (xAxis m) v (currentMode m) (systemEnabled
    m) (currentPitch m) (currentStarts m) (operationIndex m)
    (operationSubIndex m) (operationAdvanceFlag m) (operationStartPitch m)
    (operationPitchSign m) (coneRatio m) (turnPasses m) (auxDirectionForward
    m).

Definition with_currentMode (v : Z) (m : Motion) : Motion :=
  mkMotion (spindle m) (zAxis m) (xAxis m) (a1Axis m) v (systemEnabled m)
    (currentPitch m) (currentStarts m) (operationIndex m) (operationSubIndex
    m) (operationAdvanceFlag m) (operationStartPitch m) (operationPitchSign
    m) (coneRatio m) (turnPasses m) (auxDirectionForward m).

Definition with_systemEnabled (v : bool) (m : Motion) : Motion :=
  mkMotion (spindle m) (zAxis m) (xAxis m) (a1Axis m) (currentMode m) v
    (currentPitch m) (currentStarts m) (operationIndex m) (operationSubIndex
    m) (operationAdvanceFlag m) (operationStartPitch m) (operationPitchSign
    m) (coneRatio m) (turnPasses m) (auxDirectionForward m).

Definition with_currentPitch (v : Z) (m : Motion) : Motion :=
  mkMotion (spindle m) (zAxis m) (xAxis m) (a1Axis m) (currentMode m)
    (systemEnabled m) v (currentStarts m) (operationIndex m)
    (operationSubIndex m) (operationAdvanceFlag m) (operationStartPitch m)
    (operationPitchSign m) (coneRatio m) (turnPasses m) (auxDirectionForward
    m).

Definition with_currentStarts (v : Z) (m : Motion) : Motion :=
  mkMotion (spindle m) (zAxis m) (xAxis m) (a1Axis m) (currentMode m)
    (systemEnabled m) (currentPitch m) v (operationIndex m)
    (operationSubIndex m) (operationAdvanceFlag m) (operationStartPitch m)
    (operationPitchSign m) (coneRatio m) (turnPasses m) (auxDirectionForward
    m).

Definition with_operationIndex (v : Z) (m : Motion) : Motion :=
  mkMotion (spindle m) (zAxis m) (xAxis m) (a1Axis m) (currentMode m)
    (systemEnabled m) (currentPitch m) (currentStarts m) v
    (operationSubIndex m) (operationAdvanceFlag m) (operationStartPitch m)
    (operationPitchSign m) (coneRatio m) (turnPasses m) (auxDirectionForward
    m).

Definition with_operationSubIndex (v : Z) (m : Motion) : Motion :=
  mkMotion (spindle m) (zAxis m) (xAxis m) (a1Axis m) (currentMode m)
    (systemEnabled m) (currentPitch m) (currentStarts m) (operationIndex m)
    v (operationAdvanceFlag m) (operationStartPitch m) (operationPitchSign
    m) (coneRatio m) (turnPasses m) (auxDirectionForward m).

Definition with_operationAdvanceFlag (v : bool) (m : Motion) : Motion :=
  mkMotion (spindle m) (zAxis m) (xAxis m) (a1Axis m) (currentMode m)
    (systemEnabled m) (currentPitch m) (currentStarts m) (operationIndex m)
    (operationSubIndex m) v (operationStartPitch m) (operationPitchSign m)
    (coneRatio m) (turnPasses m) (auxDirectionForward m).

Definition with_operationStartPitch (v : Z) (m : Motion) : Motion :=
  mkMotion (spindle m) (zAxis m) (xAxis m) (a1Axis m) (currentMode m)
    (systemEnabled m) (currentPitch m) (currentStarts m) (operationIndex m)
    (operationSubIndex m) (operationAdvanceFlag m) v (operationPitchSign m)
    (coneRatio m) (turnPasses m) (auxDirectionForward m).

Definition with_operationPitchSign (v : Z) (m : Motion) : Motion :=
  mkMotion (spindle m) (zAxis m) (xAxis m) (a1Axis m) (currentMode m)
    (systemEnabled m) (currentPitch m) (currentStarts m) (operationIndex m)
    (operationSubIndex m) (operationAdvanceFlag m) (operationStartPitch m) v
    (coneRatio m) (turnPasses m) (auxDirectionForward m).

Definition with_coneRatio (v : Q) (m : Motion) : Motion :=
  mkMotion (spindle m) (zAxis m) (xAxis m) (a1Axis m) (currentMode m)
    (systemEnabled m) (currentPitch m) (currentStarts m) (operationIndex m)
    (operationSubIndex m) (operationAdvanceFlag m) (operationStartPitch m)
    (operationPitchSign m) v (turnPasses m) (auxDirectionForward m).

Definition with_turnPasses (v : Z) (m : Motion) : Motion :=
  mkMotion (spindle m) (zAxis m) (xAxis m) (a1Axis m) (currentMode m)
    (systemEnabled m) (currentPitch m) (currentStarts m) (operationIndex m)
    (operationSubIndex m) (operationAdvanceFlag m) (operationStartPitch m)
    (operationPitchSign m) (coneRatio m) v (auxDirectionForward m).

Definition with_auxDirectionForward (v : bool) (m : Motion) : Motion :=
  mkMotion (spindle m) (zAxis m) (xAxis m) (a1Axis m) (currentMode m)
    (systemEnabled m) (currentPitch m) (currentStarts m) (operationIndex m)
    (operationSubIndex m) (operationAdvanceFlag m) (operationStartPitch m)
    (operationPitchSign m) (coneRatio m) (turnPasses m) v.

(** The constructor. *)
Definition new (spindleEnc : SpindleEncoder.Encoder)
    (zAxisCtrl xAxisCtrl a1AxisCtrl : AxisController.Axis) : Motion :=
  mkMotion spindleEnc zAxisCtrl xAxisCtrl a1AxisCtrl
    0 false 0 1 0 0 false 0 1 1%Q 3 true.

(** What one call of [update] reads from outside: the hardware pulse
    counter and [micros()], once in each place the code calls it. *)
Record TickInput : Type := mkTickInput {
  pcntCount : Z;
  usEncoder : Z;
  usModeZ : Z;
  usModeX : Z;
  usZ : Z;
  usX : Z;
  usA1 : Z
}.

Definition setNewOrigin (m : Motion) : Motion :=
  let m := with_zAxis (AxisController.setOrigin (zAxis m)) m in
  let m := with_xAxis (AxisController.setOrigin (xAxis m)) m in
  let m := if AxisController.isActive (a1Axis m)
           then with_a1Axis (AxisController.setOrigin (a1Axis m)) m
           else m in
  with_spindle (SpindleEncoder.resetPosition (spindle m)) m.

Definition setEnabled (enable : bool) (m : Motion) : Motion :=
  if systemEnabled m && enable then m
  else if negb enable then
    let m := with_systemEnabled false m in
    with_operationIndex 0 m
  else
    let m := with_zAxis (AxisController.setEnabled true (zAxis m)) m in
    let m := with_xAxis (AxisController.setEnabled true (xAxis m)) m in
    let m := if AxisController.isActive (a1Axis m)
             then with_a1Axis (AxisController.setEnabled true (a1Axis m)) m
             else m in
    let m := setNewOrigin m in
    let m := with_systemEnabled true m in
    let m := with_operationPitchSign (if currentPitch m >=? 0 then 1 else -1) m in
    let m := with_operationStartPitch (currentPitch m) m in
    let m := with_operationIndex 0 m in
    let m := with_operationAdvanceFlag false m in
    with_operationSubIndex 0 m.

Definition setIsOnFromLoop (on : bool) (m : Motion) : Motion :=
  setEnabled on m.

Definition setOperationMode (mode : Z) (m : Motion) : Motion :=
  if currentMode m =? mode then m
  else
    let m := if systemEnabled m then setEnabled false m else m in
    let m := with_currentMode mode m in
    with_operationIndex 0 m.

Definition setConeRatio (ratio : Q) (m : Motion) : Motion :=
  with_coneRatio ratio m.

Definition setAuxDirection (forward : bool) (m : Motion) : Motion :=
  with_auxDirectionForward forward m.

Definition advanceOperation (m : Motion) : Motion :=
  with_operationAdvanceFlag true m.

Section WithConfig.

Variable K : ConfigH.

Definition setPitch (pitch : Z) (m : Motion) : Motion :=
  if (pitch <? - DUPR_MAX K) || (pitch >? DUPR_MAX K) then m
  else
    let m := with_currentPitch pitch m in
    setNewOrigin m.

Definition setStarts (starts : Z) (m : Motion) : Motion :=
  if (starts <? 1) || (starts >? STARTS_MAX K) then m
  else
    let m := with_currentStarts starts m in
    setNewOrigin m.

Definition setTurnPasses (passes : Z) (m : Motion) : Motion :=
  if (passes <? 1) || (passes >? PASSES_MAX K) then m
  else with_turnPasses passes m.

(** [spindlePos * pos / pos / ENCODER_STEPS_INT * currentPitch * currentStarts],
    evaluated from left to right on [long], then the stops. *)
Definition calculateAxisPosition (axis : AxisController.Axis) (spindlePos : Z)
    (respectStops : bool) (m : Motion) : exec Z :=
  q1 <- cdiv (spindlePos * AxisController.getPositionSteps axis)
             (AxisController.getPositionSteps axis) ;;
  q2 <- cdiv q1 (ENCODER_STEPS_INT K) ;;
  let newPos := q2 * currentPitch m * currentStarts m in
  Done (if respectStops then
          if newPos <? AxisController.getRightStop axis
          then AxisController.getRightStop axis
          else if newPos >? AxisController.getLeftStop axis
               then AxisController.getLeftStop axis
               else newPos
        else newPos).

(** [axisPos * pos / pos * ENCODER_STEPS_INT / (currentPitch * currentStarts)]. *)
Definition calculateSpindlePosition (axis : AxisController.Axis) (axisPos : Z)
    (m : Motion) : exec Z :=
  q1 <- cdiv (axisPos * AxisController.getPositionSteps axis)
             (AxisController.getPositionSteps axis) ;;
  cdiv (q1 * ENCODER_STEPS_INT K) (currentPitch m * currentStarts m).

Definition updateNormalMode (i : TickInput) (m : Motion) : exec Motion :=
  if AxisController.isMoving (usModeZ i) (zAxis m) then Done m
  else
    targetPos <- calculateAxisPosition (zAxis m)
                   (SpindleEncoder.getAveragePosition (spindle m)) true m ;;
    if negb (targetPos =? AxisController.getPositionSteps (zAxis m))
    then Done (with_zAxis (snd (AxisController.moveTo targetPos true (zAxis m))) m)
    else Done m.

(** [zToXRatio] is a floating-point product of [-coneRatio / 2] with
    quotients of the positions; with [coneRatio] other than zero it is
    (underflow aside) a number other than zero, an infinity or a NaN,
    so the test [zToXRatio == 0] that follows in the source does not
    hold and the speed limits of both axes are lifted. *)
Definition updateConeMode (i : TickInput) (m : Motion) : Motion :=
  if AxisController.isMoving (usModeZ i) (zAxis m)
     || AxisController.isMoving (usModeX i) (xAxis m)
     || Qeq_bool (coneRatio m) 0
  then m
  else
    let m := with_xAxis (AxisController.setMaxSpeed LONG_MAX (xAxis m)) m in
    with_zAxis (AxisController.setMaxSpeed LONG_MAX (zAxis m)) m.

Definition updateTurnMode (i : TickInput) (m : Motion) : Motion :=
  if AxisController.isMoving (usModeZ i) (zAxis m)
     || AxisController.isMoving (usModeX i) (xAxis m)
     || (turnPasses m <=? 0)
     || (AxisController.getLeftStop (zAxis m) =? LONG_MAX)
     || (AxisController.getRightStop (zAxis m) =? LONG_MIN)
     || (AxisController.getLeftStop (xAxis m) =? LONG_MAX)
     || (AxisController.getRightStop (xAxis m) =? LONG_MIN)
     || (currentPitch m =? 0)
     || (currentPitch m * operationPitchSign m <? 0)
     || (currentStarts m <? 1)
  then setIsOnFromLoop false m
  else m.

(** The mode switch of [update].  The modes other than Normal, Cone
    and Turn, and the default branch, only write to the log. *)
Definition dispatchMode (i : TickInput) (m : Motion) : exec Motion :=
  if currentMode m =? MODE_NORMAL K then updateNormalMode i m
  else if currentMode m =? MODE_CONE K then Done (updateConeMode i m)
  else if currentMode m =? MODE_TURN K then Done (updateTurnMode i m)
  else Done m.

(** The ticks of the axes that end [update]. *)
Definition updateAxes (i : TickInput) (m : Motion) : Motion :=
  let m := with_zAxis (AxisController.update (usZ i) (zAxis m)) m in
  let m := with_xAxis (AxisController.update (usX i) (xAxis m)) m in
  if AxisController.isActive (a1Axis m)
  then with_a1Axis (AxisController.update (usA1 i) (a1Axis m)) m
  else m.

Definition update (i : TickInput) (m : Motion) : exec Motion :=
  let m := with_spindle
             (SpindleEncoder.update K (pcntCount i) (usEncoder i) (spindle m)) m in
  m <- (if negb (systemEnabled m)
           || (currentPitch m =? 0)
           || negb (SpindleEncoder.getSyncOffset (spindle m) =? 0)
        then Done m
        else dispatchMode i m) ;;
  Done (updateAxes i m).

(** The commands of the coordinator and the motion task's tick. *)
Inductive Command : Type :=
| SetEnabled (enable : bool)
| SetOperationMode (mode : Z)
| SetPitch (pitch : Z)
| SetStarts (starts : Z)
| Update (i : TickInput).

Definition step (c : Command) (m : Motion) : exec Motion :=
  match c with
  | SetEnabled b => Done (setEnabled b m)
  | SetOperationMode mode => Done (setOperationMode mode m)
  | SetPitch p => Done (setPitch p m)
  | SetStarts n => Done (setStarts n m)
  | Update i => update i m
  end.

Fixpoint run (cs : list Command) (m : Motion) : exec Motion :=
  match cs with
  | [] => Done m
  | c :: cs' => m' <- step c m ;; run cs' m'
  end.

(** The Normal-mode target as the design document words it:
    [average_position * pitch_du * starts * steps_per_du / PULSES_PER_REV],
    with [steps_per_du = motor_steps_per_rev / screw_pitch_du]. *)
Definition normalTargetAsSpecified (axis : AxisController.Axis)
    (averagePosition pitchDu starts : Z) : Q :=
  inject_Z averagePosition * inject_Z pitchDu * inject_Z starts
  * (AxisController.motorSteps (AxisController.config axis)
     / AxisController.screwPitch (AxisController.config axis))
  / inject_Z (ENCODER_STEPS_INT K).

End WithConfig.

(** The three axes of the coordinator. *)
Inductive AxisId : Type := AxisZ | AxisX | AxisA1.

Definition axisOf (ax : AxisId) (m : Motion) : AxisController.Axis :=
  match ax with
  | AxisZ => zAxis m
  | AxisX => xAxis m
  | AxisA1 => a1Axis m
  end.

(** The synchronization reset, [m] before and [m'] after. *)
Definition syncReset (m m' : Motion) : Prop :=
  AxisController.originReset (zAxis m) (zAxis m') /\
  AxisController.originReset (xAxis m) (xAxis m') /\
  (AxisController.isActive (a1Axis m) = true ->
   AxisController.originReset (a1Axis m) (a1Axis m')) /\
  SpindleEncoder.position (spindle m') = 0 /\
  SpindleEncoder.positionAvg (spindle m') = 0 /\
  SpindleEncoder.syncOffset (spindle m') = 0.

(** A sequence of [setEnabled] calls. *)
Definition setEnabledSeq (bs : list bool) (m : Motion) : Motion :=
  fold_left (fun m b => setEnabled b m) bs m.

(** Number of calls in [bs] that switch the system on, [on] being
    whether it is on before the first. *)
Fixpoint enableTransitions (on : bool) (bs : list bool) : Z :=
  match bs with
  | [] => 0
  | b :: bs' => (if b && negb on then 1 else 0) + enableTransitions b bs'
  end.

(** On, off, on, off, ...: [n] times on and off. *)
Fixpoint alternating (n : nat) : list bool :=
  match n with
  | O => []
  | S n' => true :: false :: alternating n'
  end.

(** The machine after construction: Z and X as [c], no A1. *)
Definition machine (c : AxisController.AxisConfig) : Motion :=
  new (SpindleEncoder.new 0) (AxisController.new c) (AxisController.new c)
    (AxisController.new AxisController.absentConfig).

(** The machine switched on in Normal mode with pitch 500, then the
    tool of Z taken to 100 with its left stop at 150 and the spindle
    turned by 700 pulses. *)
Definition threadingMachine : Motion :=
  let m := setEnabled true
             (setPitch sampleConfigH 500
                (setOperationMode (MODE_NORMAL sampleConfigH)
                   (machine AxisController.sampleConfig))) in
  let z := AxisController.run
             (AxisController.MoveTo 100 false :: AxisController.ticks 100 2000)
             (AxisController.setLeftStop 150 (zAxis m)) in
  with_spindle (SpindleEncoder.processPulses sampleConfigH 700 5000 (spindle m))
    (with_zAxis z m).

(** A tick that reads [count] from the pulse counter, 100 ms after
    start-up. *)
Definition tickAt100ms (count : Z) : TickInput :=
  mkTickInput count 100000 100000 100000 100000 100000 100000.

(** The assignment [currentPitch = pitch] of [setPitch]
    (MotionController.h, line 206), without the [setNewOrigin()] that
    follows it at line 209.  [setPitch] does not take [motionMutex], so
    this is the state a tick of the motion task works on when it runs
    between the two. *)
Definition storePitch (pitch : Z) (m : Motion) : Motion :=
  with_currentPitch pitch m.

(** The machine switched on in Normal mode with pitch 100, the spindle
    one turn from its zero and the tool of Z at 100, the position that
    pitch gives it: spindle and axis are in step. *)
Definition syncedMachine : Motion :=
  let m := setEnabled true
             (setPitch sampleConfigH 100
                (setOperationMode (MODE_NORMAL sampleConfigH)
                   (machine AxisController.sampleConfig))) in
  let z := AxisController.run
             (AxisController.MoveTo 100 false :: AxisController.ticks 100 2000)
             (zAxis m) in
  with_spindle (SpindleEncoder.processPulses sampleConfigH 1200 5000 (spindle m))
    (with_zAxis z m).

(** A tick that reads [count] from the pulse counter, 300 ms after
    start-up. *)
Definition tickAt300ms (count : Z) : TickInput :=
  mkTickInput count 300000 300000 300000 300000 300000 300000.

End MotionController.

(** ** InputManager *)

(** Further constants of Config.h, read by the input handlers and by
    the system manager. *)
Record ConfigKeys : Type := mkConfigKeys {
  MODE_ASYNC : Z;
  MODE_FACE : Z;
  MODE_CUT : Z;
  MODE_THREAD : Z;
  MODE_ELLIPSE : Z;
  MODE_GCODE : Z;
  MODE_A1 : Z;
  ACTIVE_A1 : bool;
  B_ON : Z;
  ESTOP_NONE : Z
}.

(** Values for illustration: the mode numbers of the original
    firmware, no A1 axis. *)
Definition sampleConfigKeys : ConfigKeys :=
  mkConfigKeys 1 4 5 6 7 8 9 false 1 0.

Module InputManager.

(** The members of the class, without the references to the keypad and
    to the coordinator. *)
Record Input : Type := mkInput {
  numpadDigits : list Z;
  numpadIndex : Z;
  inNumpadMode : bool;
  leftPressed : bool;
  rightPressed : bool;
  upPressed : bool;
  downPressed : bool;
  offPressed : bool;
  gearsPressed : bool;
  turnPressed : bool;
  lastKeypadTime : Z;
  resetPressTime : Z;
  setupWizardIndex : Z;
  auxDirectionForward : bool;
  gcodeProgramIndex : Z;
  gcodeProgramCount : Z
}.

Definition with_numpadDigits (v : list Z) (s : Input) : Input :=
  mkInput v (numpadIndex s) (inNumpadMode s) (leftPressed s) (rightPressed
    s) (upPressed s) (downPressed s) (offPressed s) (gearsPressed s)
    (turnPressed s) (lastKeypadTime s) (resetPressTime s) (setupWizardIndex
    s) (auxDirectionForward s) (gcodeProgramIndex s) (gcodeProgramCount s).

Definition with_numpadIndex (v : Z) (s : Input) : Input :=
  mkInput (numpadDigits s) v (inNumpadMode s) (leftPressed s) (rightPressed
    s) (upPressed s) (downPressed s) (offPressed s) (gearsPressed s)
    (turnPressed s) (lastKeypadTime s) (resetPressTime s) (setupWizardIndex
    s) (auxDirectionForward s) (gcodeProgramIndex s) (gcodeProgramCount s).

Definition with_inNumpadMode (v : bool) (s : Input) : Input :=
  mkInput (numpadDigits s) (numpadIndex s) v (leftPressed s) (rightPressed
    s) (upPressed s) (downPressed s) (offPressed s) (gearsPressed s)
    (turnPressed s) (lastKeypadTime s) (resetPressTime s) (setupWizardIndex
    s) (auxDirectionForward s) (gcodeProgramIndex s) (gcodeProgramCount s).


Definition with_setupWizardIndex (v : Z) (s : Input) : Input :=
  mkInput (numpadDigits s) (numpadIndex s) (inNumpadMode s) (leftPressed s)
    (rightPressed s) (upPressed s) (downPressed s) (offPressed s)
    (gearsPressed s) (turnPressed s) (lastKeypadTime s) (resetPressTime s) v
    (auxDirectionForward s) (gcodeProgramIndex s) (gcodeProgramCount s).

Definition with_auxDirectionForward (v : bool) (s : Input) : Input :=
  mkInput (numpadDigits s) (numpadIndex s) (inNumpadMode s) (leftPressed s)
    (rightPressed s) (upPressed s) (downPressed s) (offPressed s)
    (gearsPressed s) (turnPressed s) (lastKeypadTime s) (resetPressTime s)
    (setupWizardIndex s) v (gcodeProgramIndex s) (gcodeProgramCount s).

(** [a[i]] and [a[i] = v] on the digit buffer; an index outside the
    buffer reads 0 and writes nothing. *)
Definition arrayGet (a : list Z) (i : Z) : Z := nth (Z.to_nat i) a 0.

Fixpoint arraySetNat (a : list Z) (i : nat) (v : Z) : list Z :=
  match a, i with
  | [], _ => []
  | _ :: a', O => v :: a'
  | x :: a', S i' => x :: arraySetNat a' i' v
  end.

Definition arraySet (a : list Z) (i : Z) (v : Z) : list Z :=
  if i <? 0 then a else arraySetNat a (Z.to_nat i) v.

(** The indices [lo, lo + 1, ..., hi - 1] of a [for] loop. *)
Definition indices (lo hi : Z) : list Z :=
  map (fun n => lo + Z.of_nat n) (seq 0 (Z.to_nat (hi - lo))).

(** The constructor. *)
Definition new : Input :=
  let s := mkInput [0; 0; 0; 0; 0; 0; 0; 0] 0 false false false false false false
             false false 0 0 0 true 0 0 in
  with_numpadDigits
    (fold_left (fun a i => arraySet a i 0) (indices 0 8) (numpadDigits s)) s.

(** [getNumpadResult]: [pow(10, k)] is the exact power. *)
Definition getNumpadResult (s : Input) : Z :=
  fold_left
    (fun result i =>
       result + arrayGet (numpadDigits s) i * 10 ^ (numpadIndex s - 1 - i))
    (indices 0 (numpadIndex s)) 0.

Definition resetNumpad (s : Input) : Input :=
  let s := with_numpadIndex 0 s in
  let s := with_inNumpadMode false s in
  with_numpadDigits
    (fold_left (fun a i => arraySet a i 0) (indices 0 8) (numpadDigits s)) s.

Definition numpadPress (digit : Z) (s : Input) : Input :=
  let s := if negb (inNumpadMode s) then with_numpadIndex 0 s else s in
  if numpadIndex s <? 8 then
    let s := with_numpadDigits (arraySet (numpadDigits s) (numpadIndex s) digit) s in
    with_numpadIndex (numpadIndex s + 1) s
  else
    let a := fold_left (fun a i => arraySet a i (arrayGet a (i + 1)))
               (indices 0 7) (numpadDigits s) in
    with_numpadDigits (arraySet a 7 digit) s.

Definition numpadBackspace (s : Input) : Input :=
  if inNumpadMode s && (numpadIndex s >? 0)
  then with_numpadIndex (numpadIndex s - 1) s
  else s.

Definition numpadPlusMinus (plus : bool) (s : Input) : Input :=
  if numpadIndex s >? 0 then
    let last := arrayGet (numpadDigits s) (numpadIndex s - 1) in
    if (last <? 9) && plus then
      with_numpadDigits (arraySet (numpadDigits s) (numpadIndex s - 1) (last + 1)) s
    else if (last >? 1) && negb plus then
      with_numpadDigits (arraySet (numpadDigits s) (numpadIndex s - 1) (last - 1)) s
    else s
  else s.

Definition numpadToDeciMicrons (s : Input) : Z :=
  let result := getNumpadResult s in
  if result =? 0 then 0 else result * 10.

Definition numpadToConeRatio (s : Input) : Q :=
  inject_Z (getNumpadResult s) / 100000.

(** The branch of [processNumpadInput] for a digit key, once the key
    code is decoded to its digit. *)
Definition digitKey (digit : Z) (s : Input) : Input :=
  with_inNumpadMode true (numpadPress digit s).

(** The branch of [processNumpadInput] for the backspace key. *)
Definition backspaceKey (s : Input) : Input :=
  with_inNumpadMode true (numpadBackspace s).

Definition typeDigits (ds : list Z) (s : Input) : Input :=
  fold_left (fun s d => digitKey d s) ds s.

(** The number that a sequence of digits denotes. *)
Definition decimalOf (ds : list Z) : Z :=
  fold_left (fun acc d => 10 * acc + d) ds 0.

(** The buffer has its eight cells and the index is inside it. *)
Definition bufferOk (s : Input) : Prop :=
  length (numpadDigits s) = 8%nat /\ 0 <= numpadIndex s <= 8.

Definition handleLimitButton (isLeftLimit : bool) (axis : AxisController.Axis)
    : AxisController.Axis :=
  if isLeftLimit then
    AxisController.setLeftStop
      (if AxisController.getLeftStop axis =? LONG_MAX
       then AxisController.getPositionSteps axis else LONG_MAX) axis
  else
    AxisController.setRightStop
      (if AxisController.getRightStop axis =? LONG_MIN
       then AxisController.getPositionSteps axis else LONG_MIN) axis.

Section WithConfig.

Variable K : ConfigH.
Variable C : ConfigKeys.


Definition isPassMode (m : MotionController.Motion) : bool :=
  let mode := MotionController.currentMode m in
  (mode =? MODE_TURN K) || (mode =? MODE_FACE C) || (mode =? MODE_CUT C)
  || (mode =? MODE_THREAD C) || (mode =? MODE_ELLIPSE C).



Definition handleReverse (m : MotionController.Motion) : MotionController.Motion :=
  MotionController.setPitch K (- MotionController.currentPitch m) m.

Definition handleModeChange (m : MotionController.Motion)
    : MotionController.Motion :=
  let currentMode := MotionController.currentMode m in
  let newMode :=
    if currentMode =? MODE_NORMAL K then
      if ACTIVE_A1 C then MODE_A1 C else MODE_ELLIPSE C
    else if currentMode =? MODE_A1 C then MODE_ELLIPSE C
    else if currentMode =? MODE_ELLIPSE C then MODE_GCODE C
    else if currentMode =? MODE_GCODE C then MODE_ASYNC C
    else MODE_NORMAL K in
  MotionController.setOperationMode newMode m.

Definition resetSystem (sm : Input * MotionController.Motion)
    : Input * MotionController.Motion :=
  let m := MotionController.setEnabled false (snd sm) in
  let m := MotionController.setOperationMode (MODE_NORMAL K) m in
  let m := MotionController.setPitch K 0 m in
  let m := MotionController.setStarts K 1 m in
  let s := with_setupWizardIndex 0 (fst sm) in
  let s := with_auxDirectionForward true s in
  (resetNumpad s, m).

(** [processNumpadResult]: the result is the returned flag and the
    state. *)
Definition processNumpadResult (keyCode : Z)
    (sm : Input * MotionController.Motion)
    : bool * (Input * MotionController.Motion) :=
  let s := fst sm in
  let m := snd sm in
  let newDu := numpadToDeciMicrons s in
  let newConeRatio := numpadToConeRatio s in
  let numpadResult := getNumpadResult s in
  let s := resetNumpad s in
  if keyCode =? B_ON C then
    if isPassMode m && (setupWizardIndex s =? 1) then
      (true, (with_setupWizardIndex (setupWizardIndex s + 1) s,
              MotionController.setTurnPasses K (Z.min (PASSES_MAX K) numpadResult) m))
    else if (MotionController.currentMode m =? MODE_CONE K)
            && (setupWizardIndex s =? 1) then
      (true, (with_setupWizardIndex (setupWizardIndex s + 1) s,
              MotionController.setConeRatio newConeRatio m))
    else if Z.abs newDu <=? DUPR_MAX K then
      (true, (s, MotionController.setPitch K newDu m))
    else (true, (s, m))
  else (false, (s, m)).

(** The last branch of [processNumpadInput], reached by a key that is
    neither a digit nor backspace (nor plus or minus during numeric
    entry): during numeric entry the key ends the entry and goes to
    [processNumpadResult], otherwise it is not a numeric key. *)
Definition otherKey (keyCode : Z)
    (sm : Input * MotionController.Motion)
    : bool * (Input * MotionController.Motion) :=
  if inNumpadMode (fst sm) then
    processNumpadResult keyCode (with_inNumpadMode false (fst sm), snd sm)
  else (false, sm).

End WithConfig.

End InputManager.

(** ** SystemManager *)

Module SystemManager.

(** The coordinator with its axes and encoder, and the emergency
    state. *)
Record System : Type := mkSystem {
  motion : MotionController.Motion;
  emergencyState : Z
}.

Definition emergencyStop (reason : Z) (s : System) : System :=
  let m := MotionController.setEnabled false (motion s) in
  let m := MotionController.with_zAxis
             (AxisController.setEnabled false (MotionController.zAxis m)) m in
  let m := MotionController.with_xAxis
             (AxisController.setEnabled false (MotionController.xAxis m)) m in
  let m := if AxisController.isActive (MotionController.a1Axis m)
           then MotionController.with_a1Axis
                  (AxisController.setEnabled false (MotionController.a1Axis m)) m
           else m in
  mkSystem m reason.

Definition isSystemOk (C : ConfigKeys) (s : System) : bool :=
  emergencyState s =? ESTOP_NONE C.

(** One round of [motionTask]: the coordinator ticks while there is no
    emergency, and the task ends otherwise. *)
Definition motionTaskRound (K : ConfigH) (C : ConfigKeys)
    (i : MotionController.TickInput) (s : System) : exec System :=
  if emergencyState s =? ESTOP_NONE C then
    m <- MotionController.update K i (motion s) ;;
    Done (mkSystem m (emergencyState s))
  else Done s.

End SystemManager.

(** * Properties *)

(** ** The stepping tick and the target command *)

Import AxisController.

#[local] Arguments tooEarly : simpl never.
#[local] Arguments delayUs : simpl never.
#[local] Arguments Qtrunc : simpl never.

(** Case analysis on the conditions of the code, innermost first. *)
Ltac split_ifs :=
  repeat match goal with
         | |- context [if ?c then _ else _] =>
             lazymatch c with
             | context [if _ then _ else _] => fail
             | _ => destruct c eqn:?; cbn
             end
         end.

Lemma moveTo_frame : forall t k a,
  pos (snd (moveTo t k a)) = pos a /\
  motorPos (snd (moveTo t k a)) = motorPos a /\
  backlashSteps (snd (moveTo t k a)) = backlashSteps a /\
  leftStop (snd (moveTo t k a)) = leftStop a /\
  rightStop (snd (moveTo t k a)) = rightStop a /\
  gpio (snd (moveTo t k a)) = gpio a.
Proof.
  intros t k a. unfold moveTo. cbn.
  destruct (t =? pos a); cbn; [tauto|].
  destruct (Z.abs (t - pos a) >? estopSteps a); cbn; tauto.
Qed.

Lemma moveTo_pending : forall t k a,
  pendingPos (snd (moveTo t k a)) =
    if t =? pos a then 0
    else t - motorPos a - (if t >? pos a then 0 else backlashSteps a).
Proof.
  intros t k a. unfold moveTo. cbn.
  destruct (t =? pos a); cbn; [reflexivity|].
  destruct (Z.abs (t - pos a) >? estopSteps a); reflexivity.
Qed.

Lemma moveTo_accepts : forall t k a,
  fst (moveTo t k a) =
    (t =? pos a) || negb (Z.abs (t - pos a) >? estopSteps a).
Proof.
  intros t k a. unfold moveTo. cbn.
  destruct (t =? pos a); cbn; [reflexivity|].
  destruct (Z.abs (t - pos a) >? estopSteps a); reflexivity.
Qed.

Lemma update_idle : forall t a,
  fires t a = false ->
  pos (update t a) = pos a /\
  motorPos (update t a) = motorPos a /\
  pendingPos (update t a) = pendingPos a /\
  backlashSteps (update t a) = backlashSteps a /\
  leftStop (update t a) = leftStop a /\
  rightStop (update t a) = rightStop a /\
  gpio (update t a) = gpio a.
Proof.
  intros t a. unfold fires, update.
  destruct (pendingPos a =? 0) eqn:E0; cbn.
  - intros _. destruct (speed a >? speedStart (config a)); cbn; tauto.
  - destruct (tooEarly t a); cbn; [tauto | discriminate].
Qed.

Lemma update_fires : forall t a,
  fires t a = true ->
  let d := if pendingPos a >? 0 then 1 else -1 in
  pendingPos (update t a) = pendingPos a - d /\
  motorPos (update t a) = motorPos a + d /\
  backlashSteps (update t a) = backlashSteps a /\
  leftStop (update t a) = leftStop a /\
  rightStop (update t a) = rightStop a /\
  pos (update t a) =
    (if (pendingPos a >? 0) && (motorPos a >=? pos a) then pos a + 1
     else if negb (pendingPos a >? 0) && (motorPos a <=? pos a - backlashSteps a)
          then pos a - 1 else pos a).
Proof.
  intros t a. unfold fires, update.
  destruct (pendingPos a =? 0) eqn:E0; cbn; [discriminate|].
  destruct (tooEarly t a); cbn; [discriminate|]. intros _.
  unfold setDirection.
  destruct (pendingPos a >? 0) eqn:Ed; cbn;
    destruct (negb (eqb (direction a) _) || negb (directionInitialized a)); cbn;
    destruct (motorPos a >=? pos a) eqn:Ef;
    destruct (motorPos a <=? pos a - backlashSteps a) eqn:Er; cbn;
    split_ifs; repeat split; reflexivity.
Qed.

Lemma fires_pending : forall t a, fires t a = true -> pendingPos a <> 0.
Proof.
  intros t a. unfold fires.
  destruct (pendingPos a =? 0) eqn:E0; cbn; [discriminate|].
  intros _. apply Z.eqb_neq. exact E0.
Qed.

(** A tick that fires emits exactly one pulse. *)
Lemma update_fires_pulse : forall t a,
  fires t a = true ->
  stepPulses (gpio (update t a)) = S (stepPulses (gpio a)).
Proof.
  intros t a. unfold fires, update.
  destruct (pendingPos a =? 0) eqn:E0; cbn; [discriminate|].
  destruct (tooEarly t a); cbn; [discriminate|]. intros _.
  unfold setDirection.
  destruct (negb (eqb (direction a) _) || negb (directionInitialized a)); cbn;
    split_ifs; reflexivity.
Qed.

(** The stepping tick keeps both forms of the backlash bound. *)
Lemma update_backlashBound : forall t a,
  backlashBound a -> backlashBound (update t a).
Proof.
  intros t a H. unfold backlashBound in *.
  destruct (fires t a) eqn:F.
  - destruct (update_fires t a F) as (_ & Hm & Hb & _ & _ & Hp).
    rewrite Hm, Hb, Hp.
    destruct (pendingPos a >? 0); cbn;
      destruct (motorPos a >=? pos a) eqn:Ef;
      destruct (motorPos a <=? pos a - backlashSteps a) eqn:Er; lia.
  - destruct (update_idle t a F) as (Hp & Hm & _ & Hb & _).
    rewrite Hp, Hm, Hb. exact H.
Qed.

Lemma update_motorLag : forall t a,
  motorLag a -> motorLag (update t a).
Proof.
  intros t a H. unfold motorLag in *.
  destruct (fires t a) eqn:F.
  - destruct (update_fires t a F) as (_ & Hm & Hb & _ & _ & Hp).
    rewrite Hm, Hb, Hp.
    destruct (pendingPos a >? 0); cbn;
      destruct (motorPos a >=? pos a) eqn:Ef;
      destruct (motorPos a <=? pos a - backlashSteps a) eqn:Er; lia.
  - destruct (update_idle t a F) as (Hp & Hm & _ & Hb & _).
    rewrite Hp, Hm, Hb. exact H.
Qed.

Lemma step_backlashBound : forall c a,
  backlashBound a -> backlashBound (step c a).
Proof.
  intros [t k | t] a H; cbn.
  - unfold backlashBound in *.
    destruct (moveTo_frame t k a) as (Hp & Hm & Hb & _).
    rewrite Hp, Hm, Hb. exact H.
  - apply update_backlashBound. exact H.
Qed.

Lemma step_motorLag : forall c a,
  motorLag a -> motorLag (step c a).
Proof.
  intros [t k | t] a H; cbn.
  - unfold motorLag in *.
    destruct (moveTo_frame t k a) as (Hp & Hm & Hb & _).
    rewrite Hp, Hm, Hb. exact H.
  - apply update_motorLag. exact H.
Qed.

(** Case analysis on the integer comparisons of the goal. *)
Ltac zcases :=
  repeat match goal with
         | |- context [?x >? ?y] => destruct (Z.gtb_spec x y)
         | |- context [?x <? ?y] => destruct (Z.ltb_spec x y)
         | |- context [?x >=? ?y] => destruct (Z.geb_spec x y)
         | |- context [?x <=? ?y] => destruct (Z.leb_spec x y)
         | |- context [?x =? ?y] => destruct (Z.eqb_spec x y)
         end; cbn [andb orb negb].

Lemma moveTo_windowInv : forall t k a,
  motorLag a -> withinStops a -> rightStop a <= t <= leftStop a ->
  windowInv (snd (moveTo t k a)).
Proof.
  intros t k a Hl Hw Ht.
  unfold windowInv, withinStops, pendingTarget, motorLag in *.
  destruct (moveTo_frame t k a) as (Hp & Hm & Hb & Hls & Hrs & _).
  rewrite (moveTo_pending t k a), Hp, Hm, Hb, Hls, Hrs.
  zcases; lia.
Qed.

Lemma update_windowInv : forall t a,
  motorLag a -> windowInv a -> windowInv (update t a).
Proof.
  intros t a Hl Hw.
  unfold windowInv, withinStops, pendingTarget, motorLag in *.
  destruct (fires t a) eqn:F.
  - pose proof (fires_pending t a F) as Hne.
    destruct (update_fires t a F) as (Hpe & Hm & Hb & Hls & Hrs & Hp).
    rewrite Hpe, Hm, Hb, Hls, Hrs, Hp. clear Hpe Hm Hb Hls Hrs Hp.
    revert Hw. zcases; lia.
  - destruct (update_idle t a F) as (Hp & Hm & Hpe & Hb & Hls & Hrs & _).
    rewrite Hp, Hm, Hpe, Hb, Hls, Hrs. exact Hw.
Qed.

Lemma states_frame_stops : forall c a,
  leftStop (step c a) = leftStop a /\ rightStop (step c a) = rightStop a.
Proof.
  intros [t k | t] a; cbn.
  - destruct (moveTo_frame t k a) as (_ & _ & _ & Hls & Hrs & _). tauto.
  - destruct (fires t a) eqn:F.
    + destruct (update_fires t a F) as (_ & _ & _ & Hls & Hrs & _). tauto.
    + destruct (update_idle t a F) as (_ & _ & _ & _ & Hls & Hrs & _). tauto.
Qed.

Lemma states_windowInv : forall cs a,
  motorLag a -> windowInv a -> targetsWithin cs a ->
  Forall withinStops (states cs a).
Proof.
  induction cs as [|c cs IH]; intros a Hl Hw Ht; cbn; [constructor|].
  assert (Hw' : windowInv (step c a)).
  { inversion Ht as [|c0 cs0 Hc Hcs]; subst.
    destruct c as [t k | t]; cbn.
    - apply moveTo_windowInv; [exact Hl | apply Hw | exact Hc].
    - apply update_windowInv; assumption. }
  constructor; [apply Hw'|].
  apply IH; [apply step_motorLag; exact Hl | exact Hw' |].
  inversion Ht as [|c0 cs0 Hc Hcs]; subst.
  destruct (states_frame_stops c a) as (Hls & Hrs).
  unfold targetsWithin in *. rewrite Hls, Hrs. exact Hcs.
Qed.

Lemma states_backlashBound : forall cs a,
  backlashBound a -> Forall backlashBound (states cs a).
Proof.
  induction cs as [|c cs IH]; intros a H; cbn; constructor.
  - apply step_backlashBound. exact H.
  - apply IH. apply step_backlashBound. exact H.
Qed.

(** ** The encoder's compensated position *)

Lemma processPulses_position : forall K d t e,
  SpindleEncoder.position (SpindleEncoder.processPulses K d t e)
  = SpindleEncoder.position e + d.
Proof.
  intros K d t e. unfold SpindleEncoder.processPulses.
  split_ifs; reflexivity.
Qed.

Lemma processPulses_positionAvg : forall K d t e,
  SpindleEncoder.positionAvg (SpindleEncoder.processPulses K d t e)
  = if SpindleEncoder.position e + d >? SpindleEncoder.positionAvg e
    then SpindleEncoder.position e + d
    else if SpindleEncoder.position e + d
            <? SpindleEncoder.positionAvg e - ENCODER_BACKLASH K
         then SpindleEncoder.position e + d + ENCODER_BACKLASH K
         else SpindleEncoder.positionAvg e.
Proof.
  intros K d t e. unfold SpindleEncoder.processPulses.
  destruct (SpindleEncoder.position e + d >? SpindleEncoder.positionAvg e) eqn:E1;
    destruct (SpindleEncoder.position e + d
              <? SpindleEncoder.positionAvg e - ENCODER_BACKLASH K) eqn:E2;
    split_ifs; try reflexivity; congruence.
Qed.

Lemma processPulses_pulseOk : forall K d t e,
  0 <= ENCODER_BACKLASH K ->
  SpindleEncoder.avgWindow K e ->
  SpindleEncoder.pulseOk K e (SpindleEncoder.processPulses K d t e).
Proof.
  intros K d t e HB HW.
  unfold SpindleEncoder.pulseOk, SpindleEncoder.avgWindow in *.
  rewrite processPulses_position, processPulses_positionAvg.
  zcases; repeat split; try lia.
  all: destruct (Z.sgn_spec d) as [[? ->]|[[? ->]|[? ->]]];
       (left; replace (SpindleEncoder.position e + d - SpindleEncoder.position e)
                with d by lia; lia) || (right; lia) || idtac.
Qed.

Lemma everyPulse_pulseOk : forall K ds e,
  0 <= ENCODER_BACKLASH K ->
  SpindleEncoder.avgWindow K e ->
  SpindleEncoder.everyPulse K (SpindleEncoder.pulseOk K) ds e.
Proof.
  intros K ds. induction ds as [|[d t] ds IH]; intros e HB HW; cbn; [exact I|].
  pose proof (processPulses_pulseOk K d t e HB HW) as H.
  split; [exact H|]. apply IH; [exact HB | apply H].
Qed.

(** ** The coordinator *)

Import MotionController.

Lemma setOrigin_originReset : forall a, originReset a (setOrigin a).
Proof.
  intros a. unfold originReset, setOrigin.
  destruct (Z.eqb_spec (leftStop a) LONG_MAX) as [El|El]; cbn;
    destruct (Z.eqb_spec (rightStop a) LONG_MIN) as [Er|Er]; cbn;
    repeat split; solve [reflexivity | assumption].
Qed.

Lemma setOrigin_frame : forall a,
  config (setOrigin a) = config a /\
  stepperEnableCounter (setOrigin a) = stepperEnableCounter a /\
  disabled (setOrigin a) = disabled a /\
  stepStartUs (setOrigin a) = stepStartUs a /\
  gpio (setOrigin a) = gpio a.
Proof.
  intros a. unfold setOrigin.
  destruct (leftStop a =? LONG_MAX); cbn;
    destruct (rightStop a =? LONG_MIN); cbn; repeat split; reflexivity.
Qed.

Lemma setNewOrigin_axes : forall m,
  zAxis (setNewOrigin m) = setOrigin (zAxis m) /\
  xAxis (setNewOrigin m) = setOrigin (xAxis m) /\
  a1Axis (setNewOrigin m)
    = (if isActive (a1Axis m) then setOrigin (a1Axis m) else a1Axis m) /\
  spindle (setNewOrigin m) = SpindleEncoder.resetPosition (spindle m).
Proof.
  intros m. unfold setNewOrigin. cbn.
  destruct (isActive (a1Axis m)); cbn; repeat split; reflexivity.
Qed.

Lemma setNewOrigin_frame : forall m,
  currentMode (setNewOrigin m) = currentMode m /\
  systemEnabled (setNewOrigin m) = systemEnabled m /\
  currentPitch (setNewOrigin m) = currentPitch m /\
  currentStarts (setNewOrigin m) = currentStarts m.
Proof.
  intros m. unfold setNewOrigin. cbn.
  destruct (isActive (a1Axis m)); cbn; repeat split; reflexivity.
Qed.

Lemma setNewOrigin_syncReset : forall m, syncReset m (setNewOrigin m).
Proof.
  intros m. unfold syncReset.
  destruct (setNewOrigin_axes m) as (Hz & Hx & Ha & Hs).
  rewrite Hz, Hx, Ha, Hs.
  split; [apply setOrigin_originReset|].
  split; [apply setOrigin_originReset|].
  split; [intros ->; apply setOrigin_originReset|].
  repeat split; reflexivity.
Qed.

Lemma calculateAxisPosition_at_origin : forall K axis sp r m,
  pos axis = 0 -> calculateAxisPosition K axis sp r m = DivideByZero.
Proof.
  intros K axis sp r m H. unfold calculateAxisPosition, getPositionSteps.
  rewrite H. reflexivity.
Qed.

Lemma calculateSpindlePosition_at_origin : forall K axis ap m,
  pos axis = 0 -> calculateSpindlePosition K axis ap m = DivideByZero.
Proof.
  intros K axis ap m H. unfold calculateSpindlePosition, getPositionSteps.
  rewrite H. reflexivity.
Qed.

(** The stops bound the target whenever the window is not empty. *)
Lemma calculateAxisPosition_clamped : forall K axis sp m t,
  rightStop axis <= leftStop axis ->
  calculateAxisPosition K axis sp true m = Done t ->
  rightStop axis <= t <= leftStop axis.
Proof.
  intros K axis sp m t Hw. unfold calculateAxisPosition, cdiv, getRightStop, getLeftStop.
  destruct (getPositionSteps axis =? 0); cbn; [discriminate|].
  destruct (ENCODER_STEPS_INT K =? 0); cbn; [discriminate|].
  intros H. injection H as <-. zcases; lia.
Qed.

(** *** Enabling and disabling *)

Lemma axis_setEnabled_true : forall a,
  enableEffect true a (AxisController.setEnabled true a).
Proof.
  intros a. unfold enableEffect, AxisController.setEnabled, counted, updateEnablePin.
  destruct (needsRest (config a)) eqn:En; destruct (active (config a)) eqn:Ea; cbn;
    try (repeat split; (reflexivity || lia)).
  replace (stepperEnableCounter a + 1 =? 1) with (stepperEnableCounter a =? 0)
    by (zcases; lia).
  rewrite En. cbn.
  destruct (Z.eqb_spec (stepperEnableCounter a) 0) as [E|E]; cbn.
  - rewrite E. cbn. destruct (disabled a) eqn:Ed; cbn; rewrite ?Ed;
      repeat split; (reflexivity || lia).
  - repeat split; reflexivity.
Qed.

Lemma axis_setEnabled_frame : forall b a,
  pos (AxisController.setEnabled b a) = pos a /\
  pendingPos (AxisController.setEnabled b a) = pendingPos a /\
  stepStartUs (AxisController.setEnabled b a) = stepStartUs a /\
  leftStop (AxisController.setEnabled b a) = leftStop a /\
  rightStop (AxisController.setEnabled b a) = rightStop a.
Proof.
  intros b a. unfold AxisController.setEnabled, updateEnablePin.
  destruct (negb (needsRest (config a)) || negb (active (config a)));
    [repeat split; reflexivity|].
  destruct b; cbn; split_ifs; repeat split; reflexivity.
Qed.

Lemma enableEffect_setOrigin : forall on a a',
  enableEffect on a a' -> enableEffect on a (setOrigin a').
Proof.
  intros on a a' (Hc & Hd & Hn & Hg).
  destruct (setOrigin_frame a') as (Hc' & Hn' & Hd' & _ & Hg').
  unfold enableEffect. rewrite Hc', Hn', Hd', Hg'. tauto.
Qed.

Lemma enableEffect_refl : forall a, enableEffect false a a.
Proof.
  intros a. unfold enableEffect. cbn. repeat split; (reflexivity || lia).
Qed.

Lemma setEnabled_off : forall m,
  zAxis (MotionController.setEnabled false m) = zAxis m /\
  xAxis (MotionController.setEnabled false m) = xAxis m /\
  a1Axis (MotionController.setEnabled false m) = a1Axis m /\
  spindle (MotionController.setEnabled false m) = spindle m /\
  systemEnabled (MotionController.setEnabled false m) = false /\
  currentPitch (MotionController.setEnabled false m) = currentPitch m /\
  currentMode (MotionController.setEnabled false m) = currentMode m.
Proof.
  intros m. unfold MotionController.setEnabled.
  rewrite andb_false_r. cbn. repeat split; reflexivity.
Qed.

Lemma setEnabled_on : forall m,
  systemEnabled m = false ->
  zAxis (MotionController.setEnabled true m)
    = setOrigin (AxisController.setEnabled true (zAxis m)) /\
  xAxis (MotionController.setEnabled true m)
    = setOrigin (AxisController.setEnabled true (xAxis m)) /\
  a1Axis (MotionController.setEnabled true m)
    = (if isActive (a1Axis m)
       then setOrigin (AxisController.setEnabled true (a1Axis m))
       else a1Axis m) /\
  spindle (MotionController.setEnabled true m)
    = SpindleEncoder.resetPosition (spindle m) /\
  systemEnabled (MotionController.setEnabled true m) = true /\
  currentPitch (MotionController.setEnabled true m) = currentPitch m /\
  currentMode (MotionController.setEnabled true m) = currentMode m.
Proof.
  intros m H. unfold MotionController.setEnabled, setNewOrigin.
  rewrite H. cbn.
  destruct (isActive (a1Axis m)) eqn:Ea; cbn.
  - destruct (axis_setEnabled_true (a1Axis m)) as (Hc & _).
    unfold isActive in *. rewrite Hc, Ea. cbn. repeat split; reflexivity.
  - rewrite Ea. cbn. repeat split; reflexivity.
Qed.

Lemma setEnabled_enabled : forall b m,
  systemEnabled (MotionController.setEnabled b m) = b.
Proof.
  intros b m. destruct b.
  - destruct (systemEnabled m) eqn:E.
    + unfold MotionController.setEnabled. rewrite E. cbn. exact E.
    + apply (setEnabled_on m E).
  - apply (setEnabled_off m).
Qed.

(** The effect of one [setEnabled] of the coordinator on the driver
    enable of each of its axes. *)
Lemma setEnabled_enableEffect : forall ax b m,
  enableEffect (b && negb (systemEnabled m))
    (axisOf ax m) (axisOf ax (MotionController.setEnabled b m)).
Proof.
  intros ax b m. destruct b; cbn [andb].
  - destruct (systemEnabled m) eqn:E; cbn [negb].
    + unfold MotionController.setEnabled. rewrite E. cbn [andb].
      apply enableEffect_refl.
    + destruct (setEnabled_on m E) as (Hz & Hx & Ha & _).
      destruct ax; cbn [axisOf].
      * rewrite Hz. apply enableEffect_setOrigin, axis_setEnabled_true.
      * rewrite Hx. apply enableEffect_setOrigin, axis_setEnabled_true.
      * rewrite Ha. destruct (isActive (a1Axis m)) eqn:Ea.
        -- apply enableEffect_setOrigin, axis_setEnabled_true.
        -- unfold enableEffect, counted. unfold isActive in Ea. rewrite Ea.
           rewrite andb_false_r. cbn. repeat split; (reflexivity || lia).
  - destruct (setEnabled_off m) as (Hz & Hx & Ha & _).
    destruct ax; cbn [axisOf]; rewrite ?Hz, ?Hx, ?Ha; apply enableEffect_refl.
Qed.

Lemma counted_config : forall a a', config a' = config a -> counted a' = counted a.
Proof. intros a a' H. unfold counted. rewrite H. reflexivity. Qed.

Lemma setEnabledSeq_counter : forall ax bs m,
  config (axisOf ax (setEnabledSeq bs m)) = config (axisOf ax m) /\
  disabled (axisOf ax (setEnabledSeq bs m)) = disabled (axisOf ax m) /\
  stepperEnableCounter (axisOf ax (setEnabledSeq bs m))
  = stepperEnableCounter (axisOf ax m)
    + (if counted (axisOf ax m)
       then enableTransitions (systemEnabled m) bs else 0).
Proof.
  intros ax bs. induction bs as [|b bs IH]; intros m; cbn.
  - repeat split; try reflexivity. destruct (counted (axisOf ax m)); lia.
  - destruct (setEnabled_enableEffect ax b m) as (Hc & Hd & Hn & _).
    destruct (IH (MotionController.setEnabled b m)) as (Hc' & Hd' & Hn').
    unfold setEnabledSeq in *. cbn.
    rewrite Hc', Hd', Hn', Hc, Hd, Hn, (counted_config _ _ Hc), setEnabled_enabled.
    repeat split; try reflexivity.
    destruct (counted (axisOf ax m)); rewrite ?andb_true_r, ?andb_false_r; lia.
Qed.

Lemma enableTransitions_nonneg : forall bs on, 0 <= enableTransitions on bs.
Proof.
  induction bs as [|b bs IH]; intros on; cbn; [lia|].
  specialize (IH b). destruct (b && negb on); lia.
Qed.

Lemma enableTransitions_alternating : forall n,
  enableTransitions false (alternating n) = Z.of_nat n.
Proof.
  induction n as [|n IH]; [reflexivity|].
  cbn [alternating enableTransitions andb negb]. rewrite IH. lia.
Qed.

(** Once the counter is positive the coordinator writes the enable
    line no more. *)
Lemma setEnabledSeq_gpio_held : forall ax bs m,
  0 < stepperEnableCounter (axisOf ax m) ->
  gpio (axisOf ax (setEnabledSeq bs m)) = gpio (axisOf ax m).
Proof.
  intros ax bs. induction bs as [|b bs IH]; intros m H; [reflexivity|].
  destruct (setEnabled_enableEffect ax b m) as (_ & _ & Hn & Hg).
  unfold setEnabledSeq in *. cbn. rewrite IH.
  - rewrite Hg. destruct (Z.eqb_spec (stepperEnableCounter (axisOf ax m)) 0); [lia|].
    rewrite andb_false_r. reflexivity.
  - rewrite Hn. destruct (_ && _); lia.
Qed.

(** The first switch-on of a sequence raises the enable line of a
    counted axis whose counter is zero, and it stays raised. *)
Lemma setEnabledSeq_energized : forall ax bs m,
  counted (axisOf ax m) = true ->
  disabled (axisOf ax m) = false ->
  stepperEnableCounter (axisOf ax m) = 0 ->
  0 < enableTransitions (systemEnabled m) bs ->
  enaLevel (gpio (axisOf ax (setEnabledSeq bs m))) = Some true.
Proof.
  intros ax bs. induction bs as [|b bs IH]; intros m Hc Hd Hn Ht; cbn in Ht; [lia|].
  destruct (setEnabled_enableEffect ax b m) as (Hc' & Hd' & Hn' & Hg').
  change (setEnabledSeq (b :: bs) m)
    with (setEnabledSeq bs (MotionController.setEnabled b m)).
  rewrite Hc, Hn, Hd in *. cbn in Hg', Hn'.
  destruct (b && negb (systemEnabled m)) eqn:E; cbn in Hg', Hn'.
  - rewrite setEnabledSeq_gpio_held by lia. rewrite Hg'. reflexivity.
  - apply IH.
    + rewrite (counted_config _ _ Hc'). exact Hc.
    + congruence.
    + lia.
    + rewrite setEnabled_enabled. lia.
Qed.

(** *** The tick *)

Lemma encoder_update_syncOffset : forall K c t e,
  SpindleEncoder.syncOffset (SpindleEncoder.update K c t e)
  = SpindleEncoder.syncOffset e.
Proof.
  intros K c t e. unfold SpindleEncoder.update, SpindleEncoder.processPulses.
  split_ifs; reflexivity.
Qed.

Lemma updateAxes_axes : forall i m,
  zAxis (updateAxes i m) = AxisController.update (usZ i) (zAxis m) /\
  xAxis (updateAxes i m) = AxisController.update (usX i) (xAxis m) /\
  a1Axis (updateAxes i m)
    = (if isActive (a1Axis m)
       then AxisController.update (usA1 i) (a1Axis m) else a1Axis m) /\
  systemEnabled (updateAxes i m) = systemEnabled m.
Proof.
  intros i m. unfold updateAxes. cbn.
  destruct (isActive (a1Axis m)); cbn; repeat split; reflexivity.
Qed.

(** While the system is off the tick reads the encoder and ticks the
    axes; the mode switch is not entered. *)
Lemma update_disabled : forall K i m,
  systemEnabled m = false ->
  MotionController.update K i m
  = Done (updateAxes i
            (with_spindle
               (SpindleEncoder.update K (pcntCount i) (usEncoder i) (spindle m)) m)).
Proof.
  intros K i m H. unfold MotionController.update. cbn. rewrite H. reflexivity.
Qed.

Lemma update_pendingStep : forall t a,
  pendingStep a (AxisController.update t a).
Proof.
  intros t a. unfold pendingStep.
  destruct (fires t a) eqn:F.
  - pose proof (fires_pending t a F) as Hne.
    destruct (update_fires t a F) as (Hpe & _). rewrite Hpe.
    zcases; lia.
  - destruct (update_idle t a F) as (_ & _ & Hpe & _). left. exact Hpe.
Qed.

(** In Normal mode with Z idle at position zero the tick divides by
    zero. *)
Lemma update_normal_at_origin : forall K i m,
  systemEnabled m = true ->
  currentPitch m <> 0 ->
  SpindleEncoder.syncOffset (spindle m) = 0 ->
  currentMode m = MODE_NORMAL K ->
  isMoving (usModeZ i) (zAxis m) = false ->
  pos (zAxis m) = 0 ->
  MotionController.update K i m = DivideByZero.
Proof.
  intros K i m He Hp Hs Hm Hi Hz.
  unfold MotionController.update. cbn.
  rewrite He, encoder_update_syncOffset, Hs.
  destruct (Z.eqb_spec (currentPitch m) 0) as [E|_]; [contradiction|]. cbn.
  unfold dispatchMode. cbn. rewrite Hm, Z.eqb_refl.
  unfold updateNormalMode. cbn. rewrite Hi.
  rewrite calculateAxisPosition_at_origin by exact Hz. reflexivity.
Qed.

Lemma setOperationMode_effect : forall mode m,
  systemEnabled m = false ->
  currentMode (setOperationMode mode m) = mode /\
  systemEnabled (setOperationMode mode m) = false /\
  zAxis (setOperationMode mode m) = zAxis m.
Proof.
  intros mode m H. unfold setOperationMode.
  destruct (Z.eqb_spec (currentMode m) mode) as [E|E]; cbn.
  - repeat split; assumption || reflexivity.
  - rewrite H. cbn. repeat split; assumption || reflexivity.
Qed.

Lemma setPitch_in_range : forall K p m,
  - DUPR_MAX K <= p <= DUPR_MAX K ->
  setPitch K p m = setNewOrigin (with_currentPitch p m).
Proof.
  intros K p m H. unfold setPitch.
  destruct (Z.ltb_spec p (- DUPR_MAX K)); [lia|].
  destruct (Z.gtb_spec p (DUPR_MAX K)); [lia|]. reflexivity.
Qed.

Lemma setStarts_in_range : forall K n m,
  1 <= n <= STARTS_MAX K ->
  setStarts K n m = setNewOrigin (with_currentStarts n m).
Proof.
  intros K n m H. unfold setStarts.
  destruct (Z.ltb_spec n 1); [lia|].
  destruct (Z.gtb_spec n (STARTS_MAX K)); [lia|]. reflexivity.
Qed.

(** ** The statements of the design document *)

(** The backlash take-up scenario: from rest, a move to +100 ends with
    tool and motor at 100 after 100 pulses; the move back to 80 ends
    with the tool at 80 and the motor at 30 after 70 more. *)
Example backlash_takeup_scenario :
  let a1 := AxisController.run (MoveTo 100 false :: ticks 100 2000)
              (AxisController.new sampleConfig) in
  let a2 := AxisController.run (MoveTo 80 false :: ticks 70 300000) a1 in
  (pos a1, motorPos a1, pendingPos a1, stepPulses (gpio a1)) = (100, 100, 0, 100%nat)
  /\ (pos a2, motorPos a2, pendingPos a2, stepPulses (gpio a2)) = (80, 30, 0, 170%nat).
Proof. vm_compute. split; reflexivity. Qed.

(** C1.  The design document gives the Normal-mode target as
    [average_position * pitch_du * starts * steps_per_du / PULSES_PER_REV];
    the code computes
    [average_position * pos / pos / ENCODER_STEPS_INT * pitch * starts].
    On a Z axis with 800 steps per turn of a 2 mm screw, a pitch of
    0.5 mm, one start and one spindle turn (1200 pulses) read, the
    target of the document is 200 steps.  On the machine just switched
    on, the tick divides by zero instead of commanding it.  With the
    tool at 5 the code's target is 5000, the pitch in deci-microns:
    that is what the tick passes to [moveTo] with the continuous flag,
    and Z sets off toward it. *)
Theorem C1_normal_target_code_vs_design :
  let K := sampleConfigH in
  let m0 := machine sampleConfig in
  let on := [SetOperationMode (MODE_NORMAL K); SetPitch 5000; SetEnabled true] in
  let i := mkTickInput 1200 100000 100000 100000 100000 100000 100000 in
  Qeq (normalTargetAsSpecified K (zAxis m0) 1200 5000 1) (inject_Z 200)
  /\ MotionController.run K (on ++ [MotionController.Update i]) m0 = DivideByZero
  /\ exists m1 m',
       MotionController.run K on m0 = Done m1
       /\ let z5 := AxisController.run (MoveTo 5 false :: ticks 5 2000) (zAxis m1) in
          let m5 := with_zAxis z5 m1 in
          (pos z5, motorPos z5, pendingPos z5) = (5, 5, 0)
          /\ isMoving (usModeZ i) z5 = false
          /\ calculateAxisPosition K z5 1200 true
               (with_spindle (SpindleEncoder.update K 1200 100000 (spindle m5)) m5)
             = Done 5000
          /\ MotionController.update K i m5 = Done m'
          /\ SpindleEncoder.getAveragePosition (spindle m') = 1200
          /\ zAxis m' = AxisController.update (usZ i) (snd (moveTo 5000 true z5))
          /\ continuous (zAxis m') = true
          /\ (pos (zAxis m'), pendingPos (zAxis m')) = (6, 4994).
Proof.
  cbv zeta. split; [vm_compute; reflexivity|].
  split; [vm_compute; reflexivity|].
  eexists. eexists. split; [vm_compute; reflexivity|].
  split; [vm_compute; reflexivity|].
  split; [vm_compute; reflexivity|].
  split; [vm_compute; reflexivity|].
  split; [vm_compute; reflexivity|].
  repeat split; vm_compute; reflexivity.
Qed.

(** C2.  A [moveTo] whose travel exceeds [estop_steps] returns failure,
    yet the call has already stored the new pending steps and the
    continuous flag: with [estop_steps = 10000] and [pos = 0],
    [moveTo(15000)] is refused, 15000 steps are pending, and the next
    stepping tick emits a pulse toward the refused target. *)
Theorem C2_refused_moveTo_is_not_atomic :
  let a := AxisController.new sampleConfig in
  let r := moveTo 15000 true a in
  (estopSteps a, pos a, pendingPos a, continuous a) = (10000, 0, 0, false)
  /\ fst r = false
  /\ pendingPos (snd r) = 15000
  /\ continuous (snd r) = true
  /\ snd r <> a
  /\ stepPulses (gpio (AxisController.update 2000 (snd r))) = 1%nat
  /\ motorPos (AxisController.update 2000 (snd r)) = 1.
Proof.
  cbv zeta. repeat split; try (vm_compute; reflexivity).
  intros H. apply (f_equal pendingPos) in H. vm_compute in H. discriminate H.
Qed.

(** C3.  [calculateAxisPosition] and [calculateSpindlePosition] divide
    by the position of the axis, which is 0 after construction and
    after every [setOrigin], hence after every [setNewOrigin]; and the
    state in which the Normal-mode target computation divides by zero
    is reached through the public interface: on the machine as
    constructed, selecting Normal mode, setting a pitch other than 0
    and switching on makes the first tick in which Z is idle divide by
    zero. *)
Theorem C3_division_by_zero_reachable :
  forall (K : ConfigH) (cz cx ca : AxisConfig) (t0 p : Z) (i : TickInput),
    p <> 0 ->
    - DUPR_MAX K <= p <= DUPR_MAX K ->
    50000 <= usub (usModeZ i) 0 ->
    let m0 := MotionController.new (SpindleEncoder.new t0) (AxisController.new cz)
                (AxisController.new cx) (AxisController.new ca) in
    (forall (axis : Axis) (sp : Z) (r : bool) (m : Motion),
        pos axis = 0 -> calculateAxisPosition K axis sp r m = DivideByZero)
    /\ (forall (axis : Axis) (ap : Z) (m : Motion),
          pos axis = 0 -> calculateSpindlePosition K axis ap m = DivideByZero)
    /\ pos (zAxis m0) = 0
    /\ (forall a : Axis, pos (setOrigin a) = 0)
    /\ (forall m : Motion, pos (zAxis (setNewOrigin m)) = 0)
    /\ MotionController.run K
         [SetOperationMode (MODE_NORMAL K); SetPitch p; SetEnabled true;
          MotionController.Update i] m0
       = DivideByZero.
Proof.
  intros K cz cx ca t0 p i Hp Hr Hi m0.
  assert (Ho : forall a : Axis, pos (setOrigin a) = 0)
    by (intros a; apply (setOrigin_originReset a)).
  split; [intros; apply calculateAxisPosition_at_origin; assumption|].
  split; [intros; apply calculateSpindlePosition_at_origin; assumption|].
  split; [reflexivity|].
  split; [exact Ho|].
  split; [intros m; destruct (setNewOrigin_axes m) as (Hz & _); rewrite Hz; apply Ho|].
  cbn [MotionController.run MotionController.step bind].
  set (m1 := setOperationMode (MODE_NORMAL K) m0).
  destruct (setOperationMode_effect (MODE_NORMAL K) m0 eq_refl) as (Hm1 & He1 & Hz1).
  fold m1 in Hm1, He1, Hz1.
  rewrite (setPitch_in_range K p m1 Hr).
  set (m2 := setNewOrigin (with_currentPitch p m1)).
  destruct (setNewOrigin_frame (with_currentPitch p m1)) as (Hm2 & He2 & Hp2 & _).
  destruct (setNewOrigin_axes (with_currentPitch p m1)) as (Hz2 & _).
  fold m2 in Hm2, He2, Hp2, Hz2.
  cbn [with_currentPitch systemEnabled currentMode currentPitch zAxis]
    in Hm2, He2, Hp2, Hz2.
  assert (He2' : systemEnabled m2 = false) by congruence.
  destruct (setEnabled_on m2 He2') as (Hz3 & _ & _ & Hs3 & He3 & Hp3 & Hm3).
  set (m3 := MotionController.setEnabled true m2) in *.
  destruct (setOrigin_originReset (AxisController.setEnabled true (zAxis m2)))
    as (_ & Hpos & Hpend & _).
  destruct (setOrigin_frame (AxisController.setEnabled true (zAxis m2)))
    as (_ & _ & _ & Hst & _).
  destruct (axis_setEnabled_frame true (zAxis m2)) as (_ & _ & Hst' & _).
  destruct (setOrigin_frame (zAxis m1)) as (_ & _ & _ & Hst1 & _).
  rewrite (update_normal_at_origin K i m3); [reflexivity | | | | | | ].
  - exact He3.
  - rewrite Hp3, Hp2. exact Hp.
  - rewrite Hs3. reflexivity.
  - rewrite Hm3, Hm2. exact Hm1.
  - unfold isMoving. rewrite Hz3, Hpend, Hst, Hst', Hz2, Hst1, Hz1. cbn.
    change (stepStartUs (AxisController.new cz)) with 0.
    destruct (Z.ltb_spec (usub (usModeZ i) 0) 50000); [lia | reflexivity].
  - rewrite Hz3. exact Hpos.
Qed.

Lemma C3_division_by_zero_reachable_witness :
  let K := sampleConfigH in
  let i := tickAt100ms 0 in
  1000 <> 0
  /\ (- DUPR_MAX K <= 1000 <= DUPR_MAX K)
  /\ 50000 <= usub (usModeZ i) 0
  /\ MotionController.run K
       [SetOperationMode (MODE_NORMAL K); SetPitch 1000; SetEnabled true;
        MotionController.Update i] (machine sampleConfig)
     = DivideByZero.
Proof.
  cbv zeta.
  assert (H1 : 1000 <> 0) by discriminate.
  assert (H2 : - DUPR_MAX sampleConfigH <= 1000 <= DUPR_MAX sampleConfigH)
    by (vm_compute; split; discriminate).
  assert (H3 : 50000 <= usub (usModeZ (tickAt100ms 0)) 0)
    by (vm_compute; discriminate).
  split; [exact H1|]. split; [exact H2|]. split; [exact H3|].
  exact (proj2 (proj2 (proj2 (proj2 (proj2
    (C3_division_by_zero_reachable sampleConfigH sampleConfig sampleConfig
       absentConfig 0 1000 (tickAt100ms 0) H1 H2 H3)))))).
Defined.

(** C4.  Over every sequence of [moveTo] commands (accepted or not) and
    stepping ticks that starts in a state with
    [|motor_pos - pos| <= backlash_steps], the bound holds after every
    command of the sequence. *)
Theorem C4_backlash_bound : forall (cs : list AxisController.Command) (a : Axis),
  backlashBound a ->
  Forall backlashBound (states cs a).
Proof.
  intros cs a H. apply states_backlashBound. exact H.
Qed.

Lemma C4_backlash_bound_witness :
  let a := AxisController.new sampleConfig in
  backlashBound a
  /\ Forall backlashBound
       (states ((MoveTo 100 false :: ticks 100 2000)
                ++ MoveTo 80 false :: ticks 70 300000) a).
Proof.
  cbv zeta.
  assert (H : backlashBound (AxisController.new sampleConfig))
    by (vm_compute; discriminate).
  split; [exact H|].
  apply (C4_backlash_bound _ _ H).
Defined.

(** C5, as the design document states it, fails.  With the stops set
    at -2 and 2 and the tool at 0, [moveTo(3)] is accepted and three
    ticks take the tool to 3, past the left stop.  And with
    [estop_steps = 10000] and 50 steps of backlash, [moveTo(-10000)]
    from [pos = motor_pos = 0] is accepted with 10050 pending motor
    steps. *)
Lemma C5_soft_limits_counterexample :
  let a0 := setRightStop (-2) (setLeftStop 2 (AxisController.new sampleConfig)) in
  let a3 := AxisController.run (MoveTo 3 false :: ticks 3 2000) a0 in
  let b := AxisController.new sampleConfig in
  (bothStops a0 = true /\ withinStops a0
   /\ fst (moveTo 3 false a0) = true
   /\ bothStops a3 = true /\ pos a3 = 3 /\ leftStop a3 = 2 /\ ~ withinStops a3)
  /\
  (estopSteps b = 10000 /\ pos b = 0
   /\ fst (moveTo (-10000) false b) = true
   /\ pendingPos (snd (moveTo (-10000) false b)) = -10050
   /\ estopSteps b < Z.abs (motorPos b + pendingPos (snd (moveTo (-10000) false b)) - pos b)).
Proof.
  cbv zeta. split.
  - repeat split; try (vm_compute; (reflexivity || discriminate)).
    unfold withinStops. vm_compute. intros [_ H]. apply H. reflexivity.
  - repeat split; vm_compute; reflexivity.
Qed.

(** C5, amended.  The axis does not look at its soft stops; the
    coordinator clamps the targets it computes, and targets inside the
    window keep the tool inside it:
    - with [right_stop <= left_stop], the target that
      [calculateAxisPosition] returns with [respectStops] lies in
      [[right_stop, left_stop]];
    - from a state with the motor within the backlash behind the tool,
      the tool and the pending target between the stops, every sequence
      of stepping ticks and of [moveTo] commands to targets between the
      stops keeps [right_stop <= pos <= left_stop] after every command;
    - [moveTo] accepts a target other than [pos] exactly when the tool
      travel [|target - pos|] is at most [estop_steps]; the motor travel
      it then stores exceeds that by at most the backlash take-up:
      [|pending| <= estop_steps + backlash_steps]. *)
Theorem C5_soft_limits_amended :
  forall (K : ConfigH) (a : Axis),
    motorLag a ->
    (forall (sp t : Z) (m : Motion),
        rightStop a <= leftStop a ->
        calculateAxisPosition K a sp true m = Done t ->
        rightStop a <= t <= leftStop a)
    /\ (forall cs : list AxisController.Command,
          windowInv a -> targetsWithin cs a ->
          Forall withinStops (states cs a))
    /\ (forall (target : Z) (k : bool),
          target <> pos a ->
          (fst (moveTo target k a) = true
           <-> Z.abs (target - pos a) <= estopSteps a)
          /\ (fst (moveTo target k a) = true ->
              Z.abs (pendingPos (snd (moveTo target k a)))
              <= estopSteps a + backlashSteps a)).
Proof.
  intros K a Hl. split; [|split].
  - intros sp t m Hw H. exact (calculateAxisPosition_clamped K a sp m t Hw H).
  - intros cs Hw Ht. apply states_windowInv; assumption.
  - intros target k Hne.
    rewrite moveTo_accepts, moveTo_pending.
    unfold motorLag in Hl.
    destruct (Z.eqb_spec target (pos a)) as [E|_]; [contradiction|].
    cbn [orb]. split.
    + destruct (Z.gtb_spec (Z.abs (target - pos a)) (estopSteps a)); cbn;
        split; intros; (lia || discriminate || reflexivity).
    + destruct (Z.gtb_spec (Z.abs (target - pos a)) (estopSteps a)); cbn;
        [discriminate|]. intros _. zcases; lia.
Qed.

Lemma C5_soft_limits_amended_witness :
  let a := setRightStop (-2) (setLeftStop 2 (AxisController.new sampleConfig)) in
  let cs := MoveTo 2 false :: ticks 3 2000 ++ MoveTo (-2) false :: ticks 60 300000 in
  motorLag a /\ windowInv a /\ targetsWithin cs a
  /\ Forall withinStops (states cs a)
  /\ pos (AxisController.run cs a) = -2.
Proof.
  cbv zeta.
  assert (Hl : motorLag
                 (setRightStop (-2) (setLeftStop 2 (AxisController.new sampleConfig))))
    by (vm_compute; split; discriminate).
  assert (Hw : windowInv
                 (setRightStop (-2) (setLeftStop 2 (AxisController.new sampleConfig))))
    by (vm_compute; repeat split; discriminate).
  assert (Ht : targetsWithin
                 (MoveTo 2 false :: ticks 3 2000 ++ MoveTo (-2) false :: ticks 60 300000)
                 (setRightStop (-2) (setLeftStop 2 (AxisController.new sampleConfig)))).
  { unfold targetsWithin. repeat constructor; vm_compute; discriminate. }
  split; [exact Hl|]. split; [exact Hw|]. split; [exact Ht|].
  split.
  - exact (proj1 (proj2 (C5_soft_limits_amended sampleConfigH _ Hl)) _ Hw Ht).
  - vm_compute. reflexivity.
Defined.

(** C6, as the design document states it, fails.  Z has 100 steps
    pending when the system is switched off; after the next tick 99
    are pending, not 0. *)
Lemma C6_disable_counterexample :
  let K := sampleConfigH in
  let m0 := machine sampleConfig in
  let m := with_zAxis (snd (moveTo 100 false (zAxis m0))) m0 in
  pendingPos (zAxis m) = 100
  /\ exists m',
       MotionController.update K (tickAt100ms 0) (MotionController.setEnabled false m)
       = Done m'
       /\ pendingPos (zAxis m') = 99
       /\ pendingPos (zAxis m') <> 0.
Proof.
  cbv zeta. split; [vm_compute; reflexivity|].
  eexists. split; [vm_compute; reflexivity|].
  split; vm_compute; [reflexivity | discriminate].
Qed.

(** C6, amended.  After the coordinator's [setEnabled(false)] the next
    tick does not enter the mode switch, so no axis receives a target:
    the tick returns, each axis is exactly its own stepping tick
    applied to the state it had (Z, X, and A1 when active), and the
    pending steps of each axis are what they were or one step nearer
    to 0.  Outstanding motion is completed pulse by pulse, not
    cleared. *)
Theorem C6_disable_amended :
  forall (K : ConfigH) (i : TickInput) (m : Motion),
    exists m',
      MotionController.update K i (MotionController.setEnabled false m) = Done m'
      /\ systemEnabled m' = false
      /\ zAxis m' = AxisController.update (usZ i) (zAxis m)
      /\ xAxis m' = AxisController.update (usX i) (xAxis m)
      /\ a1Axis m' = (if isActive (a1Axis m)
                      then AxisController.update (usA1 i) (a1Axis m)
                      else a1Axis m)
      /\ (forall ax : AxisId, pendingStep (axisOf ax m) (axisOf ax m')).
Proof.
  intros K i m.
  destruct (setEnabled_off m) as (Hz & Hx & Ha & _ & He & _).
  eexists. split; [apply update_disabled; exact He|].
  match goal with
  | |- context [updateAxes i ?s] =>
      destruct (updateAxes_axes i s) as (Uz & Ux & Ua & Ue)
  end.
  cbn [with_spindle zAxis xAxis a1Axis systemEnabled] in Uz, Ux, Ua, Ue.
  rewrite Hz in Uz. rewrite Hx in Ux. rewrite Ha in Ua. rewrite He in Ue.
  split; [exact Ue|]. split; [exact Uz|]. split; [exact Ux|]. split; [exact Ua|].
  intros ax. destruct ax; cbn [axisOf].
  - rewrite Uz. apply update_pendingStep.
  - rewrite Ux. apply update_pendingStep.
  - rewrite Ua. destruct (isActive (a1Axis m)).
    + apply update_pendingStep.
    + left. reflexivity.
Qed.

(** C7.  An accepted [moveTo(target)] sets the pending steps to 0 when
    the target is the current position, and otherwise to
    [target - motor_pos - (0 if target > pos, else backlash_steps)].
    From [pos = 100], [motor_pos = 100], [backlash_steps = 50], the
    target 80 gives -70 pending steps. *)
Theorem C7_moveTo_pending : forall (a : Axis) (target : Z) (k : bool),
  fst (moveTo target k a) = true ->
  (target = pos a -> pendingPos (snd (moveTo target k a)) = 0)
  /\ (target <> pos a ->
      pendingPos (snd (moveTo target k a))
      = target - motorPos a - (if target >? pos a then 0 else backlashSteps a))
  /\ (pos a = 100 -> motorPos a = 100 -> backlashSteps a = 50 -> target = 80 ->
      pendingPos (snd (moveTo target k a)) = -70).
Proof.
  intros a target k _. rewrite moveTo_pending.
  split; [|split].
  - intros ->. rewrite Z.eqb_refl. reflexivity.
  - intros H. destruct (Z.eqb_spec target (pos a)); [contradiction | reflexivity].
  - intros Hp Hm Hb ->. rewrite Hp, Hm, Hb. reflexivity.
Qed.

Lemma C7_moveTo_pending_witness :
  let a := AxisController.run (MoveTo 100 false :: ticks 100 2000)
             (AxisController.new sampleConfig) in
  fst (moveTo 80 false a) = true
  /\ pendingPos (snd (moveTo 80 false a)) = -70.
Proof.
  cbv zeta.
  assert (H : fst (moveTo 80 false
                     (AxisController.run (MoveTo 100 false :: ticks 100 2000)
                        (AxisController.new sampleConfig))) = true)
    by (vm_compute; reflexivity).
  split; [exact H|].
  apply (C7_moveTo_pending _ 80 false H); vm_compute; reflexivity.
Defined.

(** C8, as the design document states it, fails.  With an encoder
    backlash of 5, the deltas +10, -3, +1, +1 leave the raw position at
    9 and the compensated position at 10: the last two deltas both move
    the spindle forward, yet after the last the compensated position
    is not the raw one and is ahead of it. *)
Lemma C8_encoder_counterexample :
  let K := sampleConfigH in
  let e2 := SpindleEncoder.feed K [(10, 1000); (-3, 2000)] (SpindleEncoder.new 0) in
  let e3 := SpindleEncoder.processPulses K 1 3000 e2 in
  let e4 := SpindleEncoder.processPulses K 1 4000 e3 in
  ENCODER_BACKLASH K = 5
  /\ SpindleEncoder.position e3 - SpindleEncoder.position e2 = 1
  /\ SpindleEncoder.position e4 - SpindleEncoder.position e3 = 1
  /\ SpindleEncoder.position e4 = 9
  /\ SpindleEncoder.positionAvg e4 = 10
  /\ SpindleEncoder.positionAvg e4 <> SpindleEncoder.position e4
  /\ SpindleEncoder.position e4 < SpindleEncoder.positionAvg e4.
Proof.
  cbv zeta. repeat split; try (vm_compute; reflexivity).
  vm_compute. discriminate.
Qed.

(** C8, amended.  With [ENCODER_BACKLASH >= 0], from the state after
    construction or after [resetPosition] (or any state in which
    [position <= position_avg <= position + ENCODER_BACKLASH]), for
    every sequence of pulse deltas and at every delta of it:
    - the change of [position_avg] has the sign of the change of
      [position], or is zero;
    - [position <= position_avg <= position + ENCODER_BACKLASH]
      afterwards: the compensated position is never behind the raw one
      and is at most [ENCODER_BACKLASH] pulses ahead of it;
    - [position_avg] equals [position] whenever the new raw position
      exceeds the compensated position held so far. *)
Theorem C8_encoder_backlash_amended :
  forall (K : ConfigH) (ds : list (Z * Z)) (e : SpindleEncoder.Encoder),
    0 <= ENCODER_BACKLASH K ->
    SpindleEncoder.avgWindow K e ->
    SpindleEncoder.everyPulse K (SpindleEncoder.pulseOk K) ds e
    /\ (forall t, SpindleEncoder.avgWindow K (SpindleEncoder.new t))
    /\ SpindleEncoder.avgWindow K (SpindleEncoder.resetPosition e).
Proof.
  intros K ds e HB HW. split; [|split].
  - apply everyPulse_pulseOk; assumption.
  - intros t. unfold SpindleEncoder.avgWindow. cbn. lia.
  - unfold SpindleEncoder.avgWindow. cbn. lia.
Qed.

Lemma C8_encoder_backlash_amended_witness :
  let K := sampleConfigH in
  let ds := [(10, 1000); (-3, 2000); (2, 3000); (-4, 4000)] in
  0 <= ENCODER_BACKLASH K
  /\ SpindleEncoder.avgWindow K (SpindleEncoder.new 0)
  /\ SpindleEncoder.everyPulse K (SpindleEncoder.pulseOk K) ds (SpindleEncoder.new 0)
  /\ SpindleEncoder.positionAvg (SpindleEncoder.feed K ds (SpindleEncoder.new 0)) = 10.
Proof.
  cbv zeta.
  assert (HB : 0 <= ENCODER_BACKLASH sampleConfigH) by (vm_compute; discriminate).
  assert (HW : SpindleEncoder.avgWindow sampleConfigH (SpindleEncoder.new 0))
    by (vm_compute; split; discriminate).
  split; [exact HB|]. split; [exact HW|]. split.
  - exact (proj1 (C8_encoder_backlash_amended sampleConfigH _ _ HB HW)).
  - vm_compute. reflexivity.
Defined.

(** What a complete call leaves.  For every pitch [p] with
    [|p| <= DUPR_MAX] and every number of starts [n] with
    [1 <= n <= STARTS_MAX], [setPitch(p)] and [setStarts(n)] (enabled
    or not) return a state that has the new value together with the
    synchronization reset: on Z, on X and, when active, on A1 the
    origin offset has absorbed the position, position and pending steps
    are 0, motor position and the stops that are set are shifted by the
    old position; the encoder's position, compensated position and sync
    offset are 0. *)
Lemma setPitch_setStarts_syncReset :
  forall (K : ConfigH) (m : Motion) (p n : Z),
    - DUPR_MAX K <= p <= DUPR_MAX K ->
    1 <= n <= STARTS_MAX K ->
    (currentPitch (setPitch K p m) = p /\ syncReset m (setPitch K p m))
    /\ (currentStarts (setStarts K n m) = n /\ syncReset m (setStarts K n m)).
Proof.
  intros K m p n Hp Hn.
  rewrite (setPitch_in_range K p m Hp), (setStarts_in_range K n m Hn).
  split; split.
  - destruct (setNewOrigin_frame (with_currentPitch p m)) as (_ & _ & H & _).
    rewrite H. reflexivity.
  - exact (setNewOrigin_syncReset (with_currentPitch p m)).
  - destruct (setNewOrigin_frame (with_currentStarts n m)) as (_ & _ & _ & H).
    rewrite H. reflexivity.
  - exact (setNewOrigin_syncReset (with_currentStarts n m)).
Qed.

(** C9.  [setPitch] assigns the new pitch before it resets the origin,
    and holds no lock from the one to the other: the reset does not
    come before the change takes effect.  On the machine in step with
    its spindle (system on in Normal mode, pitch 100, Z idle at 100,
    spindle at one turn) a tick leaves Z where it is.  The call
    [setPitch(200)] is the assignment followed by [setNewOrigin], and
    when it returns the reset is in place.  A tick of the motion task
    that runs after the assignment and before the reset computes the
    target of Z with the new pitch in the old frame: Z is sent from 100
    to 200 and steps at once (position 101, 99 steps pending, one more
    pulse on the step line).  After the complete call the position of
    Z is 0, and the next tick divides by zero. *)
Theorem C9_pitch_change_window :
  let K := sampleConfigH in
  let m := syncedMachine in
  let i := tickAt300ms 0 in
  (systemEnabled m, currentMode m, currentPitch m,
   SpindleEncoder.getAveragePosition (spindle m)) = (true, MODE_NORMAL K, 100, 1200)
  /\ (pos (zAxis m), pendingPos (zAxis m), isMoving (usModeZ i) (zAxis m),
      motorPos (zAxis m), stepPulses (gpio (zAxis m)))
     = (100, 0, false, 100, 100%nat)
  /\ (exists m',
        MotionController.update K i m = Done m'
        /\ (pos (zAxis m'), pendingPos (zAxis m'), motorPos (zAxis m'),
            stepPulses (gpio (zAxis m'))) = (100, 0, 100, 100%nat))
  /\ setPitch K 200 m = setNewOrigin (storePitch 200 m)
  /\ (currentPitch (setPitch K 200 m) = 200 /\ syncReset m (setPitch K 200 m))
  /\ (exists m1,
        MotionController.update K i (storePitch 200 m) = Done m1
        /\ currentPitch m1 = 200
        /\ (pos (zAxis m1), pendingPos (zAxis m1), motorPos (zAxis m1),
            stepPulses (gpio (zAxis m1))) = (101, 99, 101, 101%nat)
        /\ motorPos (zAxis (setNewOrigin m1)) + originPos (zAxis (setNewOrigin m1))
           = 101)
  /\ pos (zAxis (setPitch K 200 m)) = 0
  /\ MotionController.update K i (setPitch K 200 m) = DivideByZero.
Proof.
  cbv zeta.
  assert (Hp : - DUPR_MAX sampleConfigH <= 200 <= DUPR_MAX sampleConfigH)
    by (vm_compute; split; discriminate).
  assert (Hn : 1 <= 1 <= STARTS_MAX sampleConfigH)
    by (vm_compute; split; discriminate).
  split; [vm_compute; reflexivity|].
  split; [vm_compute; reflexivity|].
  split; [eexists; split; vm_compute; reflexivity|].
  split; [rewrite (setPitch_in_range sampleConfigH 200 syncedMachine Hp);
          reflexivity|].
  split; [exact (proj1 (setPitch_setStarts_syncReset sampleConfigH syncedMachine
                          200 1 Hp Hn))|].
  split; [eexists; split; [vm_compute; reflexivity|];
          repeat split; vm_compute; reflexivity|].
  split; vm_compute; reflexivity.
Qed.

(** C10, as stated, fails for an axis whose driver does not rest when
    idle: its enable counter is not counted up.  On the machine with
    such axes the counter of Z is 0 after the system is switched on. *)
Lemma C10_enable_counter_counterexample :
  let m0 := machine sampleConfig in
  (active (config (zAxis m0)), needsRest (config (zAxis m0)),
   systemEnabled m0, stepperEnableCounter (zAxis m0)) = (true, false, false, 0)
  /\ systemEnabled (MotionController.setEnabled true m0) = true
  /\ stepperEnableCounter (zAxis (MotionController.setEnabled true m0)) = 0
  /\ stepperEnableCounter
       (zAxis (setEnabledSeq (alternating 3) m0)) <> 3.
Proof.
  cbv zeta. repeat split; try (vm_compute; reflexivity).
  vm_compute. discriminate.
Qed.

(** C10, amended.  For each axis of the coordinator whose driver rests
    when idle and which is active, every [setEnabled] of the
    coordinator that switches the system on counts the enable counter
    up by one and no [setEnabled] of the coordinator counts it down:
    after any sequence of calls the counter has grown by the number of
    switch-ons, so by [n] after [n] times on and off; it is never below
    its earlier value; and if it was 0 and the axis is not disabled by
    the user, the enable line is high after the sequence, switched off
    or not, as soon as the sequence has switched on once.  The counter
    of any other axis is left as it is. *)
Theorem C10_enable_counter_amended :
  forall (ax : AxisId) (bs : list bool) (n : nat) (m : Motion),
    let a := axisOf ax m in
    (counted a = true ->
     stepperEnableCounter (axisOf ax (setEnabledSeq bs m))
     = stepperEnableCounter a + enableTransitions (systemEnabled m) bs
     /\ stepperEnableCounter a
        <= stepperEnableCounter (axisOf ax (setEnabledSeq bs m))
     /\ (systemEnabled m = false ->
         stepperEnableCounter (axisOf ax (setEnabledSeq (alternating n) m))
         = stepperEnableCounter a + Z.of_nat n)
     /\ (disabled a = false -> stepperEnableCounter a = 0 ->
         0 < enableTransitions (systemEnabled m) bs ->
         systemEnabled (setEnabledSeq (bs ++ [false]) m) = false
         /\ enaLevel (gpio (axisOf ax (setEnabledSeq (bs ++ [false]) m)))
            = Some true
         /\ 0 < stepperEnableCounter
                  (axisOf ax (setEnabledSeq (bs ++ [false]) m))))
    /\ (counted a = false ->
        stepperEnableCounter (axisOf ax (setEnabledSeq bs m))
        = stepperEnableCounter a).
Proof.
  intros ax bs n m a. subst a. split.
  - intros Hc.
    destruct (setEnabledSeq_counter ax bs m) as (_ & _ & Hn).
    rewrite Hc in Hn.
    pose proof (enableTransitions_nonneg bs (systemEnabled m)) as Hge.
    split; [exact Hn|]. split; [lia|]. split.
    + intros He.
      destruct (setEnabledSeq_counter ax (alternating n) m) as (_ & _ & Ha).
      rewrite Hc, He, enableTransitions_alternating in Ha. exact Ha.
    + intros Hd H0 Ht.
      assert (Hsplit : setEnabledSeq (bs ++ [false]) m
                       = MotionController.setEnabled false (setEnabledSeq bs m))
        by (unfold setEnabledSeq; rewrite fold_left_app; reflexivity).
      rewrite Hsplit.
      destruct (setEnabled_off (setEnabledSeq bs m)) as (Hz & Hx & Ha & _ & He & _).
      assert (Hax : axisOf ax (MotionController.setEnabled false (setEnabledSeq bs m))
                    = axisOf ax (setEnabledSeq bs m))
        by (destruct ax; cbn [axisOf]; assumption).
      rewrite Hax. split; [exact He|]. split.
      * apply setEnabledSeq_energized; assumption.
      * lia.
  - intros Hc.
    destruct (setEnabledSeq_counter ax bs m) as (_ & _ & Hn).
    rewrite Hc in Hn. lia.
Qed.

Lemma C10_enable_counter_amended_witness :
  let m := machine restingConfig in
  let bs := alternating 3 in
  counted (axisOf AxisZ m) = true
  /\ counted (axisOf AxisA1 m) = false
  /\ systemEnabled m = false
  /\ disabled (axisOf AxisZ m) = false
  /\ stepperEnableCounter (axisOf AxisZ m) = 0
  /\ 0 < enableTransitions (systemEnabled m) bs
  /\ stepperEnableCounter (axisOf AxisZ (setEnabledSeq bs m)) = 3
  /\ enaLevel (gpio (axisOf AxisZ (setEnabledSeq (bs ++ [false]) m))) = Some true
  /\ stepperEnableCounter (axisOf AxisA1 (setEnabledSeq bs m)) = 0.
Proof.
  cbv zeta.
  assert (Hc : counted (axisOf AxisZ (machine restingConfig)) = true)
    by (vm_compute; reflexivity).
  assert (Hc' : counted (axisOf AxisA1 (machine restingConfig)) = false)
    by (vm_compute; reflexivity).
  assert (He : systemEnabled (machine restingConfig) = false)
    by (vm_compute; reflexivity).
  assert (Hd : disabled (axisOf AxisZ (machine restingConfig)) = false)
    by (vm_compute; reflexivity).
  assert (H0 : stepperEnableCounter (axisOf AxisZ (machine restingConfig)) = 0)
    by (vm_compute; reflexivity).
  assert (Ht : 0 < enableTransitions (systemEnabled (machine restingConfig))
                     (alternating 3))
    by (vm_compute; reflexivity).
  split; [exact Hc|]. split; [exact Hc'|]. split; [exact He|].
  split; [exact Hd|]. split; [exact H0|]. split; [exact Ht|].
  destruct (C10_enable_counter_amended AxisZ (alternating 3) 3 (machine restingConfig))
    as (Hz & _).
  destruct (Hz Hc) as (_ & _ & Hn & Hen).
  destruct (C10_enable_counter_amended AxisA1 (alternating 3) 3 (machine restingConfig))
    as (_ & Ha).
  split; [rewrite (Hn He), H0; reflexivity|].
  split; [exact (proj1 (proj2 (Hen Hd H0 Ht)))|].
  rewrite (Ha Hc'). vm_compute. reflexivity.
Defined.

(** ** Further properties of the axis *)

Lemma setOrigin_pos : forall a, pos (setOrigin a) = 0.
Proof. intros a. apply (setOrigin_originReset a). Qed.

(** X1.  Setting the origin twice is setting it once, on an axis and
    on the coordinator's [setNewOrigin]. *)
Theorem X1_setOrigin_idempotent :
  (forall a : Axis, setOrigin (setOrigin a) = setOrigin a)
  /\ (forall m : Motion, setNewOrigin (setNewOrigin m) = setNewOrigin m).
Proof.
  assert (H : forall a : Axis, setOrigin (setOrigin a) = setOrigin a).
  { intros a. destruct a as [c p o g mp f pe l r s sm ac ds di dn st en db mm co es bs gr io].
    unfold setOrigin. cbn.
    destruct (Z.eqb_spec l LONG_MAX) as [El|El]; cbn;
      destruct (Z.eqb_spec r LONG_MIN) as [Er|Er]; cbn;
      rewrite ?Z.sub_0_r, ?Z.add_0_r;
      repeat match goal with
             | |- context [?x =? ?y] => destruct (Z.eqb_spec x y); cbn
             end; rewrite ?Z.sub_0_r, ?Z.add_0_r; reflexivity. }
  split; [exact H|].
  intros m. destruct m as [sp z x a1 cm se cp cs oi os oa osp ops cr tp ad].
  unfold setNewOrigin. cbn.
  destruct (isActive a1) eqn:Ea; cbn.
  - destruct (setOrigin_frame a1) as (Hc & _).
    unfold isActive in *. rewrite Hc, Ea. cbn. rewrite !H. reflexivity.
  - rewrite Ea. cbn. rewrite !H. reflexivity.
Qed.

(** What a tick that fires leaves alone, and what it writes. *)
Lemma update_fires_rest : forall t a,
  fires t a = true ->
  let dir := pendingPos a >? 0 in
  let turn := negb (eqb (direction a) dir) || negb (directionInitialized a) in
  config (AxisController.update t a) = config a /\
  originPos (AxisController.update t a) = originPos a /\
  posGlobal (AxisController.update t a) = posGlobal a + (if dir then 1 else -1) /\
  stepperEnableCounter (AxisController.update t a) = stepperEnableCounter a /\
  disabled (AxisController.update t a) = disabled a /\
  speedMax (AxisController.update t a) = speedMax a /\
  direction (AxisController.update t a) = dir /\
  directionInitialized (AxisController.update t a) = true /\
  gpio (AxisController.update t a)
  = DigitalWrite StepPin true :: DigitalWrite StepPin false
    :: (if turn
        then DigitalWrite DirPin (xorb dir (invertStepper (config a))) :: gpio a
        else gpio a).
Proof.
  intros t a. unfold fires, AxisController.update.
  destruct (pendingPos a =? 0) eqn:E0; cbn; [discriminate|].
  destruct (tooEarly t a); cbn; [discriminate|]. intros _.
  unfold setDirection.
  destruct (pendingPos a >? 0) eqn:Ed; cbn;
    destruct (direction a) eqn:Edi; destruct (directionInitialized a) eqn:Edn; cbn;
    destruct (motorPos a >=? pos a) eqn:Ef;
    destruct (motorPos a <=? pos a - backlashSteps a) eqn:Er; cbn;
    split_ifs; rewrite ?Edi, ?Edn; cbn; repeat split; reflexivity.
Qed.

Lemma update_idle_rest : forall t a,
  fires t a = false ->
  config (AxisController.update t a) = config a /\
  originPos (AxisController.update t a) = originPos a /\
  posGlobal (AxisController.update t a) = posGlobal a /\
  stepperEnableCounter (AxisController.update t a) = stepperEnableCounter a /\
  disabled (AxisController.update t a) = disabled a /\
  speedMax (AxisController.update t a) = speedMax a /\
  direction (AxisController.update t a) = direction a /\
  directionInitialized (AxisController.update t a) = directionInitialized a /\
  speed (AxisController.update t a)
  = (if (pendingPos a =? 0) && (speed a >? speedStart (config a))
     then speed a - 1 else speed a).
Proof.
  intros t a. unfold fires, AxisController.update.
  destruct (pendingPos a =? 0) eqn:E0; cbn.
  - intros _. destruct (speed a >? speedStart (config a)); cbn; repeat split; reflexivity.
  - destruct (tooEarly t a); cbn; [|discriminate]. intros _. repeat split; reflexivity.
Qed.

(** After a tick that fires the speed is clamped. *)
Lemma update_fires_speed : forall t a,
  fires t a = true ->
  speedStart (config a) <= speedMax a ->
  speedStart (config a) <= speed (AxisController.update t a) <= speedMax a.
Proof.
  intros t a. unfold fires, AxisController.update.
  destruct (pendingPos a =? 0) eqn:E0; cbn; [discriminate|].
  destruct (tooEarly t a); cbn; [discriminate|]. intros _ Hle.
  unfold setDirection.
  destruct (pendingPos a >? 0) eqn:Ed; cbn;
    destruct (negb (eqb (direction a) _) || negb (directionInitialized a)); cbn;
    destruct (motorPos a >=? pos a) eqn:Ef;
    destruct (motorPos a <=? pos a - backlashSteps a) eqn:Er; cbn;
    repeat match goal with
           | |- context [if ?c then _ else _] =>
               lazymatch c with
               | context [if _ then _ else _] => fail
               | _ >? _ => fail
               | _ <? _ => fail
               | _ => destruct c eqn:?; cbn
               end
           end;
    zcases; cbn; lia.
Qed.

Lemma axis_setEnabled_rest : forall b a,
  config (AxisController.setEnabled b a) = config a /\
  motorPos (AxisController.setEnabled b a) = motorPos a /\
  backlashSteps (AxisController.setEnabled b a) = backlashSteps a /\
  originPos (AxisController.setEnabled b a) = originPos a /\
  posGlobal (AxisController.setEnabled b a) = posGlobal a /\
  disabled (AxisController.setEnabled b a) = disabled a /\
  direction (AxisController.setEnabled b a) = direction a /\
  directionInitialized (AxisController.setEnabled b a) = directionInitialized a /\
  dirLevel (gpio (AxisController.setEnabled b a)) = dirLevel (gpio a).
Proof.
  intros b a. unfold AxisController.setEnabled, updateEnablePin.
  destruct (negb (needsRest (config a)) || negb (active (config a)));
    [repeat split; reflexivity|].
  destruct b; cbn; split_ifs; repeat split; reflexivity.
Qed.

Lemma begin_rest : forall a,
  config (begin a) = config a /\
  pos (begin a) = pos a /\
  motorPos (begin a) = motorPos a /\
  backlashSteps (begin a) = backlashSteps a /\
  originPos (begin a) = originPos a /\
  posGlobal (begin a) = posGlobal a /\
  stepperEnableCounter (begin a) = stepperEnableCounter a /\
  disabled (begin a) = disabled a /\
  direction (begin a) = direction a /\
  directionInitialized (begin a) = directionInitialized a /\
  dirLevel (gpio (begin a)) = dirLevel (gpio a) /\
  (needsRest (config a) = true -> enaLevel (gpio (begin a)) = enaLevel (gpio a)).
Proof.
  intros a. unfold begin. cbn.
  destruct (needsRest (config a)); cbn.
  - repeat split; reflexivity.
  - destruct (disabled a) eqn:Ed; cbn; rewrite ?Ed; repeat split;
      try reflexivity; intros; discriminate.
Qed.

Lemma moveTo_rest : forall t k a,
  config (snd (moveTo t k a)) = config a /\
  originPos (snd (moveTo t k a)) = originPos a /\
  posGlobal (snd (moveTo t k a)) = posGlobal a /\
  stepperEnableCounter (snd (moveTo t k a)) = stepperEnableCounter a /\
  disabled (snd (moveTo t k a)) = disabled a /\
  direction (snd (moveTo t k a)) = direction a /\
  directionInitialized (snd (moveTo t k a)) = directionInitialized a /\
  speed (snd (moveTo t k a)) = speed a /\
  speedMax (snd (moveTo t k a)) = speedMax a /\
  estopSteps (snd (moveTo t k a)) = estopSteps a.
Proof.
  intros t k a. unfold moveTo. cbn.
  destruct (t =? pos a); cbn; [repeat split; reflexivity|].
  destruct (Z.abs (t - pos a) >? estopSteps a); cbn; repeat split; reflexivity.
Qed.

Lemma setOrigin_rest : forall a,
  backlashSteps (setOrigin a) = backlashSteps a /\
  posGlobal (setOrigin a) = posGlobal a /\
  direction (setOrigin a) = direction a /\
  directionInitialized (setOrigin a) = directionInitialized a.
Proof.
  intros a. unfold setOrigin.
  destruct (leftStop a =? LONG_MAX); cbn;
    destruct (rightStop a =? LONG_MIN); cbn; repeat split; reflexivity.
Qed.

Lemma apply_motorLag : forall o a, motorLag a -> motorLag (apply o a).
Proof.
  intros o a H. destruct o; cbn [apply].
  - destruct (begin_rest a) as (_ & Hp & Hm & Hb & _).
    unfold motorLag. rewrite Hp, Hm, Hb. exact H.
  - apply (step_motorLag (MoveTo target continuousMode)). exact H.
  - apply update_motorLag. exact H.
  - destruct (axis_setEnabled_frame enable a) as (Hp & _).
    destruct (axis_setEnabled_rest enable a) as (_ & Hm & Hb & _).
    unfold motorLag. rewrite Hp, Hm, Hb. exact H.
  - exact H.
  - exact H.
  - destruct (setOrigin_originReset a) as (_ & Hp & _ & Hm & _).
    destruct (setOrigin_rest a) as (Hb & _).
    unfold motorLag in *. rewrite Hp, Hm, Hb. lia.
  - exact H.
  - exact H.
  - exact H.
Qed.

Lemma apply_counter_nonneg : forall o a,
  0 <= stepperEnableCounter a -> 0 <= stepperEnableCounter (apply o a).
Proof.
  intros o a H. destruct o; cbn [apply]; try exact H.
  - destruct (begin_rest a) as (_ & _ & _ & _ & _ & _ & Hn & _). rewrite Hn. exact H.
  - destruct (moveTo_rest target continuousMode a) as (_ & _ & _ & Hn & _).
    rewrite Hn. exact H.
  - destruct (fires nowUs a) eqn:F.
    + destruct (update_fires_rest nowUs a F) as (_ & _ & _ & Hn & _). rewrite Hn. exact H.
    + destruct (update_idle_rest nowUs a F) as (_ & _ & _ & Hn & _). rewrite Hn. exact H.
  - unfold AxisController.setEnabled, updateEnablePin.
    destruct (negb (needsRest (config a)) || negb (active (config a))); [exact H|].
    destruct enable; cbn.
    + split_ifs; lia.
    + destruct (Z.gtb_spec (stepperEnableCounter a) 0); cbn; [|exact H].
      split_ifs; lia.
  - destruct (setOrigin_frame a) as (_ & Hn & _). rewrite Hn. exact H.
Qed.

(** X2.  In every state an axis reaches from its construction through
    its public operations, the motor is at the tool or behind it by at
    most the backlash, so [|motor_pos - pos| <= backlash_steps], and
    the enable counter is not negative.  The backlash of the
    configuration must not be negative. *)
Theorem X2_reachable_backlash_bound :
  forall (c : AxisConfig) (os : list Op),
    0 <= backlashSteps (AxisController.new c) ->
    motorLag (applyAll os (AxisController.new c))
    /\ backlashBound (applyAll os (AxisController.new c))
    /\ 0 <= stepperEnableCounter (applyAll os (AxisController.new c)).
Proof.
  intros c os Hb.
  assert (H : forall os a, motorLag a /\ 0 <= stepperEnableCounter a ->
                           motorLag (applyAll os a)
                           /\ 0 <= stepperEnableCounter (applyAll os a)).
  { clear. induction os as [|o os IH]; intros a [Hl Hn]; [split; assumption|].
    apply IH. split; [apply apply_motorLag | apply apply_counter_nonneg]; assumption. }
  destruct (H os (AxisController.new c)) as [Hl Hn].
  { split; [unfold motorLag; cbn in *; lia | cbn; lia]. }
  split; [exact Hl|]. split; [|exact Hn].
  unfold backlashBound, motorLag in *. lia.
Qed.

Lemma X2_reachable_backlash_bound_witness :
  let os := [OpBegin; OpSetEnabled true; OpMoveTo 100 false; OpUpdate 2000;
             OpUpdate 4000; OpSetOrigin; OpMoveTo (-3) true; OpUpdate 6000;
             OpSetEnabled false; OpSetEnabled false] in
  0 <= backlashSteps (AxisController.new restingConfig)
  /\ motorLag (applyAll os (AxisController.new restingConfig))
  /\ (pos (applyAll os (AxisController.new restingConfig)),
      motorPos (applyAll os (AxisController.new restingConfig)),
      stepperEnableCounter (applyAll os (AxisController.new restingConfig)))
     = (0, -1, 0).
Proof.
  cbv zeta.
  assert (Hb : 0 <= backlashSteps (AxisController.new restingConfig))
    by (vm_compute; discriminate).
  split; [exact Hb|]. split.
  - exact (proj1 (X2_reachable_backlash_bound restingConfig _ Hb)).
  - vm_compute. reflexivity.
Defined.

Lemma apply_global : forall o a,
  isResetOrigin o = false ->
  posGlobal (apply o a) - motorPos (apply o a) - originPos (apply o a)
  = posGlobal a - motorPos a - originPos a.
Proof.
  intros o a Ho. destruct o; cbn [apply]; try reflexivity; try discriminate Ho.
  - destruct (begin_rest a) as (_ & _ & Hm & _ & Hor & Hg & _).
    rewrite Hm, Hor, Hg. reflexivity.
  - destruct (moveTo_frame target continuousMode a) as (_ & Hm & _).
    destruct (moveTo_rest target continuousMode a) as (_ & Hor & Hg & _).
    rewrite Hm, Hor, Hg. reflexivity.
  - destruct (fires nowUs a) eqn:F.
    + destruct (update_fires nowUs a F) as (_ & Hm & _).
      destruct (update_fires_rest nowUs a F) as (_ & Hor & Hg & _).
      rewrite Hm, Hor, Hg. lia.
    + destruct (update_idle nowUs a F) as (_ & Hm & _).
      destruct (update_idle_rest nowUs a F) as (_ & Hor & Hg & _).
      rewrite Hm, Hor, Hg. reflexivity.
  - destruct (axis_setEnabled_rest enable a) as (_ & Hm & _ & Hor & Hg & _).
    rewrite Hm, Hor, Hg. reflexivity.
  - destruct (setOrigin_originReset a) as (Hor & _ & _ & Hm & _).
    destruct (setOrigin_rest a) as (_ & Hg & _).
    rewrite Hm, Hor, Hg. lia.
Qed.

(** X3.  As long as [resetOrigin] is not used, the never-reset global
    position is the motor position in absolute coordinates:
    [pos_global = motor_pos + origin_offset] in every state reached
    from the construction of the axis. *)
Theorem X3_global_position :
  forall (c : AxisConfig) (os : list Op),
    forallb (fun o => negb (isResetOrigin o)) os = true ->
    posGlobal (applyAll os (AxisController.new c))
    = motorPos (applyAll os (AxisController.new c))
      + originPos (applyAll os (AxisController.new c)).
Proof.
  intros c os Hos.
  assert (H : forall os a,
             forallb (fun o => negb (isResetOrigin o)) os = true ->
             posGlobal (applyAll os a) - motorPos (applyAll os a)
             - originPos (applyAll os a)
             = posGlobal a - motorPos a - originPos a).
  { clear. induction os as [|o os IH]; intros a Hos; [reflexivity|].
    cbn in Hos. apply andb_true_iff in Hos. destruct Hos as [Ho Hos].
    apply negb_true_iff in Ho.
    change (applyAll (o :: os) a) with (applyAll os (apply o a)).
    rewrite (IH _ Hos). apply apply_global. exact Ho. }
  specialize (H os (AxisController.new c) Hos). cbn in H. lia.
Qed.

Lemma X3_global_position_witness :
  let os := [OpBegin; OpMoveTo 3 false; OpUpdate 2000; OpUpdate 4000;
             OpUpdate 6000; OpSetOrigin; OpMoveTo (-2) false; OpUpdate 300000] in
  let a := applyAll os (AxisController.new sampleConfig) in
  forallb (fun o => negb (isResetOrigin o)) os = true
  /\ posGlobal a = motorPos a + originPos a
  /\ (posGlobal a, motorPos a, originPos a, pos a) = (2, -1, 3, 0).
Proof.
  cbv zeta.
  assert (H : forallb (fun o => negb (isResetOrigin o))
                [OpBegin; OpMoveTo 3 false; OpUpdate 2000; OpUpdate 4000;
                 OpUpdate 6000; OpSetOrigin; OpMoveTo (-2) false; OpUpdate 300000]
              = true) by reflexivity.
  split; [exact H|]. split.
  - exact (X3_global_position sampleConfig _ H).
  - vm_compute. reflexivity.
Defined.

Lemma apply_dirLineOk : forall o a, dirLineOk a -> dirLineOk (apply o a).
Proof.
  intros o a H. unfold dirLineOk in *. destruct o; cbn [apply]; try exact H.
  - destruct (begin_rest a) as (Hc & _ & _ & _ & _ & _ & _ & _ & Hd & Hi & Hl & _).
    rewrite Hc, Hd, Hi, Hl. exact H.
  - destruct (moveTo_frame target continuousMode a) as (_ & _ & _ & _ & _ & Hg).
    destruct (moveTo_rest target continuousMode a) as (Hc & _ & _ & _ & _ & Hd & Hi & _).
    rewrite Hc, Hd, Hi, Hg. exact H.
  - destruct (fires nowUs a) eqn:F.
    + destruct (update_fires_rest nowUs a F)
        as (Hc & _ & _ & _ & _ & _ & Hd & Hi & Hg).
      rewrite Hc, Hd, Hi, Hg. cbn.
      destruct (directionInitialized a) eqn:Ei; cbn.
      * rewrite orb_false_r.
        destruct (eqb (direction a) (pendingPos a >? 0)) eqn:Ee; cbn; [|reflexivity].
        apply eqb_prop in Ee. rewrite <- Ee. exact H.
      * rewrite orb_true_r. reflexivity.
    + destruct (update_idle nowUs a F) as (_ & _ & _ & _ & _ & _ & Hg).
      destruct (update_idle_rest nowUs a F) as (Hc & _ & _ & _ & _ & _ & Hd & Hi & _).
      rewrite Hc, Hd, Hi, Hg. exact H.
  - destruct (axis_setEnabled_rest enable a) as (Hc & _ & _ & _ & _ & _ & Hd & Hi & Hl).
    rewrite Hc, Hd, Hi, Hl. exact H.
  - destruct (setOrigin_frame a) as (Hc & _ & _ & _ & Hg).
    destruct (setOrigin_rest a) as (_ & _ & Hd & Hi).
    rewrite Hc, Hd, Hi, Hg. exact H.
Qed.

Lemma apply_config : forall o a, config (apply o a) = config a.
Proof.
  intros o a. destruct o; cbn [apply]; try reflexivity.
  - apply (begin_rest a).
  - apply (moveTo_rest target continuousMode a).
  - destruct (fires nowUs a) eqn:F.
    + apply (update_fires_rest nowUs a F).
    + apply (update_idle_rest nowUs a F).
  - apply (axis_setEnabled_rest enable a).
  - apply (setOrigin_frame a).
Qed.

Lemma applyAll_config : forall os a, config (applyAll os a) = config a.
Proof.
  induction os as [|o os IH]; intros a; [reflexivity|].
  change (applyAll (o :: os) a) with (applyAll os (apply o a)).
  rewrite IH. apply apply_config.
Qed.

(** X4.  In every state an axis reaches from its construction, the
    direction line carries the direction the axis holds, inverted when
    the configuration says so, and has not been written while the
    direction is not initialized.  Hence every step pulse is emitted
    with the direction line at the level of the step's direction. *)
Theorem X4_direction_line :
  forall (c : AxisConfig) (os : list Op) (t : Z),
    let a := applyAll os (AxisController.new c) in
    dirLineOk a
    /\ (fires t a = true ->
        dirLevel (gpio (AxisController.update t a))
        = Some (xorb (pendingPos a >? 0) (invertStepper c))).
Proof.
  intros c os t a.
  assert (H : forall os a, dirLineOk a -> dirLineOk (applyAll os a)).
  { clear. induction os as [|o os IH]; intros a Ha; [exact Ha|].
    apply IH, apply_dirLineOk, Ha. }
  assert (Ha : dirLineOk a) by (apply H; reflexivity).
  split; [exact Ha|].
  intros F.
  pose proof (apply_dirLineOk (OpUpdate t) a Ha) as Hu. cbn [apply] in Hu.
  unfold dirLineOk in Hu.
  destruct (update_fires_rest t a F) as (Hc & _ & _ & _ & _ & _ & Hd & Hi & _).
  rewrite Hu, Hi, Hd, Hc. unfold a. rewrite applyAll_config. reflexivity.
Qed.

Lemma X4_direction_line_witness :
  let os := [OpBegin; OpMoveTo 2 false; OpUpdate 2000; OpUpdate 4000;
             OpMoveTo 0 false] in
  let a := applyAll os (AxisController.new sampleConfig) in
  fires 300000 a = true
  /\ dirLevel (gpio a) = Some true
  /\ dirLevel (gpio (AxisController.update 300000 a)) = Some false.
Proof.
  cbv zeta.
  assert (F : fires 300000
                (applyAll [OpBegin; OpMoveTo 2 false; OpUpdate 2000; OpUpdate 4000;
                           OpMoveTo 0 false] (AxisController.new sampleConfig)) = true)
    by (vm_compute; reflexivity).
  split; [exact F|]. split; [vm_compute; reflexivity|].
  rewrite (proj2 (X4_direction_line sampleConfig _ 300000) F).
  vm_compute. reflexivity.
Defined.

Lemma setEnabled_enaLineOk : forall b a,
  needsRest (config a) = true ->
  enaLineOk a -> enaLineOk (AxisController.setEnabled b a).
Proof.
  intros b a Hr (Hn & Hp & Hz).
  unfold enaLineOk, AxisController.setEnabled, updateEnablePin.
  rewrite Hr. cbn [negb orb].
  destruct (active (config a)); cbn [negb]; [|repeat split; assumption].
  destruct b.
  - cbn. rewrite Hr. cbn.
    destruct (Z.eqb_spec (stepperEnableCounter a + 1) 1) as [E|E]; cbn.
    + assert (E0 : stepperEnableCounter a = 0) by lia.
      rewrite E0. cbn. destruct (disabled a) eqn:Ed; cbn; rewrite ?Ed;
        repeat split; try lia; intros; try reflexivity; lia.
    + repeat split; try lia. intros _. apply Hp. lia.
  - destruct (Z.gtb_spec (stepperEnableCounter a) 0) as [G|G]; cbn;
      [|repeat split; assumption].
    rewrite Hr. cbn.
    destruct (Z.eqb_spec (stepperEnableCounter a - 1) 0) as [E|E]; cbn.
    + rewrite E. rewrite andb_false_r. cbn.
      repeat split; try lia. intros _. discriminate.
    + repeat split; try lia. intros _. apply Hp. lia.
Qed.

Lemma update_enaLevel : forall t a,
  enaLevel (gpio (AxisController.update t a)) = enaLevel (gpio a).
Proof.
  intros t a. destruct (fires t a) eqn:F.
  - destruct (update_fires_rest t a F) as (_ & _ & _ & _ & _ & _ & _ & _ & Hg).
    rewrite Hg. cbn. destruct (_ || _); reflexivity.
  - destruct (update_idle t a F) as (_ & _ & _ & _ & _ & _ & Hg).
    rewrite Hg. reflexivity.
Qed.

Lemma apply_enaLineOk : forall o a,
  needsRest (config a) = true -> enaLineOk a -> enaLineOk (apply o a).
Proof.
  intros o a Hr H. destruct o; cbn [apply]; try exact H.
  - destruct (begin_rest a) as (_ & _ & _ & _ & _ & _ & Hn & Hd & _ & _ & _ & He).
    unfold enaLineOk. rewrite Hn, Hd, (He Hr). exact H.
  - destruct (moveTo_frame target continuousMode a) as (_ & _ & _ & _ & _ & Hg).
    destruct (moveTo_rest target continuousMode a) as (_ & _ & _ & Hn & Hd & _).
    unfold enaLineOk. rewrite Hn, Hd, Hg. exact H.
  - unfold enaLineOk. rewrite update_enaLevel.
    destruct (fires nowUs a) eqn:F.
    + destruct (update_fires_rest nowUs a F) as (_ & _ & _ & Hn & Hd & _).
      rewrite Hn, Hd. exact H.
    + destruct (update_idle_rest nowUs a F) as (_ & _ & _ & Hn & Hd & _).
      rewrite Hn, Hd. exact H.
  - apply setEnabled_enaLineOk; assumption.
  - destruct (setOrigin_frame a) as (_ & Hn & Hd & _ & Hg).
    unfold enaLineOk. rewrite Hn, Hd, Hg. exact H.
Qed.

Lemma axis_setEnabled_false_counter : forall a,
  stepperEnableCounter (AxisController.setEnabled false a)
  = if counted a && (stepperEnableCounter a >? 0)
    then stepperEnableCounter a - 1 else stepperEnableCounter a.
Proof.
  intros a. unfold AxisController.setEnabled, counted, updateEnablePin.
  destruct (needsRest (config a)); destruct (active (config a)); cbn;
    try reflexivity.
  destruct (stepperEnableCounter a >? 0); cbn; [|reflexivity].
  split_ifs; reflexivity.
Qed.

(** X5.  For a driver that rests when idle, in every state the axis
    reaches from its construction the enable counter is not negative,
    the enable line is high (low if the axis is disabled by the user)
    while the counter is positive, and it is not high while the
    counter is zero.  A [setEnabled(true)] followed by
    [setEnabled(false)] leaves the counter where it was. *)
Theorem X5_enable_line :
  forall (c : AxisConfig) (os : list Op),
    needsRest c = true ->
    let a := applyAll os (AxisController.new c) in
    enaLineOk a
    /\ stepperEnableCounter
         (AxisController.setEnabled false (AxisController.setEnabled true a))
       = stepperEnableCounter a.
Proof.
  intros c os Hr a.
  assert (H : forall os a, needsRest (config a) = true -> enaLineOk a ->
                           enaLineOk (applyAll os a)).
  { clear. induction os as [|o os IH]; intros a Hr Ha; [exact Ha|].
    apply IH; [rewrite apply_config; exact Hr | apply apply_enaLineOk; assumption]. }
  assert (Ha : enaLineOk a).
  { apply H; [exact Hr|]. unfold enaLineOk. cbn. repeat split; try lia. discriminate. }
  split; [exact Ha|].
  destruct Ha as (Hn & _).
  destruct (axis_setEnabled_true a) as (Hc & _ & Hup & _).
  rewrite axis_setEnabled_false_counter, (counted_config _ _ Hc), Hup.
  cbn [andb]. destruct (counted a); cbn [andb]; [|lia].
  destruct (Z.gtb_spec (stepperEnableCounter a + 1) 0); lia.
Qed.

Lemma X5_enable_line_witness :
  let os := [OpBegin; OpSetEnabled false; OpSetEnabled true; OpSetEnabled true;
             OpMoveTo 1 false; OpUpdate 2000; OpSetEnabled false] in
  let a := applyAll os (AxisController.new restingConfig) in
  needsRest restingConfig = true
  /\ enaLineOk a
  /\ (stepperEnableCounter a, enaLevel (gpio a)) = (1, Some true)
  /\ enaLevel (gpio (AxisController.setEnabled false a)) = Some false.
Proof.
  cbv zeta.
  assert (Hr : needsRest restingConfig = true) by reflexivity.
  split; [exact Hr|]. split.
  - exact (proj1 (X5_enable_line restingConfig _ Hr)).
  - split; vm_compute; reflexivity.
Defined.

Lemma moveTo_aimsAt : forall t k a,
  motorLag a -> aimsAt (pos a) t (snd (moveTo t k a)).
Proof.
  intros t k a Hl. unfold aimsAt, motorLag in *.
  destruct (moveTo_frame t k a) as (Hp & Hm & Hb & _).
  rewrite (moveTo_pending t k a), Hp, Hm, Hb.
  zcases; lia.
Qed.

Lemma update_aimsAt : forall p0 t u a,
  motorLag a -> aimsAt p0 t a -> aimsAt p0 t (AxisController.update u a).
Proof.
  intros p0 t u a Hl Ha. unfold aimsAt, motorLag in *.
  destruct (fires u a) eqn:F.
  - pose proof (fires_pending u a F) as Hne.
    destruct (update_fires u a F) as (Hpe & Hm & Hb & _ & _ & Hp).
    rewrite Hpe, Hm, Hb, Hp. clear Hpe Hm Hb Hp.
    revert Ha. zcases; lia.
  - destruct (update_idle u a F) as (Hp & Hm & Hpe & Hb & _).
    rewrite Hp, Hm, Hpe, Hb. exact Ha.
Qed.

Lemma tickAll_aimsAt : forall ts p0 t a,
  motorLag a -> aimsAt p0 t a ->
  motorLag (tickAll ts a) /\ aimsAt p0 t (tickAll ts a).
Proof.
  induction ts as [|u ts IH]; intros p0 t a Hl Ha; [split; assumption|].
  change (tickAll (u :: ts) a) with (tickAll ts (AxisController.update u a)).
  apply IH; [apply update_motorLag | apply update_aimsAt]; assumption.
Qed.

(** X6.  Backlash compensation brings the tool to the target.  After
    [moveTo(target)] on an axis whose motor is within the backlash
    behind the tool, over any sequence of stepping ticks the tool stays
    between where it was and the target, and once no steps are pending
    the tool is at the target, with the motor at the target after a
    move forward and one backlash behind it after a move back. *)
Theorem X6_move_arrives :
  forall (a : Axis) (target : Z) (k : bool) (ts : list Z),
    motorLag a ->
    let a' := tickAll ts (snd (moveTo target k a)) in
    Z.min (pos a) target <= pos a' <= Z.max (pos a) target
    /\ (pendingPos a' = 0 ->
        pos a' = target
        /\ (pos a < target -> motorPos a' = target)
        /\ (target < pos a -> motorPos a' = target - backlashSteps a')).
Proof.
  intros a target k ts Hl a'.
  pose proof (moveTo_aimsAt target k a Hl) as H0.
  assert (Hl0 : motorLag (snd (moveTo target k a))).
  { apply (step_motorLag (MoveTo target k)). exact Hl. }
  destruct (tickAll_aimsAt ts _ _ _ Hl0 H0) as (Hl' & Ha').
  fold a' in Hl', Ha'. unfold aimsAt, motorLag in *.
  split; [lia|]. intros Hz. repeat split; lia.
Qed.

Lemma X6_move_arrives_witness :
  let a := AxisController.run (MoveTo 100 false :: ticks 100 2000)
             (AxisController.new sampleConfig) in
  let ts := map (fun n => 300000 + 2000 * Z.of_nat n) (seq 0 70) in
  let a' := tickAll ts (snd (moveTo 80 false a)) in
  motorLag a
  /\ pendingPos a' = 0
  /\ pos a' = 80
  /\ motorPos a' = 80 - backlashSteps a'
  /\ motorPos a' = 30.
Proof.
  cbv zeta.
  assert (Hl : motorLag (AxisController.run (MoveTo 100 false :: ticks 100 2000)
                           (AxisController.new sampleConfig)))
    by (vm_compute; split; discriminate).
  assert (Hz : pendingPos
                 (tickAll (map (fun n => 300000 + 2000 * Z.of_nat n) (seq 0 70))
                    (snd (moveTo 80 false
                            (AxisController.run (MoveTo 100 false :: ticks 100 2000)
                               (AxisController.new sampleConfig))))) = 0)
    by (vm_compute; reflexivity).
  split; [exact Hl|]. split; [exact Hz|].
  destruct (X6_move_arrives _ 80 false
              (map (fun n => 300000 + 2000 * Z.of_nat n) (seq 0 70)) Hl)
    as (_ & H).
  destruct (H Hz) as (Hp & _ & Hm).
  split; [exact Hp|]. split; [apply Hm; vm_compute; reflexivity|].
  vm_compute. reflexivity.
Defined.

Lemma update_pulses : forall t a,
  Z.of_nat (stepPulses (gpio (AxisController.update t a)))
  = Z.of_nat (stepPulses (gpio a))
    + Z.abs (pendingPos a) - Z.abs (pendingPos (AxisController.update t a))
  /\ motorPos (AxisController.update t a) - motorPos a
     = pendingPos a - pendingPos (AxisController.update t a)
  /\ (0 <= pendingPos (AxisController.update t a) <= pendingPos a
      \/ pendingPos a <= pendingPos (AxisController.update t a) <= 0).
Proof.
  intros t a. destruct (fires t a) eqn:F.
  - pose proof (fires_pending t a F) as Hne.
    rewrite (update_fires_pulse t a F).
    destruct (update_fires t a F) as (Hpe & Hm & _).
    rewrite Hpe, Hm. zcases; lia.
  - destruct (update_idle t a F) as (_ & Hm & Hpe & _ & _ & _ & Hg).
    rewrite Hm, Hpe, Hg. lia.
Qed.

(** X7.  Over any sequence of stepping ticks the pending steps move
    toward zero and never past it, every pending step taken off is one
    pulse on the step line and one step of the motor position, and no
    pulse is emitted otherwise. *)
Theorem X7_pulse_accounting :
  forall (ts : list Z) (a : Axis),
    Z.of_nat (stepPulses (gpio (tickAll ts a)))
    = Z.of_nat (stepPulses (gpio a))
      + Z.abs (pendingPos a) - Z.abs (pendingPos (tickAll ts a))
    /\ motorPos (tickAll ts a) - motorPos a
       = pendingPos a - pendingPos (tickAll ts a)
    /\ (0 <= pendingPos (tickAll ts a) <= pendingPos a
        \/ pendingPos a <= pendingPos (tickAll ts a) <= 0).
Proof.
  induction ts as [|t ts IH]; intros a.
  - cbn. lia.
  - change (tickAll (t :: ts) a) with (tickAll ts (AxisController.update t a)).
    destruct (IH (AxisController.update t a)) as (H1 & H2 & H3).
    destruct (update_pulses t a) as (U1 & U2 & U3).
    rewrite H1, U1. lia.
Qed.

Lemma step_speedInRange : forall c a,
  speedInRange a -> speedInRange (AxisController.step c a).
Proof.
  intros [t k | t] a H; cbn; unfold speedInRange in *.
  - destruct (moveTo_rest t k a) as (Hc & _ & _ & _ & _ & _ & _ & Hs & Hm & _).
    rewrite Hc, Hs, Hm. exact H.
  - destruct (fires t a) eqn:F.
    + destruct (update_fires_rest t a F) as (Hc & _ & _ & _ & _ & Hm & _).
      rewrite Hc, Hm. apply update_fires_speed; [exact F | lia].
    + destruct (update_idle_rest t a F) as (Hc & _ & _ & _ & _ & Hm & _ & _ & Hs).
      rewrite Hc, Hm, Hs. zcases; lia.
Qed.

(** X8.  Targets and stepping ticks keep the speed between the start
    speed and the speed limit: from a state with
    [speed_start <= speed <= speed_max], that holds after every command
    of any sequence of [moveTo] commands and ticks. *)
Theorem X8_speed_in_range :
  forall (cs : list AxisController.Command) (a : Axis),
    speedInRange a ->
    Forall speedInRange (states cs a).
Proof.
  induction cs as [|c cs IH]; intros a H; cbn; constructor.
  - apply step_speedInRange. exact H.
  - apply IH. apply step_speedInRange. exact H.
Qed.

Lemma X8_speed_in_range_witness :
  let a := AxisController.new sampleConfig in
  let cs := MoveTo 1000 true :: ticks 40 2000 ++ MoveTo 0 false :: ticks 5 300000 in
  speedInRange a
  /\ Forall speedInRange (states cs a)
  /\ speed (AxisController.run (MoveTo 1000 true :: ticks 40 2000) a) = 1615.
Proof.
  cbv zeta.
  assert (H : speedInRange (AxisController.new sampleConfig))
    by (vm_compute; split; discriminate).
  split; [exact H|]. split.
  - apply (X8_speed_in_range _ _ H).
  - vm_compute. reflexivity.
Defined.

(** X9.  There is no queue of targets: a [moveTo] replaces whatever an
    earlier [moveTo] left, accepted or refused.  Its result and the
    state it leaves are those of the later command alone. *)
Theorem X9_moveTo_supersedes :
  forall (a : Axis) (t1 t2 : Z) (k1 k2 : bool),
    moveTo t2 k2 (snd (moveTo t1 k1 a)) = moveTo t2 k2 a.
Proof.
  intros a t1 t2 k1 k2.
  destruct a as [c p o g mp f pe l r s sm ac ds di dn st en db mm co es bs gr io].
  unfold moveTo. cbn.
  destruct (t1 =? p); cbn.
  - destruct (t2 =? p); cbn; [reflexivity|].
    destruct (Z.abs (t2 - p) >? es); reflexivity.
  - destruct (Z.abs (t1 - p) >? es); cbn;
      (destruct (t2 =? p); cbn; [reflexivity|];
       destruct (Z.abs (t2 - p) >? es); reflexivity).
Qed.

Lemma tickAll_idle : forall ts a,
  pendingPos a = 0 ->
  pendingPos (tickAll ts a) = 0
  /\ pos (tickAll ts a) = pos a
  /\ motorPos (tickAll ts a) = motorPos a
  /\ gpio (tickAll ts a) = gpio a
  /\ speed (tickAll ts a)
     = Z.max (Z.min (speed a) (speedStart (config a)))
             (speed a - Z.of_nat (length ts)).
Proof.
  induction ts as [|t ts IH]; intros a Hz.
  - cbn. repeat split; try assumption. lia.
  - change (tickAll (t :: ts) a) with (tickAll ts (AxisController.update t a)).
    assert (F : fires t a = false) by (unfold fires; rewrite Hz; reflexivity).
    destruct (update_idle t a F) as (Hp & Hm & Hpe & _ & _ & _ & Hg).
    destruct (update_idle_rest t a F) as (Hc & _ & _ & _ & _ & _ & _ & _ & Hs).
    destruct (IH (AxisController.update t a)) as (I1 & I2 & I3 & I4 & I5);
      [rewrite Hpe; exact Hz|].
    rewrite I1, I2, I3, I4, I5, Hp, Hm, Hg, Hc, Hs, Hz.
    repeat split; try reflexivity.
    cbn [length]. rewrite Z.eqb_refl. cbn [andb]. zcases; lia.
Qed.

(** X10.  An axis with no pending steps emits nothing and does not
    move; each tick takes one step per second off its speed until the
    start speed is reached, however much time passes between the
    ticks. *)
Theorem X10_idle_ticks :
  forall (ts : list Z) (a : Axis),
    pendingPos a = 0 ->
    pendingPos (tickAll ts a) = 0
    /\ pos (tickAll ts a) = pos a
    /\ motorPos (tickAll ts a) = motorPos a
    /\ gpio (tickAll ts a) = gpio a
    /\ speed (tickAll ts a)
       = Z.max (Z.min (speed a) (speedStart (config a)))
               (speed a - Z.of_nat (length ts)).
Proof. exact tickAll_idle. Qed.

Lemma X10_idle_ticks_witness :
  let a := AxisController.run (MoveTo 40 true :: ticks 40 2000)
             (AxisController.new sampleConfig) in
  pendingPos a = 0
  /\ speed a = 1615
  /\ speed (tickAll [100000; 100001; 100002] a) = 1612
  /\ gpio (tickAll [100000; 100001; 100002] a) = gpio a.
Proof.
  cbv zeta.
  assert (Hz : pendingPos (AxisController.run (MoveTo 40 true :: ticks 40 2000)
                             (AxisController.new sampleConfig)) = 0)
    by (vm_compute; reflexivity).
  split; [exact Hz|]. split; [vm_compute; reflexivity|].
  destruct (X10_idle_ticks [100000; 100001; 100002] _ Hz) as (_ & _ & _ & Hg & Hs).
  split; [rewrite Hs; vm_compute; reflexivity | exact Hg].
Defined.

(** ** Further properties of the encoder *)

(** X11.  For a positive number of pulses per turn, [normalizePosition]
    returns the residue of its argument in [[0, ENCODER_STEPS_INT)],
    also for negative arguments, and normalizing twice is normalizing
    once. *)
Theorem X11_normalizePosition :
  forall (K : ConfigH) (p : Z),
    0 < ENCODER_STEPS_INT K ->
    0 <= SpindleEncoder.normalizePosition K p < ENCODER_STEPS_INT K
    /\ SpindleEncoder.normalizePosition K p = p mod ENCODER_STEPS_INT K
    /\ SpindleEncoder.normalizePosition K (SpindleEncoder.normalizePosition K p)
       = SpindleEncoder.normalizePosition K p.
Proof.
  intros K p HE.
  assert (H : forall q, SpindleEncoder.normalizePosition K q
                        = q mod ENCODER_STEPS_INT K).
  { intros q. unfold SpindleEncoder.normalizePosition.
    pose proof (Z.quot_rem' q (ENCODER_STEPS_INT K)) as Hq.
    pose proof (Z.rem_bound_abs q (ENCODER_STEPS_INT K)) as Hb.
    destruct (Z.ltb_spec (Z.rem q (ENCODER_STEPS_INT K)) 0) as [Hn|Hn].
    - apply (Z.mod_unique_pos q (ENCODER_STEPS_INT K)
               (Z.quot q (ENCODER_STEPS_INT K) - 1)); lia.
    - apply (Z.mod_unique_pos q (ENCODER_STEPS_INT K)
               (Z.quot q (ENCODER_STEPS_INT K))); lia. }
  rewrite !H. split; [apply Z.mod_pos_bound; exact HE|].
  split; [reflexivity|]. apply Z.mod_mod. lia.
Qed.

Lemma X11_normalizePosition_witness :
  0 < ENCODER_STEPS_INT sampleConfigH
  /\ SpindleEncoder.normalizePosition sampleConfigH (-1) = 1199
  /\ SpindleEncoder.normalizePosition sampleConfigH 2500 = 100.
Proof.
  assert (H : 0 < ENCODER_STEPS_INT sampleConfigH) by reflexivity.
  split; [exact H|].
  destruct (X11_normalizePosition sampleConfigH (-1) H) as (_ & H1 & _).
  destruct (X11_normalizePosition sampleConfigH 2500 H) as (_ & H2 & _).
  split; [rewrite H1 | rewrite H2]; reflexivity.
Defined.

Lemma processPulses_global : forall K d t e,
  SpindleEncoder.positionGlobal (SpindleEncoder.processPulses K d t e)
  = let g := SpindleEncoder.positionGlobal e + d in
    if g >? ENCODER_STEPS_INT K then g - ENCODER_STEPS_INT K
    else if g <? 0 then g + ENCODER_STEPS_INT K else g.
Proof.
  intros K d t e. unfold SpindleEncoder.processPulses. cbv zeta.
  destruct (SpindleEncoder.positionGlobal e + d >? ENCODER_STEPS_INT K) eqn:E1;
    destruct (SpindleEncoder.positionGlobal e + d <? 0) eqn:E2;
    split_ifs; try reflexivity; congruence.
Qed.

(** X12.  With deltas of at most one turn each, the global position
    stays in [[0, ENCODER_STEPS_INT]], upper end included, and differs
    from the sum of the deltas by a whole number of turns. *)
Theorem X12_global_position_range :
  forall (K : ConfigH) (ds : list (Z * Z)) (e : SpindleEncoder.Encoder),
    0 < ENCODER_STEPS_INT K ->
    SpindleEncoder.withinTurn K ds ->
    0 <= SpindleEncoder.positionGlobal e <= ENCODER_STEPS_INT K ->
    0 <= SpindleEncoder.positionGlobal (SpindleEncoder.feed K ds e)
      <= ENCODER_STEPS_INT K
    /\ exists n : Z,
         SpindleEncoder.positionGlobal (SpindleEncoder.feed K ds e)
         = SpindleEncoder.positionGlobal e + SpindleEncoder.sumDeltas ds
           + n * ENCODER_STEPS_INT K.
Proof.
  intros K ds. induction ds as [|[d t] ds IH]; intros e HE Hd Hg.
  - cbn. split; [exact Hg|]. exists 0. lia.
  - inversion Hd as [|x xs Hx Hxs]; subst. cbn [fst] in Hx.
    cbn [SpindleEncoder.feed].
    pose proof (processPulses_global K d t e) as Hp. cbv zeta in Hp.
    assert (Hg' : 0 <= SpindleEncoder.positionGlobal
                         (SpindleEncoder.processPulses K d t e)
                  <= ENCODER_STEPS_INT K).
    { rewrite Hp. zcases; lia. }
    destruct (IH _ HE Hxs Hg') as (Hr & n & Hn).
    split; [exact Hr|].
    rewrite Hn, Hp. cbn [SpindleEncoder.sumDeltas fold_right fst].
    fold (SpindleEncoder.sumDeltas ds).
    destruct (SpindleEncoder.positionGlobal e + d >? ENCODER_STEPS_INT K).
    + exists (n - 1). lia.
    + destruct (SpindleEncoder.positionGlobal e + d <? 0).
      * exists (n + 1). lia.
      * exists n. lia.
Qed.

Lemma X12_global_position_range_witness :
  let K := sampleConfigH in
  let ds := [(700, 1000); (500, 2000); (-1200, 3000); (1200, 4000)] in
  0 < ENCODER_STEPS_INT K
  /\ SpindleEncoder.withinTurn K ds
  /\ 0 <= SpindleEncoder.positionGlobal (SpindleEncoder.new 0) <= ENCODER_STEPS_INT K
  /\ 0 <= SpindleEncoder.positionGlobal (SpindleEncoder.feed K ds (SpindleEncoder.new 0))
       <= ENCODER_STEPS_INT K
  /\ SpindleEncoder.positionGlobal (SpindleEncoder.feed K ds (SpindleEncoder.new 0))
     = 1200.
Proof.
  cbv zeta.
  assert (HE : 0 < ENCODER_STEPS_INT sampleConfigH) by reflexivity.
  assert (Hd : SpindleEncoder.withinTurn sampleConfigH
                 [(700, 1000); (500, 2000); (-1200, 3000); (1200, 4000)])
    by (repeat constructor; vm_compute; discriminate).
  assert (Hg : 0 <= SpindleEncoder.positionGlobal (SpindleEncoder.new 0)
               <= ENCODER_STEPS_INT sampleConfigH)
    by (vm_compute; split; discriminate).
  split; [exact HE|]. split; [exact Hd|]. split; [exact Hg|].
  split.
  - exact (proj1 (X12_global_position_range sampleConfigH _ _ HE Hd Hg)).
  - vm_compute. reflexivity.
Defined.

(** X13.  With [ENCODER_BACKLASH >= 0], while the spindle only turns
    forward from a state in which the compensated position is the raw
    one (as after construction or [resetPosition]), the two stay equal;
    and the raw position is the plain sum of the deltas, not reduced to
    one turn. *)
Theorem X13_forward_only :
  forall (K : ConfigH) (ds : list (Z * Z)) (e : SpindleEncoder.Encoder),
    0 <= ENCODER_BACKLASH K ->
    Forall (fun d => 0 <= fst d) ds ->
    SpindleEncoder.positionAvg e = SpindleEncoder.position e ->
    SpindleEncoder.position (SpindleEncoder.feed K ds e)
    = SpindleEncoder.position e + SpindleEncoder.sumDeltas ds
    /\ SpindleEncoder.positionAvg (SpindleEncoder.feed K ds e)
       = SpindleEncoder.position (SpindleEncoder.feed K ds e).
Proof.
  intros K ds. induction ds as [|[d t] ds IH]; intros e HB Hd He.
  - cbn. split; [lia | exact He].
  - inversion Hd as [|x xs Hx Hxs]; subst. cbn [fst] in Hx.
    cbn [SpindleEncoder.feed].
    assert (He' : SpindleEncoder.positionAvg (SpindleEncoder.processPulses K d t e)
                  = SpindleEncoder.position (SpindleEncoder.processPulses K d t e)).
    { rewrite processPulses_positionAvg, processPulses_position, He.
      zcases; lia. }
    destruct (IH _ HB Hxs He') as (Hp & Ha).
    split; [|exact Ha].
    rewrite Hp, processPulses_position.
    cbn [SpindleEncoder.sumDeltas fold_right fst].
    fold (SpindleEncoder.sumDeltas ds). lia.
Qed.

Lemma X13_forward_only_witness :
  let K := sampleConfigH in
  let ds := [(1000, 1000); (0, 2000); (2000, 3000)] in
  0 <= ENCODER_BACKLASH K
  /\ Forall (fun d => 0 <= fst d) ds
  /\ SpindleEncoder.positionAvg (SpindleEncoder.new 0)
     = SpindleEncoder.position (SpindleEncoder.new 0)
  /\ SpindleEncoder.position (SpindleEncoder.feed K ds (SpindleEncoder.new 0)) = 3000
  /\ SpindleEncoder.positionAvg (SpindleEncoder.feed K ds (SpindleEncoder.new 0)) = 3000.
Proof.
  cbv zeta.
  assert (Hd : Forall (fun d : Z * Z => 0 <= fst d)
                 [(1000, 1000); (0, 2000); (2000, 3000)])
    by (repeat constructor; discriminate).
  assert (He : SpindleEncoder.positionAvg (SpindleEncoder.new 0)
               = SpindleEncoder.position (SpindleEncoder.new 0)) by reflexivity.
  assert (HB : 0 <= ENCODER_BACKLASH sampleConfigH) by (vm_compute; discriminate).
  split; [exact HB|]. split; [exact Hd|]. split; [exact He|].
  destruct (X13_forward_only sampleConfigH _ _ HB Hd He) as (Hp & Ha).
  split; [rewrite Hp | rewrite Ha, Hp]; reflexivity.
Defined.

Lemma processPulses_rpm : forall K d t e,
  SpindleEncoder.currentRpm (SpindleEncoder.processPulses K d t e)
  = (if (SpindleEncoder.bulkPulseCount e >=? ENCODER_STEPS_INT K)
        && (usub t (SpindleEncoder.bulkStartTimeUs e) >? 0)
     then Z.quot 60000000 (usub t (SpindleEncoder.bulkStartTimeUs e))
     else SpindleEncoder.currentRpm e)
  /\ SpindleEncoder.bulkPulseCount (SpindleEncoder.processPulses K d t e)
     = (if SpindleEncoder.bulkPulseCount e >=? ENCODER_STEPS_INT K
        then Z.abs d else SpindleEncoder.bulkPulseCount e + Z.abs d).
Proof.
  intros K d t e. unfold SpindleEncoder.processPulses.
  destruct (SpindleEncoder.bulkPulseCount e >=? ENCODER_STEPS_INT K) eqn:E1; cbn;
    [destruct (usub t (SpindleEncoder.bulkStartTimeUs e) >? 0) eqn:E2; cbn|];
    split_ifs; split; reflexivity.
Qed.

Lemma processPulses_window : forall K d t e,
  ENCODER_STEPS_INT K <= SpindleEncoder.bulkPulseCount e ->
  SpindleEncoder.bulkStartTimeUs (SpindleEncoder.processPulses K d t e) = t.
Proof.
  intros K d t e H. unfold SpindleEncoder.processPulses.
  destruct (Z.geb_spec (SpindleEncoder.bulkPulseCount e) (ENCODER_STEPS_INT K));
    [|lia].
  cbn. split_ifs; reflexivity.
Qed.

(** X14.  The speed estimate.  A delta that arrives before a full turn
    of pulses has been counted leaves the estimate as it is.  A delta
    that arrives after a full turn has been counted replaces it by
    [60000000 / elapsed], the time in microseconds since the window was
    opened (the difference taken on 32 bits), unless no time has
    elapsed; it opens a new window at the current time, in which it is
    the first delta counted.  The estimate is never negative, whichever
    way the spindle turns: from construction, after any sequence of
    deltas, [0 <= rpm <= 60000000] and the pulse count of the window is
    not negative. *)
Theorem X14_rpm_estimate :
  forall (K : ConfigH) (ds : list (Z * Z)) (t0 : Z),
    (forall (d t : Z) (e : SpindleEncoder.Encoder),
        SpindleEncoder.bulkPulseCount e < ENCODER_STEPS_INT K ->
        SpindleEncoder.currentRpm (SpindleEncoder.processPulses K d t e)
        = SpindleEncoder.currentRpm e)
    /\ (forall (d t : Z) (e : SpindleEncoder.Encoder),
          ENCODER_STEPS_INT K <= SpindleEncoder.bulkPulseCount e ->
          let elapsed := usub t (SpindleEncoder.bulkStartTimeUs e) in
          let e' := SpindleEncoder.processPulses K d t e in
          (0 < elapsed -> SpindleEncoder.currentRpm e' = 60000000 / elapsed)
          /\ (elapsed = 0 ->
              SpindleEncoder.currentRpm e' = SpindleEncoder.currentRpm e)
          /\ SpindleEncoder.bulkStartTimeUs e' = t
          /\ SpindleEncoder.bulkPulseCount e' = Z.abs d)
    /\ 0 <= SpindleEncoder.currentRpm (SpindleEncoder.feed K ds (SpindleEncoder.new t0))
         <= 60000000
    /\ 0 <= SpindleEncoder.bulkPulseCount
              (SpindleEncoder.feed K ds (SpindleEncoder.new t0)).
Proof.
  intros K ds t0. split; [|split].
  - intros d t e H. destruct (processPulses_rpm K d t e) as (Hr & _).
    rewrite Hr. destruct (Z.geb_spec (SpindleEncoder.bulkPulseCount e)
                            (ENCODER_STEPS_INT K)); [lia | reflexivity].
  - intros d t e H elapsed e'.
    destruct (processPulses_rpm K d t e) as (Hr & Hb).
    fold e' in Hr, Hb. fold elapsed in Hr.
    destruct (Z.geb_spec (SpindleEncoder.bulkPulseCount e) (ENCODER_STEPS_INT K))
      as [_|Hlt]; [|lia].
    cbn [andb] in Hr.
    split; [|split; [|split]].
    + intros Hpos. rewrite Hr.
      destruct (Z.gtb_spec elapsed 0) as [_|Hle]; [|lia].
      apply Z.quot_div_nonneg; lia.
    + intros H0. rewrite Hr, H0. reflexivity.
    + exact (processPulses_window K d t e H).
    + exact Hb.
  - assert (H : forall ds e,
               0 <= SpindleEncoder.currentRpm e <= 60000000
               /\ 0 <= SpindleEncoder.bulkPulseCount e ->
               0 <= SpindleEncoder.currentRpm (SpindleEncoder.feed K ds e) <= 60000000
               /\ 0 <= SpindleEncoder.bulkPulseCount (SpindleEncoder.feed K ds e)).
    { clear. induction ds as [|[d t] ds IH]; intros e He; [exact He|].
      cbn [SpindleEncoder.feed]. apply IH.
      destruct (processPulses_rpm K d t e) as (Hr & Hb). rewrite Hr, Hb.
      split.
      - destruct (_ && _) eqn:Ec; [|apply He].
        apply andb_true_iff in Ec. destruct Ec as [_ Ec].
        apply Z.gtb_lt in Ec.
        split.
        + apply Z.quot_pos; lia.
        + apply Z.quot_le_upper_bound; lia.
      - destruct (_ >=? _); lia. }
    apply H. cbn. lia.
Qed.

Lemma X14_rpm_estimate_witness :
  let K := sampleConfigH in
  let e := SpindleEncoder.feed K [(1200, 1000)] (SpindleEncoder.new 0) in
  let e' := SpindleEncoder.processPulses K (-1200) 51000 e in
  SpindleEncoder.bulkPulseCount (SpindleEncoder.new 0) < ENCODER_STEPS_INT K
  /\ ENCODER_STEPS_INT K <= SpindleEncoder.bulkPulseCount e
  /\ 0 < usub 51000 (SpindleEncoder.bulkStartTimeUs e)
  /\ SpindleEncoder.currentRpm e = 0
  /\ SpindleEncoder.currentRpm e' = 1176
  /\ (SpindleEncoder.bulkStartTimeUs e', SpindleEncoder.bulkPulseCount e')
     = (51000, 1200)
  /\ SpindleEncoder.currentRpm (SpindleEncoder.processPulses K (-5) 52000 e') = 60000.
Proof.
  cbv zeta.
  set (e := SpindleEncoder.feed sampleConfigH [(1200, 1000)] (SpindleEncoder.new 0)).
  set (e' := SpindleEncoder.processPulses sampleConfigH (-1200) 51000 e).
  assert (H0 : SpindleEncoder.bulkPulseCount (SpindleEncoder.new 0)
               < ENCODER_STEPS_INT sampleConfigH) by reflexivity.
  assert (H1 : ENCODER_STEPS_INT sampleConfigH <= SpindleEncoder.bulkPulseCount e)
    by (vm_compute; discriminate).
  assert (H2 : 0 < usub 51000 (SpindleEncoder.bulkStartTimeUs e))
    by (vm_compute; reflexivity).
  destruct (X14_rpm_estimate sampleConfigH [] 0) as (Hkeep & Hnew & _).
  destruct (Hnew (-1200) 51000 e H1) as (Hv & _ & Ht & Hc).
  split; [exact H0|]. split; [exact H1|]. split; [exact H2|].
  split.
  - unfold e. cbn [SpindleEncoder.feed].
    rewrite (Hkeep 1200 1000 _ H0). reflexivity.
  - split; [fold e' in Hv; rewrite (Hv H2); vm_compute; reflexivity|].
    split; [fold e' in Ht, Hc; rewrite Ht, Hc; reflexivity|].
    vm_compute. reflexivity.
Defined.

Lemma processPulses_frame : forall K d t e,
  SpindleEncoder.counterValue (SpindleEncoder.processPulses K d t e)
  = SpindleEncoder.counterValue e
  /\ SpindleEncoder.pcntClears (SpindleEncoder.processPulses K d t e)
     = SpindleEncoder.pcntClears e.
Proof.
  intros K d t e. unfold SpindleEncoder.processPulses.
  split_ifs; split; reflexivity.
Qed.

Lemma update_position : forall K c t e,
  SpindleEncoder.position (SpindleEncoder.update K c t e)
  = SpindleEncoder.position e + (c - SpindleEncoder.counterValue e)
  /\ SpindleEncoder.counterValue (SpindleEncoder.update K c t e)
     = (if c - SpindleEncoder.counterValue e =? 0 then SpindleEncoder.counterValue e
        else if (c >=? PCNT_CLEAR K) || (c <=? - PCNT_CLEAR K) then 0 else c)
  /\ SpindleEncoder.pcntClears (SpindleEncoder.update K c t e)
     = (if negb (c - SpindleEncoder.counterValue e =? 0)
           && ((c >=? PCNT_CLEAR K) || (c <=? - PCNT_CLEAR K))
        then S (SpindleEncoder.pcntClears e) else SpindleEncoder.pcntClears e).
Proof.
  intros K c t e. unfold SpindleEncoder.update. cbv zeta.
  destruct (Z.eqb_spec (c - SpindleEncoder.counterValue e) 0) as [E|E];
    cbv iota; cbn [negb andb].
  - repeat split; try reflexivity. lia.
  - rewrite processPulses_position.
    match goal with
    | |- context [SpindleEncoder.processPulses K ?d t ?x] =>
        destruct (processPulses_frame K d t x) as (Hc & Hn)
    end.
    rewrite Hc, Hn.
    destruct ((c >=? PCNT_CLEAR K) || (c <=? - PCNT_CLEAR K)); cbn;
      repeat split; reflexivity.
Qed.

Lemma lastCount_cons : forall c0 c t rs,
  SpindleEncoder.lastCount c0 ((c, t) :: rs) = SpindleEncoder.lastCount c rs.
Proof. reflexivity. Qed.

(** X15.  The raw position follows the hardware counter.  Over reads
    that stay inside the band in which the counter is not cleared, the
    position advances by the last counter value minus the value the
    encoder had stored, the stored value becomes the last one read,
    and the counter is never cleared; a read equal to the stored value
    changes nothing at all (the speed estimate and the time of the last
    pulse stay as they are).  A read at or beyond the clearing
    threshold still adds its pulses to the position, stores 0 and
    clears the counter once. *)
Theorem X15_counter_reads :
  forall (K : ConfigH) (rs : list (Z * Z)) (e : SpindleEncoder.Encoder),
    SpindleEncoder.belowClear K rs ->
    (SpindleEncoder.position (SpindleEncoder.readAll K rs e)
     = SpindleEncoder.position e
       + (SpindleEncoder.lastCount (SpindleEncoder.counterValue e) rs
          - SpindleEncoder.counterValue e)
     /\ SpindleEncoder.counterValue (SpindleEncoder.readAll K rs e)
        = SpindleEncoder.lastCount (SpindleEncoder.counterValue e) rs
     /\ SpindleEncoder.pcntClears (SpindleEncoder.readAll K rs e)
        = SpindleEncoder.pcntClears e)
    /\ (forall t, SpindleEncoder.update K (SpindleEncoder.counterValue e) t e = e)
    /\ (forall c t,
          PCNT_CLEAR K <= c \/ c <= - PCNT_CLEAR K ->
          c <> SpindleEncoder.counterValue e ->
          SpindleEncoder.position (SpindleEncoder.update K c t e)
          = SpindleEncoder.position e + (c - SpindleEncoder.counterValue e)
          /\ SpindleEncoder.counterValue (SpindleEncoder.update K c t e) = 0
          /\ SpindleEncoder.pcntClears (SpindleEncoder.update K c t e)
             = S (SpindleEncoder.pcntClears e)).
Proof.
  intros K rs e Hrs. split; [|split].
  - revert e Hrs. induction rs as [|[c t] rs IH]; intros e Hrs.
    + cbn. repeat split; try reflexivity. lia.
    + inversion Hrs as [|x xs Hx Hxs]; subst. cbn [fst] in Hx.
      cbn [SpindleEncoder.readAll]. rewrite lastCount_cons.
      destruct (update_position K c t e) as (Hp & Hc & Hn).
      assert (Hc' : SpindleEncoder.counterValue (SpindleEncoder.update K c t e) = c).
      { rewrite Hc. zcases; lia. }
      assert (Hn' : SpindleEncoder.pcntClears (SpindleEncoder.update K c t e)
                    = SpindleEncoder.pcntClears e).
      { rewrite Hn. zcases; cbn; try reflexivity; lia. }
      destruct (IH (SpindleEncoder.update K c t e) Hxs) as (I1 & I2 & I3).
      rewrite I1, I2, I3, Hp, Hc', Hn'. repeat split; try reflexivity. lia.
  - intros t. unfold SpindleEncoder.update. rewrite Z.sub_diag. reflexivity.
  - intros c t Hc Hne.
    destruct (update_position K c t e) as (Hp & Hv & Hn).
    rewrite Hp, Hv, Hn.
    destruct (Z.eqb_spec (c - SpindleEncoder.counterValue e) 0); [lia|].
    cbn [negb andb].
    assert (Ht : (c >=? PCNT_CLEAR K) || (c <=? - PCNT_CLEAR K) = true)
      by (zcases; try reflexivity; lia).
    rewrite Ht. repeat split; reflexivity.
Qed.

Lemma X15_counter_reads_witness :
  let K := sampleConfigH in
  let rs := [(100, 1000); (250, 2000); (250, 3000); (-40, 4000)] in
  let e := SpindleEncoder.readAll K rs (SpindleEncoder.new 0) in
  SpindleEncoder.belowClear K rs
  /\ SpindleEncoder.position e = -40
  /\ (PCNT_CLEAR K <= 30010 \/ 30010 <= - PCNT_CLEAR K)
  /\ 30010 <> SpindleEncoder.counterValue e
  /\ SpindleEncoder.position (SpindleEncoder.update K 30010 5000 e) = 30010
  /\ SpindleEncoder.counterValue (SpindleEncoder.update K 30010 5000 e) = 0.
Proof.
  cbv zeta.
  assert (Hrs : SpindleEncoder.belowClear sampleConfigH
                  [(100, 1000); (250, 2000); (250, 3000); (-40, 4000)])
    by (repeat constructor; vm_compute; reflexivity).
  split; [exact Hrs|].
  destruct (X15_counter_reads sampleConfigH _ (SpindleEncoder.new 0) Hrs)
    as ((Hp & Hc & _) & _ & _).
  split; [rewrite Hp; reflexivity|].
  assert (H1 : PCNT_CLEAR sampleConfigH <= 30010 \/ 30010 <= - PCNT_CLEAR sampleConfigH)
    by (left; vm_compute; discriminate).
  assert (H2 : 30010 <> SpindleEncoder.counterValue
                          (SpindleEncoder.readAll sampleConfigH
                             [(100, 1000); (250, 2000); (250, 3000); (-40, 4000)]
                             (SpindleEncoder.new 0)))
    by (rewrite Hc; vm_compute; discriminate).
  split; [exact H1|]. split; [exact H2|].
  destruct (X15_counter_reads sampleConfigH []
              (SpindleEncoder.readAll sampleConfigH
                 [(100, 1000); (250, 2000); (250, 3000); (-40, 4000)]
                 (SpindleEncoder.new 0)) (Forall_nil _)) as (_ & _ & H).
  destruct (H 30010 5000 H1 H2) as (Hp' & Hc' & _).
  split; [rewrite Hp'; vm_compute; reflexivity | exact Hc'].
Defined.

(** ** Further properties of the coordinator *)

Lemma calculateAxisPosition_value : forall K axis sp r m,
  pos axis <> 0 -> ENCODER_STEPS_INT K <> 0 ->
  calculateAxisPosition K axis sp r m
  = Done (let newPos := Z.quot sp (ENCODER_STEPS_INT K)
                        * currentPitch m * currentStarts m in
          if r then
            if newPos <? rightStop axis then rightStop axis
            else if newPos >? leftStop axis then leftStop axis else newPos
          else newPos).
Proof.
  intros K axis sp r m Hp HE.
  unfold calculateAxisPosition, cdiv, getPositionSteps, getRightStop, getLeftStop.
  destruct (Z.eqb_spec (pos axis) 0) as [E|_]; [contradiction|].
  cbn [bind].
  destruct (Z.eqb_spec (ENCODER_STEPS_INT K) 0) as [E|_]; [contradiction|].
  cbn [bind]. rewrite Z.quot_mul by exact Hp. reflexivity.
Qed.

Lemma calculateAxisPosition_traps : forall K axis sp r m,
  calculateAxisPosition K axis sp r m = DivideByZero
  <-> pos axis = 0 \/ ENCODER_STEPS_INT K = 0.
Proof.
  intros K axis sp r m. split.
  - intros H.
    destruct (Z.eq_dec (pos axis) 0) as [|Hp]; [left; assumption|].
    destruct (Z.eq_dec (ENCODER_STEPS_INT K) 0) as [|HE]; [right; assumption|].
    rewrite (calculateAxisPosition_value K axis sp r m Hp HE) in H. discriminate H.
  - intros [Hp | HE].
    + apply calculateAxisPosition_at_origin. exact Hp.
    + unfold calculateAxisPosition, cdiv.
      destruct (getPositionSteps axis =? 0); [reflexivity|].
      cbn [bind]. rewrite HE. reflexivity.
Qed.

(** X16.  The tick divides by zero in one situation only: the system
    is on with a pitch other than zero and no sync offset, the mode is
    Normal, Z is idle, and the position of Z is 0 (or
    [ENCODER_STEPS_INT] is 0).  In every other state, whatever the
    inputs, the tick returns. *)
Theorem X16_tick_trap_exactly :
  forall (K : ConfigH) (i : TickInput) (m : Motion),
    MotionController.update K i m = DivideByZero
    <-> (systemEnabled m = true
         /\ currentPitch m <> 0
         /\ SpindleEncoder.syncOffset (spindle m) = 0
         /\ currentMode m = MODE_NORMAL K
         /\ isMoving (usModeZ i) (zAxis m) = false
         /\ (pos (zAxis m) = 0 \/ ENCODER_STEPS_INT K = 0)).
Proof.
  intros K i m. unfold MotionController.update. cbn.
  rewrite encoder_update_syncOffset. unfold SpindleEncoder.getSyncOffset.
  destruct (systemEnabled m) eqn:He; cbn;
    [|split; [discriminate | intros (H & _); discriminate H]].
  destruct (Z.eqb_spec (currentPitch m) 0) as [Ep|Ep]; cbn;
    [split; [discriminate | intros (_ & H & _); contradiction]|].
  destruct (Z.eqb_spec (SpindleEncoder.syncOffset (spindle m)) 0) as [Es|Es]; cbn;
    [|split; [discriminate | intros (_ & _ & H & _); contradiction]].
  unfold dispatchMode. cbn.
  destruct (Z.eqb_spec (currentMode m) (MODE_NORMAL K)) as [Em|Em].
  - unfold updateNormalMode. cbn.
    destruct (isMoving (usModeZ i) (zAxis m)) eqn:Ei; cbn.
    + split; [discriminate | intros (_ & _ & _ & _ & H & _); discriminate H].
    + match goal with
      | |- context [calculateAxisPosition K ?a ?sp ?r ?s] =>
          pose proof (calculateAxisPosition_traps K a sp r s) as Ht;
          destruct (calculateAxisPosition K a sp r s) as [tp|] eqn:Ec
      end.
      * cbn. split.
        -- destruct (negb (tp =? getPositionSteps (zAxis m))); discriminate.
        -- intros (_ & _ & _ & _ & _ & H). apply Ht in H. discriminate H.
      * cbn. split; [|reflexivity]. intros _.
        repeat split; try assumption. apply Ht. reflexivity.
  - split.
    + destruct (currentMode m =? MODE_CONE K); [discriminate|].
      destruct (currentMode m =? MODE_TURN K); discriminate.
    + intros (_ & _ & _ & H & _). contradiction.
Qed.

(** X17.  Where the division is defined and no product of the
    expression leaves the range of [long] (the products
    [spindlePos * pos], then by the pitch, then by the starts), the
    target that the code computes from the spindle is
    [(spindlePos / ENCODER_STEPS_INT) * pitch * starts] with the
    division truncated first: it is the same for every such position
    of the axis, it changes only at whole turns of the spindle, and
    within the first turn either way it is 0. *)
Theorem X17_target_whole_turns :
  forall (K : ConfigH) (axis : Axis) (sp : Z) (m : Motion),
    pos axis <> 0 ->
    0 < ENCODER_STEPS_INT K ->
    fitsLong (sp * pos axis) ->
    fitsLong (Z.quot sp (ENCODER_STEPS_INT K) * currentPitch m) ->
    fitsLong (Z.quot sp (ENCODER_STEPS_INT K) * currentPitch m * currentStarts m) ->
    calculateAxisPosition K axis sp false m
    = Done (Z.quot sp (ENCODER_STEPS_INT K) * currentPitch m * currentStarts m)
    /\ (forall axis' : Axis,
          pos axis' <> 0 ->
          fitsLong (sp * pos axis') ->
          calculateAxisPosition K axis' sp false m
          = calculateAxisPosition K axis sp false m)
    /\ (Z.abs sp < ENCODER_STEPS_INT K ->
        calculateAxisPosition K axis sp false m = Done 0).
Proof.
  intros K axis sp m Hp HE _ _ _.
  rewrite (calculateAxisPosition_value K axis sp false m Hp) by lia.
  cbv zeta. split; [reflexivity|]. split.
  - intros axis' Hp' _.
    rewrite (calculateAxisPosition_value K axis' sp false m Hp') by lia.
    reflexivity.
  - intros Hs.
    assert (Hq : Z.quot sp (ENCODER_STEPS_INT K) = 0).
    { destruct (Z.le_gt_cases 0 sp) as [Hge|Hlt].
      - apply Z.quot_small. lia.
      - rewrite <- (Z.opp_involutive sp), Z.quot_opp_l by lia.
        rewrite Z.quot_small by lia. reflexivity. }
    rewrite Hq. reflexivity.
Qed.

Lemma X17_target_whole_turns_witness :
  let K := sampleConfigH in
  let z5 := AxisController.run (MoveTo 5 false :: ticks 5 2000)
              (AxisController.new sampleConfig) in
  let z9 := AxisController.run (MoveTo 9 false :: ticks 9 2000)
              (AxisController.new sampleConfig) in
  let m := with_currentPitch 5000 (machine sampleConfig) in
  (pos z5, pos z9) = (5, 9)
  /\ 0 < ENCODER_STEPS_INT K
  /\ (fitsLong (1199 * pos z5) /\ fitsLong (2399 * pos z5)
      /\ fitsLong (2399 * pos z9))
  /\ (fitsLong (Z.quot 2399 (ENCODER_STEPS_INT K) * currentPitch m)
      /\ fitsLong (Z.quot 2399 (ENCODER_STEPS_INT K) * currentPitch m
                   * currentStarts m))
  /\ Z.abs 1199 < ENCODER_STEPS_INT K
  /\ calculateAxisPosition K z5 1199 false m = Done 0
  /\ calculateAxisPosition K z5 2399 false m = Done 5000
  /\ calculateAxisPosition K z9 2399 false m = Done 5000.
Proof.
  cbv zeta.
  set (z5 := AxisController.run (MoveTo 5 false :: ticks 5 2000)
               (AxisController.new sampleConfig)).
  set (z9 := AxisController.run (MoveTo 9 false :: ticks 9 2000)
               (AxisController.new sampleConfig)).
  set (m := with_currentPitch 5000 (machine sampleConfig)).
  assert (P5 : pos z5 = 5) by (vm_compute; reflexivity).
  assert (P9 : pos z9 = 9) by (vm_compute; reflexivity).
  assert (Hp : pos z5 <> 0) by (rewrite P5; discriminate).
  assert (Hp' : pos z9 <> 0) by (rewrite P9; discriminate).
  assert (HE : 0 < ENCODER_STEPS_INT sampleConfigH) by reflexivity.
  assert (Hs : Z.abs 1199 < ENCODER_STEPS_INT sampleConfigH) by reflexivity.
  assert (F1 : fitsLong (1199 * pos z5))
    by (rewrite P5; vm_compute; split; discriminate).
  assert (F2 : fitsLong (2399 * pos z5))
    by (rewrite P5; vm_compute; split; discriminate).
  assert (F3 : fitsLong (2399 * pos z9))
    by (rewrite P9; vm_compute; split; discriminate).
  assert (G1 : fitsLong (Z.quot 1199 (ENCODER_STEPS_INT sampleConfigH)
                         * currentPitch m))
    by (vm_compute; split; discriminate).
  assert (G2 : fitsLong (Z.quot 1199 (ENCODER_STEPS_INT sampleConfigH)
                         * currentPitch m * currentStarts m))
    by (vm_compute; split; discriminate).
  assert (G3 : fitsLong (Z.quot 2399 (ENCODER_STEPS_INT sampleConfigH)
                         * currentPitch m))
    by (vm_compute; split; discriminate).
  assert (G4 : fitsLong (Z.quot 2399 (ENCODER_STEPS_INT sampleConfigH)
                         * currentPitch m * currentStarts m))
    by (vm_compute; split; discriminate).
  split; [rewrite P5, P9; reflexivity|]. split; [exact HE|].
  split; [split; [exact F1 | split; [exact F2 | exact F3]]|].
  split; [split; [exact G3 | exact G4]|].
  split; [exact Hs|].
  destruct (X17_target_whole_turns sampleConfigH z5 1199 m Hp HE F1 G1 G2)
    as (_ & _ & H0).
  destruct (X17_target_whole_turns sampleConfigH z5 2399 m Hp HE F2 G3 G4)
    as (Hv & Hany & _).
  split; [exact (H0 Hs)|].
  split; [rewrite Hv; vm_compute; reflexivity|].
  rewrite (Hany z9 Hp' F3), Hv. vm_compute. reflexivity.
Defined.

Lemma updateAxes_params : forall i m,
  currentPitch (updateAxes i m) = currentPitch m /\
  currentStarts (updateAxes i m) = currentStarts m /\
  currentMode (updateAxes i m) = currentMode m /\
  spindle (updateAxes i m) = spindle m.
Proof.
  intros i m. unfold updateAxes. cbn.
  destruct (isActive (a1Axis m)); cbn; repeat split; reflexivity.
Qed.

Lemma setEnabled_params : forall b m,
  currentPitch (MotionController.setEnabled b m) = currentPitch m /\
  currentStarts (MotionController.setEnabled b m) = currentStarts m /\
  currentMode (MotionController.setEnabled b m) = currentMode m.
Proof.
  intros b m. unfold MotionController.setEnabled, setNewOrigin.
  destruct (systemEnabled m && b); [repeat split; reflexivity|].
  destruct b; cbn; [|repeat split; reflexivity].
  split_ifs; repeat split; reflexivity.
Qed.

Lemma dispatchMode_params : forall K i m m',
  dispatchMode K i m = Done m' ->
  currentPitch m' = currentPitch m /\
  currentStarts m' = currentStarts m /\
  currentMode m' = currentMode m.
Proof.
  intros K i m m'. unfold dispatchMode.
  destruct (currentMode m =? MODE_NORMAL K).
  - unfold updateNormalMode.
    destruct (isMoving (usModeZ i) (zAxis m)).
    + intros H. injection H as <-. repeat split; reflexivity.
    + destruct (calculateAxisPosition K _ _ _ _) as [tp|]; cbn; [|discriminate].
      destruct (negb (tp =? _)); intros H; injection H as <-;
        repeat split; reflexivity.
  - destruct (currentMode m =? MODE_CONE K).
    + intros H. injection H as <-. unfold updateConeMode.
      destruct (_ || _); repeat split; reflexivity.
    + destruct (currentMode m =? MODE_TURN K).
      * intros H. injection H as <-. unfold updateTurnMode, setIsOnFromLoop.
        destruct (_ || _); [apply setEnabled_params | repeat split; reflexivity].
      * intros H. injection H as <-. repeat split; reflexivity.
Qed.

Lemma update_params : forall K i m m',
  MotionController.update K i m = Done m' ->
  currentPitch m' = currentPitch m /\
  currentStarts m' = currentStarts m /\
  currentMode m' = currentMode m.
Proof.
  intros K i m m'. unfold MotionController.update.
  set (m1 := with_spindle _ m).
  assert (H1 : currentPitch m1 = currentPitch m /\ currentStarts m1 = currentStarts m
               /\ currentMode m1 = currentMode m) by (repeat split; reflexivity).
  destruct (negb (systemEnabled m1) || (currentPitch m1 =? 0)
            || negb (SpindleEncoder.getSyncOffset (spindle m1) =? 0)).
  - cbn. intros H. injection H as <-.
    destruct (updateAxes_params i m1) as (Hp & Hs & Hm & _). rewrite Hp, Hs, Hm. exact H1.
  - destruct (dispatchMode K i m1) as [m2|] eqn:Ed; cbn; [|discriminate].
    intros H. injection H as <-.
    destruct (dispatchMode_params K i m1 m2 Ed) as (Dp & Ds & Dm).
    destruct (updateAxes_params i m2) as (Hp & Hs & Hm & _).
    rewrite Hp, Hs, Hm, Dp, Ds, Dm. exact H1.
Qed.

Lemma setOperationMode_params : forall mode m,
  currentPitch (setOperationMode mode m) = currentPitch m /\
  currentStarts (setOperationMode mode m) = currentStarts m.
Proof.
  intros mode m. unfold setOperationMode.
  destruct (currentMode m =? mode); [split; reflexivity|].
  destruct (systemEnabled m); cbn; [|split; reflexivity].
  destruct (setEnabled_params false m) as (Hp & Hs & _). split; assumption.
Qed.

(** X18.  The pitch and the number of starts are validated for good:
    from a state with [|pitch| <= DUPR_MAX] and
    [1 <= starts <= STARTS_MAX] (as after construction, when
    [DUPR_MAX >= 0] and [STARTS_MAX >= 1]), every sequence of
    coordinator commands and ticks that returns keeps both in range;
    [setPitch] and [setStarts] with a value out of range change
    nothing. *)
Theorem X18_parameters_stay_valid :
  forall (K : ConfigH) (cs : list MotionController.Command) (m m' : Motion),
    - DUPR_MAX K <= currentPitch m <= DUPR_MAX K ->
    1 <= currentStarts m <= STARTS_MAX K ->
    MotionController.run K cs m = Done m' ->
    (- DUPR_MAX K <= currentPitch m' <= DUPR_MAX K
     /\ 1 <= currentStarts m' <= STARTS_MAX K)
    /\ (forall p, ~ (- DUPR_MAX K <= p <= DUPR_MAX K) -> setPitch K p m = m)
    /\ (forall n, ~ (1 <= n <= STARTS_MAX K) -> setStarts K n m = m).
Proof.
  intros K cs m m' Hp Hs Hrun. split; [|split].
  - revert m Hp Hs Hrun. induction cs as [|c cs IH]; intros m Hp Hs Hrun.
    + cbn in Hrun. injection Hrun as <-. split; assumption.
    + cbn [MotionController.run] in Hrun.
      destruct (MotionController.step K c m) as [m1|] eqn:E1; cbn in Hrun;
        [|discriminate].
      apply (IH m1); [| |exact Hrun].
      * destruct c; cbn in E1; injection E1 as <- || idtac.
        -- destruct (setEnabled_params enable m) as (H & _). rewrite H. exact Hp.
        -- destruct (setOperationMode_params mode m) as (H & _). rewrite H. exact Hp.
        -- unfold setPitch.
           destruct (Z.ltb_spec pitch (- DUPR_MAX K)); cbn [orb]; [exact Hp|].
           destruct (Z.gtb_spec pitch (DUPR_MAX K)); cbn [orb]; [exact Hp|].
           destruct (setNewOrigin_frame (with_currentPitch pitch m)) as (_ & _ & Hf & _).
           rewrite Hf. cbn [with_currentPitch with_currentStarts currentPitch currentStarts]. lia.
        -- unfold setStarts.
           destruct ((starts <? 1) || (starts >? STARTS_MAX K)); [exact Hp|].
           destruct (setNewOrigin_frame (with_currentStarts starts m)) as (_ & _ & H & _).
           rewrite H. exact Hp.
        -- destruct (update_params K i m m1 E1) as (H & _). rewrite H. exact Hp.
      * destruct c; cbn in E1; injection E1 as <- || idtac.
        -- destruct (setEnabled_params enable m) as (_ & H & _). rewrite H. exact Hs.
        -- destruct (setOperationMode_params mode m) as (_ & H). rewrite H. exact Hs.
        -- unfold setPitch.
           destruct ((pitch <? - DUPR_MAX K) || (pitch >? DUPR_MAX K)); [exact Hs|].
           destruct (setNewOrigin_frame (with_currentPitch pitch m)) as (_ & _ & _ & H).
           rewrite H. exact Hs.
        -- unfold setStarts.
           destruct (Z.ltb_spec starts 1); cbn [orb]; [exact Hs|].
           destruct (Z.gtb_spec starts (STARTS_MAX K)); cbn [orb]; [exact Hs|].
           destruct (setNewOrigin_frame (with_currentStarts starts m)) as (_ & _ & _ & Hf).
           rewrite Hf. cbn [with_currentPitch with_currentStarts currentPitch currentStarts]. lia.
        -- destruct (update_params K i m m1 E1) as (_ & H & _). rewrite H. exact Hs.
  - intros p Hn. unfold setPitch.
    destruct (Z.ltb_spec p (- DUPR_MAX K)); cbn [orb]; [reflexivity|].
    destruct (Z.gtb_spec p (DUPR_MAX K)); cbn [orb]; [reflexivity|]. lia.
  - intros n Hn. unfold setStarts.
    destruct (Z.ltb_spec n 1); cbn [orb]; [reflexivity|].
    destruct (Z.gtb_spec n (STARTS_MAX K)); cbn [orb]; [reflexivity|]. lia.
Qed.

Lemma X18_parameters_stay_valid_witness :
  let K := sampleConfigH in
  let m := machine sampleConfig in
  let cs := [SetPitch 300000; SetPitch 500; SetStarts 0; SetStarts 2;
             MotionController.Update (tickAt100ms 0); SetStarts 125] in
  (- DUPR_MAX K <= currentPitch m <= DUPR_MAX K)
  /\ (1 <= currentStarts m <= STARTS_MAX K)
  /\ exists m',
       MotionController.run K cs m = Done m'
       /\ (- DUPR_MAX K <= currentPitch m' <= DUPR_MAX K)
       /\ (1 <= currentStarts m' <= STARTS_MAX K)
       /\ (currentPitch m', currentStarts m') = (500, 2).
Proof.
  cbv zeta.
  assert (Hp : - DUPR_MAX sampleConfigH <= currentPitch (machine sampleConfig)
               <= DUPR_MAX sampleConfigH) by (vm_compute; split; discriminate).
  assert (Hs : 1 <= currentStarts (machine sampleConfig) <= STARTS_MAX sampleConfigH)
    by (vm_compute; split; discriminate).
  split; [exact Hp|]. split; [exact Hs|].
  eexists. split; [vm_compute; reflexivity|].
  match goal with
  | |- (_ <= currentPitch ?m' <= _) /\ _ =>
      assert (Hrun : MotionController.run sampleConfigH
                       [SetPitch 300000; SetPitch 500; SetStarts 0; SetStarts 2;
                        MotionController.Update (tickAt100ms 0); SetStarts 125]
                       (machine sampleConfig) = Done m')
        by (vm_compute; reflexivity);
      destruct (X18_parameters_stay_valid sampleConfigH _ _ m' Hp Hs Hrun)
        as ((H1 & H2) & _)
  end.
  split; [exact H1|]. split; [exact H2|]. vm_compute. reflexivity.
Defined.

Lemma update_turn : forall K i m,
  systemEnabled m = true ->
  currentPitch m <> 0 ->
  SpindleEncoder.syncOffset (spindle m) = 0 ->
  currentMode m = MODE_TURN K ->
  MODE_TURN K <> MODE_NORMAL K ->
  MODE_TURN K <> MODE_CONE K ->
  MotionController.update K i m
  = Done (updateAxes i
            (updateTurnMode i
               (with_spindle
                  (SpindleEncoder.update K (pcntCount i) (usEncoder i) (spindle m)) m))).
Proof.
  intros K i m He Hp Hs Hm H1 H2. unfold MotionController.update. cbn.
  rewrite He, encoder_update_syncOffset. unfold SpindleEncoder.getSyncOffset.
  rewrite Hs.
  destruct (Z.eqb_spec (currentPitch m) 0) as [E|_]; [contradiction|]. cbn.
  unfold dispatchMode. cbn. rewrite Hm.
  destruct (Z.eqb_spec (MODE_TURN K) (MODE_NORMAL K)) as [E|_]; [contradiction|].
  destruct (Z.eqb_spec (MODE_TURN K) (MODE_CONE K)) as [E|_]; [contradiction|].
  rewrite Z.eqb_refl. reflexivity.
Qed.

Lemma update_turn_outcome :
  forall (K : ConfigH) (i : TickInput) (m : Motion),
    systemEnabled m = true ->
    currentPitch m <> 0 ->
    SpindleEncoder.syncOffset (spindle m) = 0 ->
    currentMode m = MODE_TURN K ->
    MODE_TURN K <> MODE_NORMAL K ->
    MODE_TURN K <> MODE_CONE K ->
    exists m',
      MotionController.update K i m = Done m'
      /\ zAxis m' = AxisController.update (usZ i) (zAxis m)
      /\ xAxis m' = AxisController.update (usX i) (xAxis m)
      /\ (systemEnabled m' = true
          <-> isMoving (usModeZ i) (zAxis m) = false
              /\ isMoving (usModeX i) (xAxis m) = false
              /\ 0 < turnPasses m
              /\ leftStop (zAxis m) <> LONG_MAX
              /\ rightStop (zAxis m) <> LONG_MIN
              /\ leftStop (xAxis m) <> LONG_MAX
              /\ rightStop (xAxis m) <> LONG_MIN
              /\ 0 <= currentPitch m * operationPitchSign m
              /\ 1 <= currentStarts m).
Proof.
  intros K i m He Hp Hs Hm H1 H2.
  eexists. split; [apply update_turn; assumption|].
  set (m1 := with_spindle _ m).
  destruct (updateAxes_axes i (updateTurnMode i m1)) as (Uz & Ux & _ & Ue).
  rewrite Uz, Ux, Ue.
  unfold updateTurnMode, setIsOnFromLoop, getLeftStop, getRightStop.
  cbn [m1 with_spindle zAxis xAxis turnPasses currentPitch operationPitchSign
       currentStarts].
  match goal with
  | |- context [if ?c then _ else _] => destruct c eqn:Ec
  end.
  - destruct (setEnabled_off m1) as (Hz & Hx & _ & _ & Hoff & _).
    rewrite Hz, Hx, Hoff. cbn [m1 with_spindle zAxis xAxis].
    split; [reflexivity|]. split; [reflexivity|].
    split; [discriminate|].
    intros (C1 & C2 & C3 & C4 & C5 & C6 & C7 & C8 & C9).
    rewrite C1, C2 in Ec. cbn [orb] in Ec.
    revert Ec. zcases; intros Ec; try discriminate Ec; lia.
  - cbn [m1 with_spindle zAxis xAxis systemEnabled].
    split; [reflexivity|]. split; [reflexivity|].
    split; [|intros _; exact He]. intros _.
    destruct (isMoving (usModeZ i) (zAxis m)); [discriminate Ec|].
    destruct (isMoving (usModeX i) (xAxis m)); [discriminate Ec|].
    cbn [orb] in Ec. revert Ec.
    zcases; intros Ec; try discriminate Ec; repeat split; lia.
Qed.

(** X19.  A tick in Turn mode (system on, pitch other than zero, no
    sync offset) issues no target to any axis, and leaves the system on
    exactly when both axes are idle, at least one pass is set, all four
    stops of Z and X are set, the pitch has the sign it had when the
    system was switched on, and the starts are at least 1; otherwise it
    switches the system off. *)
Theorem X19_turn_mode_preconditions :
  forall (K : ConfigH) (i : TickInput) (m : Motion),
    systemEnabled m = true ->
    currentPitch m <> 0 ->
    SpindleEncoder.syncOffset (spindle m) = 0 ->
    currentMode m = MODE_TURN K ->
    MODE_TURN K <> MODE_NORMAL K ->
    MODE_TURN K <> MODE_CONE K ->
    exists m',
      MotionController.update K i m = Done m'
      /\ zAxis m' = AxisController.update (usZ i) (zAxis m)
      /\ xAxis m' = AxisController.update (usX i) (xAxis m)
      /\ (systemEnabled m' = true
          <-> isMoving (usModeZ i) (zAxis m) = false
              /\ isMoving (usModeX i) (xAxis m) = false
              /\ 0 < turnPasses m
              /\ leftStop (zAxis m) <> LONG_MAX
              /\ rightStop (zAxis m) <> LONG_MIN
              /\ leftStop (xAxis m) <> LONG_MAX
              /\ rightStop (xAxis m) <> LONG_MIN
              /\ 0 <= currentPitch m * operationPitchSign m
              /\ 1 <= currentStarts m).
Proof. exact update_turn_outcome. Qed.

Lemma X19_turn_mode_preconditions_witness :
  let K := sampleConfigH in
  let on := fun m => MotionController.setEnabled true
                       (setPitch K 500 (setOperationMode (MODE_TURN K) m)) in
  let m := on (machine sampleConfig) in
  let stops := fun a => setRightStop (-100) (setLeftStop 100 a) in
  let m2 := on (with_xAxis (stops (xAxis m)) (with_zAxis (stops (zAxis m)) m)) in
  systemEnabled m = true
  /\ currentPitch m <> 0
  /\ SpindleEncoder.syncOffset (spindle m) = 0
  /\ currentMode m = MODE_TURN K
  /\ MODE_TURN K <> MODE_NORMAL K
  /\ MODE_TURN K <> MODE_CONE K
  /\ (exists m', MotionController.update K (tickAt100ms 0) m = Done m'
                 /\ systemEnabled m' = false)
  /\ (exists m', MotionController.update K (tickAt100ms 0) m2 = Done m'
                 /\ systemEnabled m' = true).
Proof.
  cbv zeta.
  set (m := MotionController.setEnabled true
              (setPitch sampleConfigH 500
                 (setOperationMode (MODE_TURN sampleConfigH) (machine sampleConfig)))).
  assert (He : systemEnabled m = true) by (vm_compute; reflexivity).
  assert (Hp : currentPitch m <> 0) by (vm_compute; discriminate).
  assert (Hs : SpindleEncoder.syncOffset (spindle m) = 0) by (vm_compute; reflexivity).
  assert (Hm : currentMode m = MODE_TURN sampleConfigH) by (vm_compute; reflexivity).
  assert (H1 : MODE_TURN sampleConfigH <> MODE_NORMAL sampleConfigH)
    by (vm_compute; discriminate).
  assert (H2 : MODE_TURN sampleConfigH <> MODE_CONE sampleConfigH)
    by (vm_compute; discriminate).
  split; [exact He|]. split; [exact Hp|]. split; [exact Hs|]. split; [exact Hm|].
  split; [exact H1|]. split; [exact H2|].
  split.
  - destruct (X19_turn_mode_preconditions sampleConfigH (tickAt100ms 0) m
                He Hp Hs Hm H1 H2) as (m' & Hu & _ & _ & Hon).
    exists m'. split; [exact Hu|].
    destruct (systemEnabled m') eqn:E; [|reflexivity].
    destruct (proj1 Hon eq_refl) as (_ & _ & _ & Hl & _).
    exfalso. apply Hl. vm_compute. reflexivity.
  - eexists. split; vm_compute; reflexivity.
Defined.

Lemma setNewOrigin_scratch : forall m,
  operationPitchSign (setNewOrigin m) = operationPitchSign m /\
  turnPasses (setNewOrigin m) = turnPasses m.
Proof.
  intros m. unfold setNewOrigin. cbn.
  destruct (isActive (a1Axis m)); cbn; split; reflexivity.
Qed.

Lemma update_zero_pitch : forall K i m,
  currentPitch m = 0 ->
  exists m',
    MotionController.update K i m = Done m'
    /\ systemEnabled m' = systemEnabled m.
Proof.
  intros K i m H. unfold MotionController.update. cbn. rewrite H.
  rewrite Z.eqb_refl, orb_true_r. cbn [orb bind].
  eexists. split; [reflexivity|].
  match goal with
  | |- context [updateAxes i ?s] =>
      destruct (updateAxes_axes i s) as (_ & _ & _ & Ue)
  end.
  rewrite Ue. reflexivity.
Qed.

(** X20.  Reversing the pitch while a Turn operation is on.  In Turn
    mode with the system on, [setPitch] with the negated pitch is
    accepted.  When the pitch is other than zero and has the sign that
    was recorded at switch-on ([pitch * operationPitchSign > 0]), the
    next tick switches the system off.  When the pitch is zero the
    reversal changes no sign, the next tick skips the mode and the
    system stays on. *)
Theorem X20_turn_pitch_reversal :
  forall (K : ConfigH) (i : TickInput) (m : Motion),
    systemEnabled m = true ->
    currentMode m = MODE_TURN K ->
    MODE_TURN K <> MODE_NORMAL K ->
    MODE_TURN K <> MODE_CONE K ->
    - DUPR_MAX K <= currentPitch m <= DUPR_MAX K ->
    currentPitch (setPitch K (- currentPitch m) m) = - currentPitch m
    /\ (0 < currentPitch m * operationPitchSign m ->
        exists m',
          MotionController.update K i (setPitch K (- currentPitch m) m) = Done m'
          /\ systemEnabled m' = false)
    /\ (currentPitch m = 0 ->
        exists m',
          MotionController.update K i (setPitch K (- currentPitch m) m) = Done m'
          /\ systemEnabled m' = true).
Proof.
  intros K i m He Hm H1 H2 Hr.
  assert (Hr' : - DUPR_MAX K <= - currentPitch m <= DUPR_MAX K) by lia.
  rewrite (setPitch_in_range K _ m Hr').
  set (m0 := with_currentPitch (- currentPitch m) m).
  destruct (setNewOrigin_frame m0) as (Fm & Fe & Fp & _).
  destruct (setNewOrigin_scratch m0) as (Fs & _).
  destruct (setNewOrigin_axes m0) as (_ & _ & _ & Fsp).
  cbn [m0 with_currentPitch currentMode systemEnabled currentPitch
       operationPitchSign spindle] in Fm, Fe, Fp, Fs, Fsp.
  split; [exact Fp|]. split.
  - intros Hs.
    assert (Hp0 : currentPitch (setNewOrigin m0) <> 0) by (rewrite Fp; nia).
    assert (Hsy : SpindleEncoder.syncOffset (spindle (setNewOrigin m0)) = 0)
      by (rewrite Fsp; reflexivity).
    destruct (update_turn_outcome K i (setNewOrigin m0))
      as (m' & Hu & _ & _ & Hon); try assumption; try congruence.
    exists m'. split; [exact Hu|].
    destruct (systemEnabled m') eqn:E; [|reflexivity].
    destruct (proj1 Hon eq_refl) as (_ & _ & _ & _ & _ & _ & _ & Hsg & _).
    rewrite Fp, Fs in Hsg. nia.
  - intros H0.
    destruct (update_zero_pitch K i (setNewOrigin m0)) as (m' & Hu & Hon).
    { rewrite Fp, H0. reflexivity. }
    exists m'. split; [exact Hu|]. rewrite Hon, Fe. exact He.
Qed.

Lemma X20_turn_pitch_reversal_witness :
  let K := sampleConfigH in
  let stops := fun a => setRightStop (-100) (setLeftStop 100 a) in
  let m0 := machine sampleConfig in
  let turn := setOperationMode (MODE_TURN K)
                (with_xAxis (stops (xAxis m0)) (with_zAxis (stops (zAxis m0)) m0)) in
  let m := MotionController.setEnabled true (setPitch K 500 turn) in
  let z := MotionController.setEnabled true turn in
  (systemEnabled m = true /\ systemEnabled z = true)
  /\ (currentMode m = MODE_TURN K /\ currentMode z = MODE_TURN K)
  /\ MODE_TURN K <> MODE_NORMAL K
  /\ MODE_TURN K <> MODE_CONE K
  /\ (- DUPR_MAX K <= currentPitch m <= DUPR_MAX K)
  /\ (- DUPR_MAX K <= currentPitch z <= DUPR_MAX K)
  /\ 0 < currentPitch m * operationPitchSign m
  /\ currentPitch z = 0
  /\ (exists m', MotionController.update K (tickAt100ms 0) m = Done m'
                 /\ systemEnabled m' = true)
  /\ (exists m', MotionController.update K (tickAt100ms 0)
                   (setPitch K (- currentPitch m) m) = Done m'
                 /\ systemEnabled m' = false)
  /\ (exists m', MotionController.update K (tickAt100ms 0)
                   (setPitch K (- currentPitch z) z) = Done m'
                 /\ systemEnabled m' = true).
Proof.
  cbv zeta.
  set (turn := setOperationMode (MODE_TURN sampleConfigH) _).
  set (m := MotionController.setEnabled true (setPitch sampleConfigH 500 turn)).
  set (z := MotionController.setEnabled true turn).
  assert (He : systemEnabled m = true) by (vm_compute; reflexivity).
  assert (He' : systemEnabled z = true) by (vm_compute; reflexivity).
  assert (Hm : currentMode m = MODE_TURN sampleConfigH) by (vm_compute; reflexivity).
  assert (Hm' : currentMode z = MODE_TURN sampleConfigH) by (vm_compute; reflexivity).
  assert (H1 : MODE_TURN sampleConfigH <> MODE_NORMAL sampleConfigH)
    by (vm_compute; discriminate).
  assert (H2 : MODE_TURN sampleConfigH <> MODE_CONE sampleConfigH)
    by (vm_compute; discriminate).
  assert (Hr : - DUPR_MAX sampleConfigH <= currentPitch m <= DUPR_MAX sampleConfigH)
    by (vm_compute; split; discriminate).
  assert (Hr' : - DUPR_MAX sampleConfigH <= currentPitch z <= DUPR_MAX sampleConfigH)
    by (vm_compute; split; discriminate).
  assert (Hs : 0 < currentPitch m * operationPitchSign m) by (vm_compute; reflexivity).
  assert (H0 : currentPitch z = 0) by (vm_compute; reflexivity).
  split; [split; [exact He | exact He']|].
  split; [split; [exact Hm | exact Hm']|].
  split; [exact H1|]. split; [exact H2|].
  split; [exact Hr|]. split; [exact Hr'|]. split; [exact Hs|]. split; [exact H0|].
  split; [eexists; split; vm_compute; reflexivity|].
  destruct (X20_turn_pitch_reversal sampleConfigH (tickAt100ms 0) m
              He Hm H1 H2 Hr) as (_ & Hoff & _).
  destruct (X20_turn_pitch_reversal sampleConfigH (tickAt100ms 0) z
              He' Hm' H1 H2 Hr') as (_ & _ & Hon).
  split; [exact (Hoff Hs) | exact (Hon H0)].
Defined.

(** X21.  A change of mode switches the system off and touches neither
    the axes nor the encoder: after [setOperationMode] with a mode
    other than the current one the mode is the new one, and the next
    tick returns, leaves the system off and gives no axis a target
    (each axis only runs its own stepping tick).  Selecting the current
    mode changes nothing, the system stays on if it was. *)
Theorem X21_mode_change_switches_off :
  forall (K : ConfigH) (i : TickInput) (mode : Z) (m : Motion),
    (mode = currentMode m -> setOperationMode mode m = m)
    /\ (mode <> currentMode m ->
        currentMode (setOperationMode mode m) = mode
        /\ exists m',
             MotionController.update K i (setOperationMode mode m) = Done m'
             /\ systemEnabled m' = false
             /\ zAxis m' = AxisController.update (usZ i) (zAxis m)
             /\ xAxis m' = AxisController.update (usX i) (xAxis m)
             /\ a1Axis m' = (if isActive (a1Axis m)
                             then AxisController.update (usA1 i) (a1Axis m)
                             else a1Axis m)).
Proof.
  intros K i mode m. split.
  - intros ->. unfold setOperationMode. rewrite Z.eqb_refl. reflexivity.
  - intros Hne.
    assert (Hs : currentMode (setOperationMode mode m) = mode
                 /\ systemEnabled (setOperationMode mode m) = false
                 /\ zAxis (setOperationMode mode m) = zAxis m
                 /\ xAxis (setOperationMode mode m) = xAxis m
                 /\ a1Axis (setOperationMode mode m) = a1Axis m).
    { unfold setOperationMode.
      destruct (Z.eqb_spec (currentMode m) mode) as [E|_]; [congruence|].
      destruct (systemEnabled m) eqn:He; cbn.
      - destruct (setEnabled_off m) as (Hz & Hx & Ha & _ & Hoff & _).
        repeat split; assumption.
      - repeat split; try reflexivity. exact He. }
    destruct Hs as (Hm & He & Hz & Hx & Ha).
    split; [exact Hm|].
    eexists. split; [apply update_disabled; exact He|].
    match goal with
    | |- context [updateAxes i ?s] =>
        destruct (updateAxes_axes i s) as (Uz & Ux & Ua & Ue)
    end.
    cbn [with_spindle zAxis xAxis a1Axis systemEnabled] in Uz, Ux, Ua, Ue.
    rewrite Uz, Ux, Ua, Ue, Hz, Hx, Ha, He. repeat split; reflexivity.
Qed.

Lemma X21_mode_change_switches_off_witness :
  let K := sampleConfigH in
  let m := threadingMachine in
  currentMode m = currentMode m
  /\ MODE_TURN K <> currentMode m
  /\ systemEnabled m = true
  /\ setOperationMode (currentMode m) m = m
  /\ currentMode (setOperationMode (MODE_TURN K) m) = MODE_TURN K
  /\ systemEnabled (setOperationMode (MODE_TURN K) m) = false.
Proof.
  cbv zeta.
  assert (H1 : currentMode threadingMachine = currentMode threadingMachine)
    by reflexivity.
  assert (H2 : MODE_TURN sampleConfigH <> currentMode threadingMachine)
    by (vm_compute; discriminate).
  split; [exact H1|]. split; [exact H2|]. split; [vm_compute; reflexivity|].
  destruct (X21_mode_change_switches_off sampleConfigH (tickAt100ms 0)
              (currentMode threadingMachine) threadingMachine) as (Hsame & _).
  destruct (X21_mode_change_switches_off sampleConfigH (tickAt100ms 0)
              (MODE_TURN sampleConfigH) threadingMachine) as (_ & Hch).
  split; [exact (Hsame H1)|]. split; [exact (proj1 (Hch H2))|].
  vm_compute. reflexivity.
Defined.

(** ** The numeric keypad buffer and the input handlers *)

(** An input state with its buffer taken apart: eight cells and one of
    the nine indices. *)
Ltac open_buffer s H :=
  let ds := fresh "ds" in
  let ix := fresh "ix" in
  let md := fresh "md" in
  destruct s as [ds ix md ? ? ? ? ? ? ? ? ? ? ? ? ?];
  destruct H as [Hlen Hix]; cbn [InputManager.numpadDigits InputManager.numpadIndex] in Hlen, Hix;
  do 8 (destruct ds as [|? ds]; [discriminate Hlen|]);
  destruct ds; [|discriminate Hlen]; clear Hlen;
  assert (Hcases : ix = 0 \/ ix = 1 \/ ix = 2 \/ ix = 3 \/ ix = 4 \/ ix = 5
                   \/ ix = 6 \/ ix = 7 \/ ix = 8) by lia;
  clear Hix.

(** Evaluation at a known index, the cells kept symbolic: the states
    first (the buffer operations move cells and do no arithmetic on
    them), then the sum of [getNumpadResult] term by term. *)
Ltac eval_states :=
  repeat match goal with
  | |- context [InputManager.backspaceKey ?s] =>
      let v := eval vm_compute in (InputManager.backspaceKey s) in
      change (InputManager.backspaceKey s) with v
  | |- context [InputManager.digitKey ?d ?s] =>
      let v := eval vm_compute in (InputManager.digitKey d s) in
      change (InputManager.digitKey d s) with v
  | |- context [InputManager.numpadPress ?d ?s] =>
      let v := eval vm_compute in (InputManager.numpadPress d s) in
      change (InputManager.numpadPress d s) with v
  | |- context [InputManager.typeDigits ?ds ?s] =>
      let v := eval vm_compute in (InputManager.typeDigits ds s) in
      change (InputManager.typeDigits ds s) with v
  | |- context [InputManager.with_numpadDigits ?v ?s] =>
      let r := eval vm_compute in (InputManager.with_numpadDigits v s) in
      change (InputManager.with_numpadDigits v s) with r
  | |- context [InputManager.resetNumpad ?s] =>
      let v := eval vm_compute in (InputManager.resetNumpad s) in
      change (InputManager.resetNumpad s) with v
  end.

Ltac eval_cells :=
  repeat match goal with
  | |- context [InputManager.arrayGet ?l ?i] =>
      let v := eval vm_compute in (InputManager.arrayGet l i) in
      change (InputManager.arrayGet l i) with v
  end.

Ltac eval_result :=
  unfold InputManager.getNumpadResult, InputManager.decimalOf;
  cbn [app];
  cbn [InputManager.numpadDigits InputManager.numpadIndex
       InputManager.inNumpadMode];
  repeat match goal with
  | |- context [InputManager.indices ?lo ?hi] =>
      let v := eval vm_compute in (InputManager.indices lo hi) in
      change (InputManager.indices lo hi) with v
  end;
  cbv beta iota delta [fold_left];
  repeat match goal with
  | |- context [InputManager.arrayGet ?l ?i] =>
      let v := eval vm_compute in (InputManager.arrayGet l i) in
      change (InputManager.arrayGet l i) with v
  end;
  repeat match goal with
  | |- context [Z.pow 10 ?e] =>
      let v := eval vm_compute in (Z.pow 10 e) in
      change (Z.pow 10 e) with v
  end.

Lemma numpadPress_value : forall d s,
  InputManager.bufferOk s ->
  InputManager.inNumpadMode s = true ->
  InputManager.bufferOk (InputManager.numpadPress d s)
  /\ InputManager.inNumpadMode (InputManager.numpadPress d s) = true
  /\ (InputManager.numpadIndex s < 8 ->
      InputManager.numpadIndex (InputManager.numpadPress d s)
      = InputManager.numpadIndex s + 1
      /\ InputManager.getNumpadResult (InputManager.numpadPress d s)
         = 10 * InputManager.getNumpadResult s + d)
  /\ (InputManager.numpadIndex s = 8 ->
      InputManager.numpadIndex (InputManager.numpadPress d s) = 8
      /\ InputManager.getNumpadResult (InputManager.numpadPress d s)
         = 10 * (InputManager.getNumpadResult s
                 - InputManager.arrayGet (InputManager.numpadDigits s) 0 * 10 ^ 7)
           + d).
Proof.
  intros d s H Hm. open_buffer s H.
  cbn [InputManager.inNumpadMode] in Hm. subst md.
  unfold InputManager.bufferOk.
  repeat (destruct Hcases as [-> | Hcases]); try subst ix;
    eval_states; eval_result;
    (split; [split; [reflexivity | lia]|]);
    (split; [reflexivity|]);
    split; intros Hk; try (exfalso; lia); split; try reflexivity; lia.
Qed.

Lemma numpadPress_first : forall d s,
  InputManager.bufferOk s ->
  InputManager.inNumpadMode s = false ->
  InputManager.bufferOk (InputManager.numpadPress d s)
  /\ InputManager.numpadIndex (InputManager.numpadPress d s) = 1
  /\ InputManager.getNumpadResult (InputManager.numpadPress d s) = d.
Proof.
  intros d s H Hm. open_buffer s H.
  cbn [InputManager.inNumpadMode] in Hm. subst md.
  unfold InputManager.bufferOk.
  repeat (destruct Hcases as [-> | Hcases]); try subst ix;
    eval_states; eval_result;
    (split; [split; [reflexivity | lia]|]);
    (split; [reflexivity | lia]).
Qed.

Lemma digitKey_view : forall d s,
  InputManager.inNumpadMode (InputManager.digitKey d s) = true
  /\ InputManager.numpadIndex (InputManager.digitKey d s)
     = InputManager.numpadIndex (InputManager.numpadPress d s)
  /\ InputManager.getNumpadResult (InputManager.digitKey d s)
     = InputManager.getNumpadResult (InputManager.numpadPress d s)
  /\ (InputManager.bufferOk (InputManager.numpadPress d s) ->
      InputManager.bufferOk (InputManager.digitKey d s)).
Proof.
  intros d s. unfold InputManager.digitKey. repeat split; try reflexivity.
  - apply H.
  - apply H.
  - apply H.
Qed.

Lemma typeDigits_in_mode : forall ds s,
  InputManager.bufferOk s ->
  InputManager.inNumpadMode s = true ->
  InputManager.numpadIndex s + Z.of_nat (length ds) <= 8 ->
  InputManager.bufferOk (InputManager.typeDigits ds s)
  /\ InputManager.inNumpadMode (InputManager.typeDigits ds s) = true
  /\ InputManager.numpadIndex (InputManager.typeDigits ds s)
     = InputManager.numpadIndex s + Z.of_nat (length ds)
  /\ InputManager.getNumpadResult (InputManager.typeDigits ds s)
     = fold_left (fun acc d => 10 * acc + d) ds (InputManager.getNumpadResult s).
Proof.
  induction ds as [|d ds IH]; intros s H Hm Hn.
  - cbn. repeat split; try assumption; try apply H. lia.
  - cbn [length] in Hn.
    change (InputManager.typeDigits (d :: ds) s)
      with (InputManager.typeDigits ds (InputManager.digitKey d s)).
    destruct (numpadPress_value d s H Hm) as (Hb & _ & Hlt & _).
    destruct Hlt as (Hi & Hr); [lia|].
    destruct (digitKey_view d s) as (Dm & Di & Dr & Db).
    destruct (IH (InputManager.digitKey d s) (Db Hb) Dm) as (I1 & I2 & I3 & I4).
    { rewrite Di, Hi. lia. }
    rewrite I3, I4, Di, Dr, Hi, Hr. cbn [fold_left length].
    repeat split; try assumption; try apply I1. lia.
Qed.

(** X22.  Typing a number on the keypad.  From a state outside numeric
    entry, up to eight digit keys leave in the buffer the number the
    digits denote, most significant first, whatever the buffer held
    before, and the pitch it stands for is ten times that many
    deci-microns; the index is the number of digits typed and stays
    inside the eight cells.  A ninth digit drops the first. *)
Theorem X22_numpad_typing :
  forall (d : Z) (ds : list Z) (s : InputManager.Input),
    InputManager.bufferOk s ->
    InputManager.inNumpadMode s = false ->
    (length ds <= 7)%nat ->
    let s' := InputManager.typeDigits (d :: ds) s in
    InputManager.bufferOk s'
    /\ InputManager.numpadIndex s' = Z.of_nat (length (d :: ds))
    /\ InputManager.getNumpadResult s' = InputManager.decimalOf (d :: ds)
    /\ InputManager.numpadToDeciMicrons s' = 10 * InputManager.decimalOf (d :: ds)
    /\ (length ds = 7%nat ->
        forall d9 : Z,
          InputManager.getNumpadResult (InputManager.digitKey d9 s')
          = InputManager.decimalOf (ds ++ [d9])
          /\ InputManager.numpadIndex (InputManager.digitKey d9 s') = 8).
Proof.
  intros d ds s H Hm Hlen s'.
  change s' with (InputManager.typeDigits ds (InputManager.digitKey d s)).
  destruct (numpadPress_first d s H Hm) as (Hb & Hi & Hr).
  destruct (digitKey_view d s) as (Dm & Di & Dr & Db).
  destruct (typeDigits_in_mode ds (InputManager.digitKey d s) (Db Hb) Dm)
    as (I1 & I2 & I3 & I4).
  { rewrite Di, Hi. lia. }
  rewrite Di, Hi in I3. rewrite Dr, Hr in I4.
  assert (Hdec : InputManager.getNumpadResult
                   (InputManager.typeDigits ds (InputManager.digitKey d s))
                 = InputManager.decimalOf (d :: ds)).
  { rewrite I4. unfold InputManager.decimalOf. cbn [fold_left].
    rewrite Z.mul_0_r, Z.add_0_l. reflexivity. }
  split; [exact I1|]. split; [rewrite I3; cbn [length]; lia|].
  split; [exact Hdec|].
  split.
  - unfold InputManager.numpadToDeciMicrons. rewrite Hdec.
    destruct (Z.eqb_spec (InputManager.decimalOf (d :: ds)) 0) as [E|E]; lia.
  - intros H7 d9.
    do 7 (destruct ds as [|? ds]; [discriminate H7|]).
    destruct ds; [|discriminate H7].
    clear - H Hm. open_buffer s H.
    cbn [InputManager.inNumpadMode] in Hm. subst md.
    repeat (destruct Hcases as [-> | Hcases]); try subst ix;
      eval_states; eval_result; (split; [lia | reflexivity]).
Qed.

Lemma X22_numpad_typing_witness :
  let s := InputManager.new in
  InputManager.bufferOk s
  /\ InputManager.inNumpadMode s = false
  /\ (length [2; 5; 0] <= 7)%nat
  /\ InputManager.getNumpadResult (InputManager.typeDigits [1; 2; 5; 0] s) = 1250
  /\ InputManager.numpadToDeciMicrons (InputManager.typeDigits [1; 2; 5; 0] s) = 12500
  /\ length [2; 3; 4; 5; 6; 7; 8] = 7%nat
  /\ InputManager.getNumpadResult
       (InputManager.digitKey 9
          (InputManager.typeDigits [1; 2; 3; 4; 5; 6; 7; 8] s)) = 23456789.
Proof.
  cbv zeta.
  assert (Hb : InputManager.bufferOk InputManager.new)
    by (split; [reflexivity | vm_compute; split; discriminate]).
  assert (Hm : InputManager.inNumpadMode InputManager.new = false) by reflexivity.
  assert (H3 : (length [2; 5; 0] <= 7)%nat) by (cbn; lia).
  assert (H7 : length [2; 3; 4; 5; 6; 7; 8] = 7%nat) by reflexivity.
  split; [exact Hb|]. split; [exact Hm|]. split; [exact H3|].
  destruct (X22_numpad_typing 1 [2; 5; 0] _ Hb Hm H3) as (_ & _ & Hr & Hd & _).
  split; [rewrite Hr; reflexivity|]. split; [rewrite Hd; reflexivity|].
  split; [exact H7|].
  assert (H7' : (length [2; 3; 4; 5; 6; 7; 8] <= 7)%nat) by (cbn; lia).
  destruct (X22_numpad_typing 1 [2; 3; 4; 5; 6; 7; 8] _ Hb Hm H7')
    as (_ & _ & _ & _ & H9).
  rewrite (proj1 (H9 H7 9)). reflexivity.
Defined.

Lemma numpadPlusMinus_value : forall plus s,
  InputManager.bufferOk s ->
  0 < InputManager.numpadIndex s ->
  let last := InputManager.arrayGet (InputManager.numpadDigits s)
                (InputManager.numpadIndex s - 1) in
  InputManager.numpadIndex (InputManager.numpadPlusMinus plus s)
  = InputManager.numpadIndex s
  /\ InputManager.getNumpadResult (InputManager.numpadPlusMinus plus s)
     = InputManager.getNumpadResult s
       + (if plus then (if last <? 9 then 1 else 0)
          else (if last >? 1 then -1 else 0)).
Proof.
  intros plus s H Hpos. open_buffer s H.
  cbn [InputManager.numpadIndex] in Hpos.
  destruct Hcases as [-> | Hcases]; [lia|]. clear Hpos.
  repeat (destruct Hcases as [-> | Hcases]); try subst ix;
    unfold InputManager.numpadPlusMinus;
    cbn [InputManager.numpadIndex InputManager.numpadDigits];
    eval_cells; cbv zeta;
    match goal with
    | |- context [?k >? 0] => change (k >? 0) with true
    end;
    cbv iota;
    (destruct plus; cbn [andb negb];
     rewrite ?andb_true_r, ?andb_false_r; cbn [andb negb];
     [ match goal with |- context [?z <? 9] => destruct (z <? 9) eqn:E9 end
     | match goal with |- context [?z >? 1] => destruct (z >? 1) eqn:E1 end ]);
    try match goal with
        | |- context [InputManager.arraySet ?l ?i ?v] =>
            remember v as x eqn:Hx
        end;
    eval_states; eval_result; (split; [reflexivity | subst; lia]).
Qed.

Lemma backspace_after_digit : forall d s,
  InputManager.bufferOk s ->
  InputManager.inNumpadMode s = true ->
  InputManager.numpadIndex s < 8 ->
  InputManager.numpadIndex (InputManager.backspaceKey (InputManager.digitKey d s))
  = InputManager.numpadIndex s
  /\ InputManager.getNumpadResult
       (InputManager.backspaceKey (InputManager.digitKey d s))
     = InputManager.getNumpadResult s.
Proof.
  intros d s H Hm Hlt. open_buffer s H.
  cbn [InputManager.inNumpadMode] in Hm. subst md.
  cbn [InputManager.numpadIndex] in Hlt.
  repeat (destruct Hcases as [-> | Hcases]); try subst ix; try lia;
    eval_states; eval_result; (split; [reflexivity | lia]).
Qed.

Lemma processNumpadResult_on : forall K C sm,
  fst (InputManager.processNumpadResult K C (B_ON C) sm) = true.
Proof.
  intros K C sm. unfold InputManager.processNumpadResult.
  rewrite Z.eqb_refl. cbv zeta. split_ifs; reflexivity.
Qed.

(** X23.  Editing the number being typed.  In numeric entry with room
    in the buffer, a digit key followed by the backspace key gives back
    the number and the index there were.  The backspace key on an empty
    buffer or outside numeric entry removes no digit, but it still
    opens numeric entry: where the ON key was not a numeric key before
    it, after it ON is taken as the confirmation of a number and does
    not reach its own handler.  In numeric entry the plus key raises
    the number typed by one unless its last digit is 9 or more, the
    minus key lowers it by one unless its last digit is 1 or less, so a
    last digit cannot be lowered to 0; the index stays. *)
Theorem X23_numpad_editing :
  forall (K : ConfigH) (C : ConfigKeys) (d : Z) (plus : bool)
         (s : InputManager.Input) (m : Motion),
    InputManager.bufferOk s ->
    (InputManager.inNumpadMode s = true ->
     InputManager.numpadIndex s < 8 ->
     InputManager.numpadIndex (InputManager.backspaceKey (InputManager.digitKey d s))
     = InputManager.numpadIndex s
     /\ InputManager.getNumpadResult
          (InputManager.backspaceKey (InputManager.digitKey d s))
        = InputManager.getNumpadResult s)
    /\ (InputManager.inNumpadMode s = false \/ InputManager.numpadIndex s = 0 ->
        InputManager.backspaceKey s = InputManager.with_inNumpadMode true s
        /\ InputManager.numpadIndex (InputManager.backspaceKey s)
           = InputManager.numpadIndex s
        /\ InputManager.getNumpadResult (InputManager.backspaceKey s)
           = InputManager.getNumpadResult s
        /\ InputManager.inNumpadMode (InputManager.backspaceKey s) = true)
    /\ (InputManager.inNumpadMode s = false ->
        InputManager.otherKey K C (B_ON C) (s, m) = (false, (s, m))
        /\ fst (InputManager.otherKey K C (B_ON C) (InputManager.backspaceKey s, m))
           = true)
    /\ (InputManager.inNumpadMode s = true ->
        0 < InputManager.numpadIndex s ->
        InputManager.numpadIndex (InputManager.numpadPlusMinus plus s)
        = InputManager.numpadIndex s
        /\ InputManager.getNumpadResult (InputManager.numpadPlusMinus plus s)
           = InputManager.getNumpadResult s
             + (if plus
                then (if InputManager.arrayGet (InputManager.numpadDigits s)
                           (InputManager.numpadIndex s - 1) <? 9 then 1 else 0)
                else (if InputManager.arrayGet (InputManager.numpadDigits s)
                           (InputManager.numpadIndex s - 1) >? 1 then -1 else 0))).
Proof.
  intros K C d plus s m H. split; [|split; [|split]].
  - intros Hm Hlt. apply backspace_after_digit; assumption.
  - intros Hor.
    assert (E : InputManager.backspaceKey s = InputManager.with_inNumpadMode true s).
    { unfold InputManager.backspaceKey, InputManager.numpadBackspace.
      destruct Hor as [Hm | H0].
      - rewrite Hm. reflexivity.
      - rewrite H0, andb_false_r. reflexivity. }
    rewrite E. repeat split; reflexivity.
  - intros Hm. split.
    + unfold InputManager.otherKey. cbn [fst snd]. rewrite Hm. reflexivity.
    + unfold InputManager.otherKey, InputManager.backspaceKey. cbn [fst snd].
      change (InputManager.inNumpadMode
                (InputManager.with_inNumpadMode true
                   (InputManager.numpadBackspace s))) with true.
      cbv iota. apply processNumpadResult_on.
  - intros _ Hpos. apply (numpadPlusMinus_value plus s H Hpos).
Qed.

Lemma X23_numpad_editing_witness :
  let K := sampleConfigH in
  let C := sampleConfigKeys in
  let m := machine sampleConfig in
  let s := InputManager.typeDigits [4; 1] InputManager.new in
  InputManager.bufferOk s
  /\ InputManager.bufferOk InputManager.new
  /\ InputManager.inNumpadMode s = true
  /\ InputManager.inNumpadMode InputManager.new = false
  /\ InputManager.numpadIndex s < 8
  /\ 0 < InputManager.numpadIndex s
  /\ InputManager.getNumpadResult s = 41
  /\ InputManager.getNumpadResult
       (InputManager.backspaceKey (InputManager.digitKey 7 s)) = 41
  /\ InputManager.getNumpadResult (InputManager.numpadPlusMinus true s) = 42
  /\ InputManager.getNumpadResult (InputManager.numpadPlusMinus false s) = 41
  /\ InputManager.backspaceKey InputManager.new <> InputManager.new
  /\ fst (InputManager.otherKey K C (B_ON C) (InputManager.new, m)) = false
  /\ fst (InputManager.otherKey K C (B_ON C)
            (InputManager.backspaceKey InputManager.new, m)) = true.
Proof.
  cbv zeta.
  set (s := InputManager.typeDigits [4; 1] InputManager.new).
  assert (Hb : InputManager.bufferOk s)
    by (split; [reflexivity | vm_compute; split; discriminate]).
  assert (Hb0 : InputManager.bufferOk InputManager.new)
    by (split; [reflexivity | vm_compute; split; discriminate]).
  assert (Hm : InputManager.inNumpadMode s = true) by reflexivity.
  assert (Hm0 : InputManager.inNumpadMode InputManager.new = false) by reflexivity.
  assert (Hlt : InputManager.numpadIndex s < 8) by reflexivity.
  assert (Hpos : 0 < InputManager.numpadIndex s) by reflexivity.
  assert (Hr : InputManager.getNumpadResult s = 41) by reflexivity.
  split; [exact Hb|]. split; [exact Hb0|]. split; [exact Hm|].
  split; [exact Hm0|]. split; [exact Hlt|]. split; [exact Hpos|].
  split; [exact Hr|].
  destruct (X23_numpad_editing sampleConfigH sampleConfigKeys 7 true s
              (machine sampleConfig) Hb) as (Hbs & _ & _ & Hpl).
  destruct (X23_numpad_editing sampleConfigH sampleConfigKeys 7 false s
              (machine sampleConfig) Hb) as (_ & _ & _ & Hmi).
  destruct (X23_numpad_editing sampleConfigH sampleConfigKeys 7 true
              InputManager.new (machine sampleConfig) Hb0) as (_ & Hkey & Hon & _).
  split; [rewrite (proj2 (Hbs Hm Hlt)); exact Hr|].
  split; [rewrite (proj2 (Hpl Hm Hpos)), Hr; reflexivity|].
  split; [rewrite (proj2 (Hmi Hm Hpos)), Hr; reflexivity|].
  split.
  - rewrite (proj1 (Hkey (or_introl Hm0))). vm_compute. discriminate.
  - destruct (Hon Hm0) as (Hno & Hyes).
    split; [rewrite Hno; reflexivity | exact Hyes].
Defined.

(** X24.  The stop buttons toggle.  A press on an axis whose stop is
    not set puts the stop at the tool position; a press on an axis
    whose stop is set clears it; two presses from the unset state give
    back the state there was.  Position, pending steps and the other
    stop are never touched. *)
Theorem X24_limit_button_toggles :
  forall (a : Axis),
    (leftStop a = LONG_MAX ->
     leftStop (InputManager.handleLimitButton true a) = pos a
     /\ InputManager.handleLimitButton true (InputManager.handleLimitButton true a) = a)
    /\ (leftStop a <> LONG_MAX ->
        leftStop (InputManager.handleLimitButton true a) = LONG_MAX)
    /\ (rightStop a = LONG_MIN ->
        rightStop (InputManager.handleLimitButton false a) = pos a
        /\ InputManager.handleLimitButton false (InputManager.handleLimitButton false a)
           = a)
    /\ (rightStop a <> LONG_MIN ->
        rightStop (InputManager.handleLimitButton false a) = LONG_MIN)
    /\ (forall b,
          pos (InputManager.handleLimitButton b a) = pos a
          /\ pendingPos (InputManager.handleLimitButton b a) = pendingPos a
          /\ (if b then rightStop (InputManager.handleLimitButton b a) = rightStop a
              else leftStop (InputManager.handleLimitButton b a) = leftStop a)).
Proof.
  intros a.
  destruct a as [c p o g mp f pe l r s sm ac ds di dn st en db mm co es bs gr io].
  unfold InputManager.handleLimitButton, setLeftStop, setRightStop, getLeftStop,
    getRightStop, getPositionSteps. cbn.
  split; [|split; [|split; [|split]]].
  - intros ->. rewrite Z.eqb_refl. split; [reflexivity|].
    destruct (Z.eqb_spec p LONG_MAX) as [->|_]; reflexivity.
  - intros H. destruct (Z.eqb_spec l LONG_MAX); [contradiction | reflexivity].
  - intros ->. rewrite Z.eqb_refl. split; [reflexivity|].
    destruct (Z.eqb_spec p LONG_MIN) as [->|_]; reflexivity.
  - intros H. destruct (Z.eqb_spec r LONG_MIN); [contradiction | reflexivity].
  - intros [|]; repeat split; reflexivity.
Qed.

Lemma X24_limit_button_toggles_witness :
  let a := AxisController.run (MoveTo 3 false :: ticks 3 2000)
             (AxisController.new sampleConfig) in
  leftStop a = LONG_MAX
  /\ leftStop (InputManager.handleLimitButton true a) <> LONG_MAX
  /\ rightStop a = LONG_MIN
  /\ rightStop (InputManager.handleLimitButton false a) <> LONG_MIN
  /\ leftStop (InputManager.handleLimitButton true a) = 3
  /\ InputManager.handleLimitButton true (InputManager.handleLimitButton true a) = a
  /\ rightStop (InputManager.handleLimitButton false a) = 3.
Proof.
  cbv zeta.
  set (a := AxisController.run (MoveTo 3 false :: ticks 3 2000)
              (AxisController.new sampleConfig)).
  assert (Hl : leftStop a = LONG_MAX) by (vm_compute; reflexivity).
  assert (Hr : rightStop a = LONG_MIN) by (vm_compute; reflexivity).
  destruct (X24_limit_button_toggles a) as (H1 & _ & H3 & _).
  destruct (H1 Hl) as (Hs & Hid). destruct (H3 Hr) as (Hs' & _).
  assert (Hp : pos a = 3) by (vm_compute; reflexivity).
  split; [exact Hl|].
  split; [rewrite Hs, Hp; vm_compute; discriminate|].
  split; [exact Hr|].
  split; [rewrite Hs', Hp; vm_compute; discriminate|].
  split; [rewrite Hs; exact Hp|]. split; [exact Hid|]. rewrite Hs'. exact Hp.
Defined.




Lemma resetNumpad_view : forall s,
  InputManager.bufferOk s ->
  InputManager.getNumpadResult (InputManager.resetNumpad s) = 0
  /\ InputManager.numpadIndex (InputManager.resetNumpad s) = 0
  /\ InputManager.inNumpadMode (InputManager.resetNumpad s) = false
  /\ InputManager.numpadDigits (InputManager.resetNumpad s) = [0; 0; 0; 0; 0; 0; 0; 0]
  /\ InputManager.setupWizardIndex (InputManager.resetNumpad s)
     = InputManager.setupWizardIndex s
  /\ InputManager.auxDirectionForward (InputManager.resetNumpad s)
     = InputManager.auxDirectionForward s.
Proof.
  intros s H. open_buffer s H. clear Hcases.
  vm_compute. repeat split; reflexivity.
Qed.

(** X26.  A system reset (a long press of OFF).  When [DUPR_MAX >= 0]
    and [STARTS_MAX >= 1], [resetSystem] leaves the system off in
    Normal mode with pitch 0 and one start, the wizard at its first
    step, the auxiliary direction forward and the keypad buffer empty;
    through the origin resets of [setPitch] and [setStarts] it also
    cancels the pending steps of Z and X and makes their positions and
    the encoder's zero; and the next tick returns. *)
Theorem X26_reset_system :
  forall (K : ConfigH) (C : ConfigKeys) (i : TickInput)
         (s : InputManager.Input) (m : Motion),
    0 <= DUPR_MAX K ->
    1 <= STARTS_MAX K ->
    InputManager.bufferOk s ->
    let r := InputManager.resetSystem K (s, m) in
    (systemEnabled (snd r) = false
     /\ currentMode (snd r) = MODE_NORMAL K
     /\ currentPitch (snd r) = 0
     /\ currentStarts (snd r) = 1)
    /\ (pos (zAxis (snd r)) = 0 /\ pendingPos (zAxis (snd r)) = 0
        /\ pos (xAxis (snd r)) = 0 /\ pendingPos (xAxis (snd r)) = 0
        /\ SpindleEncoder.position (spindle (snd r)) = 0
        /\ SpindleEncoder.positionAvg (spindle (snd r)) = 0)
    /\ (InputManager.setupWizardIndex (fst r) = 0
        /\ InputManager.auxDirectionForward (fst r) = true
        /\ InputManager.getNumpadResult (fst r) = 0
        /\ InputManager.inNumpadMode (fst r) = false)
    /\ exists m', MotionController.update K i (snd r) = Done m'.
Proof.
  intros K C i s m HD HS Hb r.
  unfold r, InputManager.resetSystem. cbn [fst snd].
  set (m1 := MotionController.setEnabled false m).
  set (m2 := setOperationMode (MODE_NORMAL K) m1).
  assert (Hp : - DUPR_MAX K <= 0 <= DUPR_MAX K) by lia.
  assert (Hs : 1 <= 1 <= STARTS_MAX K) by lia.
  rewrite (setPitch_in_range K 0 m2 Hp).
  set (m3 := setNewOrigin (with_currentPitch 0 m2)).
  rewrite (setStarts_in_range K 1 m3 Hs).
  set (m4 := setNewOrigin (with_currentStarts 1 m3)).
  destruct (setEnabled_off m) as (_ & _ & _ & _ & E1 & _). fold m1 in E1.
  destruct (setOperationMode_effect (MODE_NORMAL K) m1 E1) as (M2 & E2 & _).
  fold m2 in M2, E2.
  destruct (setNewOrigin_frame (with_currentPitch 0 m2)) as (M3 & E3 & P3 & _).
  fold m3 in M3, E3, P3.
  cbn [with_currentPitch currentMode systemEnabled currentPitch] in M3, E3, P3.
  destruct (setNewOrigin_frame (with_currentStarts 1 m3)) as (M4 & E4 & P4 & S4).
  fold m4 in M4, E4, P4, S4.
  cbn [with_currentStarts currentMode systemEnabled currentPitch currentStarts]
    in M4, E4, P4, S4.
  destruct (setNewOrigin_syncReset (with_currentStarts 1 m3))
    as (Rz & Rx & _ & Rp & Ra & _).
  fold m4 in Rz, Rx, Rp, Ra.
  assert (E4' : systemEnabled m4 = false) by congruence.
  split; [|split; [|split]].
  - repeat split; congruence.
  - destruct Rz as (_ & Zp & Zq & _). destruct Rx as (_ & Xp & Xq & _).
    repeat split; assumption.
  - assert (Hb' : InputManager.bufferOk
                    (InputManager.with_auxDirectionForward true
                       (InputManager.with_setupWizardIndex 0 s))) by exact Hb.
    destruct (resetNumpad_view _ Hb') as (Hr & _ & Hm & _ & Hw & Ha).
    rewrite Hr, Hm, Hw, Ha. repeat split; reflexivity.
  - eexists. apply update_disabled. exact E4'.
Qed.

Lemma X26_reset_system_witness :
  let K := sampleConfigH in
  let r := InputManager.resetSystem K
             (InputManager.typeDigits [7; 7] InputManager.new, threadingMachine) in
  0 <= DUPR_MAX K
  /\ 1 <= STARTS_MAX K
  /\ InputManager.bufferOk (InputManager.typeDigits [7; 7] InputManager.new)
  /\ (systemEnabled threadingMachine, pos (zAxis threadingMachine)) = (true, 100)
  /\ (systemEnabled (snd r), currentPitch (snd r), pos (zAxis (snd r)),
      originPos (zAxis (snd r)), InputManager.getNumpadResult (fst r))
     = (false, 0, 0, 100, 0).
Proof.
  cbv zeta.
  assert (HD : 0 <= DUPR_MAX sampleConfigH) by (vm_compute; discriminate).
  assert (HS : 1 <= STARTS_MAX sampleConfigH) by (vm_compute; discriminate).
  assert (Hb : InputManager.bufferOk
                 (InputManager.typeDigits [7; 7] InputManager.new))
    by (split; [reflexivity | vm_compute; split; discriminate]).
  split; [exact HD|]. split; [exact HS|]. split; [exact Hb|].
  split; [vm_compute; reflexivity|].
  destruct (X26_reset_system sampleConfigH sampleConfigKeys (tickAt100ms 0)
              _ threadingMachine HD HS Hb)
    as ((He & _ & Hp & _) & (Hz & _) & (_ & _ & Hr & _) & _).
  rewrite He, Hp, Hz, Hr. vm_compute. reflexivity.
Defined.

(** ** Confirmation, reversal, the mode key and the emergency stop *)

Lemma setPitch_enabled : forall K p m,
  systemEnabled (setPitch K p m) = systemEnabled m.
Proof.
  intros K p m. unfold setPitch.
  destruct ((p <? - DUPR_MAX K) || (p >? DUPR_MAX K)); [reflexivity|].
  destruct (setNewOrigin_frame (with_currentPitch p m)) as (_ & E & _).
  exact E.
Qed.

Lemma setPitch_out_of_range : forall K p m,
  DUPR_MAX K < Z.abs p -> setPitch K p m = m.
Proof.
  intros K p m H. unfold setPitch.
  destruct (Z.ltb_spec p (- DUPR_MAX K)); [reflexivity|].
  destruct (Z.gtb_spec p (DUPR_MAX K)); [reflexivity|]. lia.
Qed.

Lemma setPitch_applied : forall K p m,
  - DUPR_MAX K <= p <= DUPR_MAX K ->
  currentPitch (setPitch K p m) = p
  /\ currentMode (setPitch K p m) = currentMode m
  /\ currentStarts (setPitch K p m) = currentStarts m
  /\ syncReset (with_currentPitch p m) (setPitch K p m).
Proof.
  intros K p m H. rewrite (setPitch_in_range K p m H).
  destruct (setNewOrigin_frame (with_currentPitch p m)) as (M & _ & P & S).
  split; [exact P|]. split; [exact M|]. split; [exact S|].
  apply setNewOrigin_syncReset.
Qed.

Lemma with_setupWizardIndex_view : forall v s,
  InputManager.getNumpadResult (InputManager.with_setupWizardIndex v s)
  = InputManager.getNumpadResult s
  /\ InputManager.numpadIndex (InputManager.with_setupWizardIndex v s)
     = InputManager.numpadIndex s
  /\ InputManager.inNumpadMode (InputManager.with_setupWizardIndex v s)
     = InputManager.inNumpadMode s
  /\ InputManager.setupWizardIndex (InputManager.with_setupWizardIndex v s) = v.
Proof.
  intros v s. repeat split; reflexivity.
Qed.

(** X27.  Confirming a typed number.  [processNumpadResult] always
    empties the buffer and never switches the system on or off.  A key
    other than ON discards the number: nothing else changes and the key
    is left to its own handler.  ON takes the key for itself; outside
    step 1 of the wizard it sets the pitch to ten times the number when
    that is within [DUPR_MAX] (with the origin reset of [setPitch]) and
    leaves the machine as it is otherwise; at step 1 of the wizard in a
    mode that works in passes the wizard moves on and the number,
    capped at [PASSES_MAX], becomes the number of passes, but a number
    below 1 is dropped although the wizard moves on. *)
Theorem X27_numpad_confirm :
  forall (K : ConfigH) (C : ConfigKeys) (key : Z)
         (s : InputManager.Input) (m : Motion),
    InputManager.bufferOk s ->
    let v := InputManager.getNumpadResult s in
    let r := InputManager.processNumpadResult K C key (s, m) in
    (InputManager.getNumpadResult (fst (snd r)) = 0
     /\ InputManager.numpadIndex (fst (snd r)) = 0
     /\ InputManager.inNumpadMode (fst (snd r)) = false
     /\ systemEnabled (snd (snd r)) = systemEnabled m)
    /\ (key <> B_ON C ->
        fst r = false
        /\ snd (snd r) = m
        /\ InputManager.setupWizardIndex (fst (snd r))
           = InputManager.setupWizardIndex s)
    /\ (key = B_ON C ->
        fst r = true
        /\ (InputManager.setupWizardIndex s <> 1 ->
            InputManager.setupWizardIndex (fst (snd r))
            = InputManager.setupWizardIndex s
            /\ (10 * Z.abs v <= DUPR_MAX K ->
                currentPitch (snd (snd r)) = 10 * v
                /\ pos (zAxis (snd (snd r))) = 0
                /\ pendingPos (zAxis (snd (snd r))) = 0)
            /\ (DUPR_MAX K < 10 * Z.abs v -> snd (snd r) = m))
        /\ (InputManager.setupWizardIndex s = 1 ->
            InputManager.isPassMode K C m = true ->
            InputManager.setupWizardIndex (fst (snd r)) = 2
            /\ currentPitch (snd (snd r)) = currentPitch m
            /\ zAxis (snd (snd r)) = zAxis m
            /\ (1 <= v -> 1 <= PASSES_MAX K ->
                turnPasses (snd (snd r)) = Z.min (PASSES_MAX K) v)
            /\ (v < 1 -> snd (snd r) = m))).
Proof.
  intros K C key s m Hb v r.
  destruct (resetNumpad_view s Hb) as (Rr & Ri & Rm & _ & Rw & _).
  assert (Hdu : InputManager.numpadToDeciMicrons s = 10 * v).
  { unfold InputManager.numpadToDeciMicrons. fold v.
    destruct (Z.eqb_spec v 0); lia. }
  unfold r, InputManager.processNumpadResult. cbn [fst snd].
  rewrite Rw, Hdu. fold v.
  destruct (Z.eqb_spec key (B_ON C)) as [Ek|Ek].
  2:{ cbn [fst snd]. split; [repeat split; assumption|].
      split; [intros _; repeat split; exact Rw | intros Hk; contradiction]. }
  destruct (Z.eqb_spec (InputManager.setupWizardIndex s) 1) as [E1|E1].
  - rewrite !andb_true_r.
    destruct (InputManager.isPassMode K C m) eqn:Ep.
    + cbn [fst snd].
      destruct (with_setupWizardIndex_view (InputManager.setupWizardIndex s + 1)
                  (InputManager.resetNumpad s)) as (V1 & V2 & V3 & V4).
      rewrite V1, V2, V3, V4, Rr, Ri, Rm.
      unfold setTurnPasses.
      destruct (Z.ltb_spec (Z.min (PASSES_MAX K) v) 1) as [Hlt|Hlt];
        destruct (Z.gtb_spec (Z.min (PASSES_MAX K) v) (PASSES_MAX K)) as [Hgt|Hgt];
        cbn [orb]; try lia.
      * split; [repeat split; assumption|].
        split; [intros Hk; contradiction|]. intros _.
        split; [reflexivity|].
        split; [intros Hn; contradiction|]. intros _ _.
        split; [rewrite E1; reflexivity|].
        repeat split; try reflexivity. intros H1 H2. lia.
      * split; [repeat split; assumption|].
        split; [intros Hk; contradiction|]. intros _.
        split; [reflexivity|].
        split; [intros Hn; contradiction|]. intros _ _.
        split; [rewrite E1; reflexivity|].
        repeat split; try reflexivity. intros Hv. lia.
    + destruct (currentMode m =? MODE_CONE K); cbn [fst snd].
      * destruct (with_setupWizardIndex_view (InputManager.setupWizardIndex s + 1)
                    (InputManager.resetNumpad s)) as (V1 & V2 & V3 & V4).
        rewrite V1, V2, V3, Rr, Ri, Rm.
        split; [repeat split; reflexivity|].
        split; [intros Hk; contradiction|]. intros _.
        split; [reflexivity|].
        split; [intros Hn; contradiction | intros _ Hf; discriminate].
      * destruct (Z.abs (10 * v) <=? DUPR_MAX K); cbn [fst snd];
          (split; [repeat split; try assumption; try reflexivity;
                   apply setPitch_enabled|]);
          (split; [intros Hk; contradiction|]); intros _;
          (split; [reflexivity|]);
          (split; [intros Hn; contradiction | intros _ Hf; discriminate]).
  - rewrite !andb_false_r.
    destruct (Z.leb_spec (Z.abs (10 * v)) (DUPR_MAX K)) as [Hr|Hr]; cbn [fst snd].
    + split; [repeat split; try assumption; apply setPitch_enabled|].
      split; [intros Hk; contradiction|]. intros _.
      split; [reflexivity|].
      split; [|intros Hn; contradiction]. intros _.
      split; [exact Rw|]. split; [|intros Hv; lia]. intros _.
      destruct (setPitch_applied K (10 * v) m) as (P & _ & _ & S); [lia|].
      destruct S as (Sz & _). destruct Sz as (_ & Zp & Zq & _).
      repeat split; assumption.
    + split; [repeat split; try assumption; reflexivity|].
      split; [intros Hk; contradiction|]. intros _.
      split; [reflexivity|].
      split; [|intros Hn; contradiction]. intros _.
      split; [exact Rw|]. split; [intros Hv; lia | intros _; reflexivity].
Qed.

Lemma X27_numpad_confirm_witness :
  let K := sampleConfigH in
  let C := sampleConfigKeys in
  let m := machine sampleConfig in
  let s := InputManager.typeDigits [1; 2; 5; 0] InputManager.new in
  let big := InputManager.typeDigits [9; 9; 9; 9; 9] InputManager.new in
  InputManager.bufferOk s
  /\ InputManager.bufferOk big
  /\ B_ON C = B_ON C
  /\ 7 <> B_ON C
  /\ InputManager.setupWizardIndex s <> 1
  /\ 10 * Z.abs (InputManager.getNumpadResult s) <= DUPR_MAX K
  /\ DUPR_MAX K < 10 * Z.abs (InputManager.getNumpadResult big)
  /\ currentPitch (snd (snd (InputManager.processNumpadResult K C (B_ON C) (s, m))))
     = 12500
  /\ snd (snd (InputManager.processNumpadResult K C (B_ON C) (big, m))) = m
  /\ snd (snd (InputManager.processNumpadResult K C 7 (s, m))) = m
  /\ InputManager.getNumpadResult
       (fst (snd (InputManager.processNumpadResult K C 7 (s, m)))) = 0.
Proof.
  cbv zeta.
  set (m := machine sampleConfig).
  set (s := InputManager.typeDigits [1; 2; 5; 0] InputManager.new).
  set (big := InputManager.typeDigits [9; 9; 9; 9; 9] InputManager.new).
  assert (Hb : InputManager.bufferOk s)
    by (split; [reflexivity | vm_compute; split; discriminate]).
  assert (Hb' : InputManager.bufferOk big)
    by (split; [reflexivity | vm_compute; split; discriminate]).
  assert (Hk : B_ON sampleConfigKeys = B_ON sampleConfigKeys) by reflexivity.
  assert (Hk' : 7 <> B_ON sampleConfigKeys) by (vm_compute; discriminate).
  assert (Hw : InputManager.setupWizardIndex s <> 1) by (vm_compute; discriminate).
  assert (Hw' : InputManager.setupWizardIndex big <> 1)
    by (vm_compute; discriminate).
  assert (Hv : 10 * Z.abs (InputManager.getNumpadResult s) <= DUPR_MAX sampleConfigH)
    by (vm_compute; discriminate).
  assert (Hv' : DUPR_MAX sampleConfigH < 10 * Z.abs (InputManager.getNumpadResult big))
    by (vm_compute; reflexivity).
  split; [exact Hb|]. split; [exact Hb'|]. split; [exact Hk|].
  split; [exact Hk'|]. split; [exact Hw|]. split; [exact Hv|].
  split; [exact Hv'|].
  destruct (X27_numpad_confirm sampleConfigH sampleConfigKeys
              (B_ON sampleConfigKeys) s m Hb) as (_ & _ & Hon).
  destruct (X27_numpad_confirm sampleConfigH sampleConfigKeys
              (B_ON sampleConfigKeys) big m Hb') as (_ & _ & Hon').
  destruct (X27_numpad_confirm sampleConfigH sampleConfigKeys 7 s m Hb)
    as ((Hr & _) & Hoff & _).
  split.
  - destruct (Hon Hk) as (_ & Hp & _).
    destruct (Hp Hw) as (_ & Hin & _).
    rewrite (proj1 (Hin Hv)). vm_compute. reflexivity.
  - split.
    + destruct (Hon' Hk) as (_ & Hp & _).
      destruct (Hp Hw') as (_ & _ & Hout). exact (Hout Hv').
    + split; [exact (proj1 (proj2 (Hoff Hk'))) | exact Hr].
Defined.

(** X28.  The reverse key.  With the pitch within [DUPR_MAX],
    [handleReverse] negates it and a second press gives back the pitch
    there was; mode, starts and the on/off state stay.  Each press
    resets the origin: the positions of Z and X and of the encoder
    become zero and their pending steps are cancelled, while the
    machine-global position of each axis is kept. *)
Theorem X28_reverse_key :
  forall (K : ConfigH) (m : Motion),
    - DUPR_MAX K <= currentPitch m <= DUPR_MAX K ->
    let m' := InputManager.handleReverse K m in
    (currentPitch m' = - currentPitch m
     /\ currentPitch (InputManager.handleReverse K m') = currentPitch m)
    /\ (currentMode m' = currentMode m
        /\ currentStarts m' = currentStarts m
        /\ systemEnabled m' = systemEnabled m)
    /\ (pos (zAxis m') = 0 /\ pendingPos (zAxis m') = 0
        /\ pos (xAxis m') = 0 /\ pendingPos (xAxis m') = 0
        /\ SpindleEncoder.position (spindle m') = 0)
    /\ (posGlobal (zAxis m') = posGlobal (zAxis m)
        /\ posGlobal (xAxis m') = posGlobal (xAxis m)).
Proof.
  intros K m H m'. unfold m', InputManager.handleReverse.
  assert (H' : - DUPR_MAX K <= - currentPitch m <= DUPR_MAX K) by lia.
  destruct (setPitch_applied K (- currentPitch m) m H') as (P & M & S & R).
  set (m1 := setPitch K (- currentPitch m) m) in *.
  assert (H1 : - DUPR_MAX K <= - currentPitch m1 <= DUPR_MAX K)
    by (rewrite P; lia).
  destruct (setPitch_applied K (- currentPitch m1) m1 H1) as (P1 & _).
  split; [split; [exact P | rewrite P1, P; lia]|].
  split; [repeat split; try assumption; apply setPitch_enabled|].
  destruct R as (Rz & Rx & _ & Rp & _).
  destruct Rz as (_ & Zp & Zq & _). destruct Rx as (_ & Xp & Xq & _).
  split; [repeat split; assumption|].
  unfold m1. rewrite (setPitch_in_range K _ m H').
  destruct (setNewOrigin_axes (with_currentPitch (- currentPitch m) m))
    as (Az & Ax & _).
  rewrite Az, Ax. cbn [with_currentPitch zAxis xAxis].
  split; apply setOrigin_rest.
Qed.

Lemma X28_reverse_key_witness :
  let K := sampleConfigH in
  let m := threadingMachine in
  - DUPR_MAX K <= currentPitch m <= DUPR_MAX K
  /\ (currentPitch m, pos (zAxis m)) = (500, 100)
  /\ currentPitch (InputManager.handleReverse K m) = -500
  /\ pos (zAxis (InputManager.handleReverse K m)) = 0
  /\ currentPitch (InputManager.handleReverse K (InputManager.handleReverse K m))
     = 500.
Proof.
  cbv zeta.
  assert (H : - DUPR_MAX sampleConfigH <= currentPitch threadingMachine
              <= DUPR_MAX sampleConfigH)
    by (vm_compute; split; discriminate).
  assert (Hp : currentPitch threadingMachine = 500) by reflexivity.
  split; [exact H|]. split; [vm_compute; reflexivity|].
  destruct (X28_reverse_key sampleConfigH threadingMachine H)
    as ((P1 & P2) & _ & (Zp & _) & _).
  split; [rewrite P1, Hp; reflexivity|].
  split; [exact Zp | rewrite P2; exact Hp].
Defined.

Lemma NoDup5 : forall a b c d e : Z,
  NoDup [a; b; c; d; e] ->
  a <> b /\ a <> c /\ a <> d /\ a <> e /\ b <> c /\ b <> d /\ b <> e
  /\ c <> d /\ c <> e /\ d <> e.
Proof.
  intros a b c d e H.
  inversion H as [|? ? N1 H1]; subst.
  inversion H1 as [|? ? N2 H2]; subst.
  inversion H2 as [|? ? N3 H3]; subst.
  inversion H3 as [|? ? N4 H4]; subst.
  cbn in N1, N2, N3, N4.
  repeat split; intros E; subst; tauto.
Qed.

Lemma handleModeChange_mode : forall K C m,
  currentMode (InputManager.handleModeChange K C m)
  = (if currentMode m =? MODE_NORMAL K then
       if ACTIVE_A1 C then MODE_A1 C else MODE_ELLIPSE C
     else if currentMode m =? MODE_A1 C then MODE_ELLIPSE C
     else if currentMode m =? MODE_ELLIPSE C then MODE_GCODE C
     else if currentMode m =? MODE_GCODE C then MODE_ASYNC C
     else MODE_NORMAL K).
Proof.
  intros K C m. unfold InputManager.handleModeChange. cbv zeta.
  match goal with
  | |- currentMode (setOperationMode ?nm m) = _ => generalize nm; intros n
  end.
  unfold setOperationMode.
  destruct (Z.eqb_spec (currentMode m) n) as [E|E]; [exact E|].
  destruct (systemEnabled m); reflexivity.
Qed.

(** X29.  The mode key.  [handleModeChange] only ever selects Normal,
    A1, Ellipse, G-code or Async; it leaves the axes and the encoder as
    they are, and the system is off after a press that changes the
    mode.  From a mode outside the cycle (Turn, Cone, ...) and from
    Async it selects Normal.  When the five mode numbers of the cycle
    are distinct, the presses from Normal go through Ellipse, G-code
    and Async back to Normal, with A1 first where that axis is
    fitted. *)
Theorem X29_mode_key_cycle :
  forall (K : ConfigH) (C : ConfigKeys) (m : Motion),
    let next := InputManager.handleModeChange K C in
    In (currentMode (next m))
       [MODE_NORMAL K; MODE_A1 C; MODE_ELLIPSE C; MODE_GCODE C; MODE_ASYNC C]
    /\ (zAxis (next m) = zAxis m /\ xAxis (next m) = xAxis m
        /\ spindle (next m) = spindle m /\ currentPitch (next m) = currentPitch m)
    /\ (currentMode (next m) <> currentMode m -> systemEnabled (next m) = false)
    /\ (~ In (currentMode m)
             [MODE_NORMAL K; MODE_A1 C; MODE_ELLIPSE C; MODE_GCODE C] ->
        currentMode (next m) = MODE_NORMAL K)
    /\ (NoDup [MODE_NORMAL K; MODE_A1 C; MODE_ELLIPSE C; MODE_GCODE C;
               MODE_ASYNC C] ->
        currentMode m = MODE_NORMAL K ->
        let m1 := if ACTIVE_A1 C then next m else m in
        (ACTIVE_A1 C = true -> currentMode m1 = MODE_A1 C)
        /\ currentMode (next m1) = MODE_ELLIPSE C
        /\ currentMode (next (next m1)) = MODE_GCODE C
        /\ currentMode (next (next (next m1))) = MODE_ASYNC C
        /\ currentMode (next (next (next (next m1)))) = MODE_NORMAL K).
Proof.
  intros K C m next.
  split; [|split; [|split; [|split]]].
  - unfold next. rewrite handleModeChange_mode. cbn [In].
    destruct (currentMode m =? MODE_NORMAL K);
      [destruct (ACTIVE_A1 C); tauto|].
    destruct (currentMode m =? MODE_A1 C); [tauto|].
    destruct (currentMode m =? MODE_ELLIPSE C); [tauto|].
    destruct (currentMode m =? MODE_GCODE C); tauto.
  - unfold next, InputManager.handleModeChange. cbv zeta.
    match goal with
    | |- zAxis (setOperationMode ?nm m) = _ /\ _ => generalize nm; intros n
    end.
    unfold setOperationMode.
    destruct (currentMode m =? n); [repeat split; reflexivity|].
    destruct (systemEnabled m) eqn:Es; cbn; [|repeat split; reflexivity].
    destruct (setEnabled_off m) as (Hz & Hx & _ & Hs & _ & Hp & _).
    repeat split; assumption.
  - unfold next, InputManager.handleModeChange. cbv zeta.
    match goal with
    | |- currentMode (setOperationMode ?nm m) <> _ -> _ => generalize nm; intros n
    end.
    unfold setOperationMode.
    destruct (Z.eqb_spec (currentMode m) n) as [E|E];
      [intros Hne; contradiction|]. intros _.
    destruct (systemEnabled m) eqn:Es; cbn; [|exact Es].
    apply setEnabled_off.
  - intros Hout. unfold next. rewrite handleModeChange_mode. cbn [In] in Hout.
    destruct (Z.eqb_spec (currentMode m) (MODE_NORMAL K)); [exfalso; intuition congruence|].
    destruct (Z.eqb_spec (currentMode m) (MODE_A1 C)); [exfalso; intuition congruence|].
    destruct (Z.eqb_spec (currentMode m) (MODE_ELLIPSE C)); [exfalso; intuition congruence|].
    destruct (Z.eqb_spec (currentMode m) (MODE_GCODE C)); [exfalso; intuition congruence|].
    reflexivity.
  - intros Hnd Hm.
    destruct (NoDup5 _ _ _ _ _ Hnd)
      as (N1 & N2 & N3 & N4 & N5 & N6 & N7 & N8 & N9 & N10).
    assert (S1 : forall x, currentMode x = MODE_NORMAL K ->
                 currentMode (next x)
                 = if ACTIVE_A1 C then MODE_A1 C else MODE_ELLIPSE C).
    { intros x Hx. unfold next. rewrite handleModeChange_mode, Hx, Z.eqb_refl.
      reflexivity. }
    assert (S2 : forall x, currentMode x = MODE_A1 C ->
                 currentMode (next x) = MODE_ELLIPSE C).
    { intros x Hx. unfold next. rewrite handleModeChange_mode, Hx, Z.eqb_refl.
      destruct (Z.eqb_spec (MODE_A1 C) (MODE_NORMAL K)); [congruence|].
      reflexivity. }
    assert (S3 : forall x, currentMode x = MODE_ELLIPSE C ->
                 currentMode (next x) = MODE_GCODE C).
    { intros x Hx. unfold next. rewrite handleModeChange_mode, Hx, Z.eqb_refl.
      destruct (Z.eqb_spec (MODE_ELLIPSE C) (MODE_NORMAL K)); [congruence|].
      destruct (Z.eqb_spec (MODE_ELLIPSE C) (MODE_A1 C)); [congruence|].
      reflexivity. }
    assert (S4 : forall x, currentMode x = MODE_GCODE C ->
                 currentMode (next x) = MODE_ASYNC C).
    { intros x Hx. unfold next. rewrite handleModeChange_mode, Hx, Z.eqb_refl.
      destruct (Z.eqb_spec (MODE_GCODE C) (MODE_NORMAL K)); [congruence|].
      destruct (Z.eqb_spec (MODE_GCODE C) (MODE_A1 C)); [congruence|].
      destruct (Z.eqb_spec (MODE_GCODE C) (MODE_ELLIPSE C)); [congruence|].
      reflexivity. }
    assert (S5 : forall x, currentMode x = MODE_ASYNC C ->
                 currentMode (next x) = MODE_NORMAL K).
    { intros x Hx. unfold next. rewrite handleModeChange_mode, Hx.
      destruct (Z.eqb_spec (MODE_ASYNC C) (MODE_NORMAL K)); [congruence|].
      destruct (Z.eqb_spec (MODE_ASYNC C) (MODE_A1 C)); [congruence|].
      destruct (Z.eqb_spec (MODE_ASYNC C) (MODE_ELLIPSE C)); [congruence|].
      destruct (Z.eqb_spec (MODE_ASYNC C) (MODE_GCODE C)); [congruence|].
      reflexivity. }
    intros m1.
    assert (E2 : currentMode (next m1) = MODE_ELLIPSE C).
    { unfold m1. generalize (S1 m Hm).
      destruct (ACTIVE_A1 C); intros E; [apply S2 | ]; exact E. }
    split.
    + intros Ha. unfold m1. rewrite Ha. rewrite (S1 m Hm), Ha. reflexivity.
    + split; [exact E2|].
      split; [apply S3; exact E2|].
      split; [apply S4, S3; exact E2|].
      apply S5, S4, S3; exact E2.
Qed.

Lemma X29_mode_key_cycle_witness :
  let K := sampleConfigH in
  let C := sampleConfigKeys in
  let next := InputManager.handleModeChange K C in
  let m := machine sampleConfig in
  let t := setOperationMode (MODE_TURN K) m in
  NoDup [MODE_NORMAL K; MODE_A1 C; MODE_ELLIPSE C; MODE_GCODE C; MODE_ASYNC C]
  /\ currentMode m = MODE_NORMAL K
  /\ ~ In (currentMode t) [MODE_NORMAL K; MODE_A1 C; MODE_ELLIPSE C; MODE_GCODE C]
  /\ currentMode (next t) = MODE_NORMAL K
  /\ currentMode (next (next (next (next m)))) = MODE_NORMAL K
  /\ currentMode (next (next (next m))) <> currentMode (next (next m))
  /\ systemEnabled (next (next (next m))) = false.
Proof.
  cbv zeta.
  set (next := InputManager.handleModeChange sampleConfigH sampleConfigKeys).
  set (m := machine sampleConfig).
  set (t := setOperationMode (MODE_TURN sampleConfigH) m).
  assert (Hnd : NoDup [MODE_NORMAL sampleConfigH; MODE_A1 sampleConfigKeys;
                       MODE_ELLIPSE sampleConfigKeys; MODE_GCODE sampleConfigKeys;
                       MODE_ASYNC sampleConfigKeys]).
  { vm_compute.
    repeat (constructor; [cbn; intros Hin; intuition discriminate|]).
    constructor. }
  assert (Hm : currentMode m = MODE_NORMAL sampleConfigH) by reflexivity.
  assert (Ht : ~ In (currentMode t)
                 [MODE_NORMAL sampleConfigH; MODE_A1 sampleConfigKeys;
                  MODE_ELLIPSE sampleConfigKeys; MODE_GCODE sampleConfigKeys]).
  { vm_compute. intros Hin. intuition discriminate. }
  assert (Hne : currentMode (next (next (next m))) <> currentMode (next (next m)))
    by (vm_compute; discriminate).
  split; [exact Hnd|]. split; [exact Hm|]. split; [exact Ht|].
  destruct (X29_mode_key_cycle sampleConfigH sampleConfigKeys t)
    as (_ & _ & _ & Hout & _).
  destruct (X29_mode_key_cycle sampleConfigH sampleConfigKeys m)
    as (_ & _ & _ & _ & Hcyc).
  destruct (X29_mode_key_cycle sampleConfigH sampleConfigKeys (next (next m)))
    as (_ & _ & Hoff & _).
  split; [exact (Hout Ht)|].
  split; [exact (proj2 (proj2 (proj2 (proj2 (Hcyc Hnd Hm)))))|].
  split; [exact Hne | exact (Hoff Hne)].
Defined.

Lemma axis_setEnabled_pos : forall b a,
  pos (AxisController.setEnabled b a) = pos a
  /\ pendingPos (AxisController.setEnabled b a) = pendingPos a
  /\ leftStop (AxisController.setEnabled b a) = leftStop a
  /\ rightStop (AxisController.setEnabled b a) = rightStop a.
Proof.
  intros b a. unfold AxisController.setEnabled, updateEnablePin.
  destruct (negb (needsRest (config a)) || negb (active (config a)));
    [repeat split; reflexivity|].
  destruct b; cbn; split_ifs; repeat split; reflexivity.
Qed.

Lemma axis_setEnabled_false_line : forall a,
  (counted a = false -> AxisController.setEnabled false a = a)
  /\ (counted a = true ->
      (stepperEnableCounter a = 1 ->
       stepperEnableCounter (AxisController.setEnabled false a) = 0
       /\ enaLevel (gpio (AxisController.setEnabled false a)) = Some false)
      /\ (2 <= stepperEnableCounter a ->
          stepperEnableCounter (AxisController.setEnabled false a)
          = stepperEnableCounter a - 1
          /\ gpio (AxisController.setEnabled false a) = gpio a)).
Proof.
  intros a. unfold counted, AxisController.setEnabled.
  destruct (needsRest (config a)) eqn:Hr; destruct (active (config a)) eqn:Ha;
    cbn [negb orb andb]; split; intros Hc; try discriminate; try reflexivity.
  split; intros Hn.
  - rewrite Hn. cbn. unfold updateEnablePin. cbn. rewrite Hr. cbn.
    rewrite andb_false_r. cbn. split; reflexivity.
  - destruct (Z.gtb_spec (stepperEnableCounter a) 0); [|lia]. cbn.
    destruct (Z.eqb_spec (stepperEnableCounter a - 1) 0); [lia|].
    cbn. split; reflexivity.
Qed.

(** X30.  The emergency stop.  [emergencyStop] records the reason and
    switches the system off, and with a reason other than [ESTOP_NONE]
    the motion task then gives no more ticks.  Position, motor position
    and pending steps of Z and X are left as they are: nothing is
    cancelled.  The enable counter of an axis whose driver rests when
    idle goes down by one only: at 1 the driver is released (the enable
    line goes low), at 2 or more the line is not written and the driver
    stays as it was; an axis that does not count is not touched. *)
Theorem X30_emergency_stop :
  forall (K : ConfigH) (C : ConfigKeys) (i : TickInput) (reason : Z)
         (s : SystemManager.System) (sel : Motion -> Axis),
    sel = zAxis \/ sel = xAxis ->
    let s' := SystemManager.emergencyStop reason s in
    let a := sel (SystemManager.motion s) in
    let a' := sel (SystemManager.motion s') in
    (SystemManager.emergencyState s' = reason
     /\ systemEnabled (SystemManager.motion s') = false)
    /\ (reason <> ESTOP_NONE C ->
        SystemManager.isSystemOk C s' = false
        /\ SystemManager.motionTaskRound K C i s' = Done s')
    /\ (pos a' = pos a /\ pendingPos a' = pendingPos a /\ motorPos a' = motorPos a)
    /\ (counted a = false -> a' = a)
    /\ (counted a = true ->
        (stepperEnableCounter a = 1 ->
         stepperEnableCounter a' = 0 /\ enaLevel (gpio a') = Some false)
        /\ (2 <= stepperEnableCounter a ->
            stepperEnableCounter a' = stepperEnableCounter a - 1
            /\ gpio a' = gpio a)).
Proof.
  intros K C i reason s sel Hsel s' a a'.
  destruct (setEnabled_off (SystemManager.motion s))
    as (Hz & Hx & Ha1 & _ & He & _).
  assert (Ha : a' = AxisController.setEnabled false a).
  { unfold a', a, s', SystemManager.emergencyStop.
    cbn [SystemManager.motion].
    destruct Hsel as [-> | ->];
      match goal with
      | |- context [if ?c then _ else _] => destruct c
      end; cbn; rewrite ?Hz, ?Hx; reflexivity. }
  assert (Hoff : systemEnabled (SystemManager.motion s') = false).
  { unfold s', SystemManager.emergencyStop. cbn [SystemManager.motion].
    match goal with
    | |- context [if ?c then _ else _] => destruct c
    end; cbn; exact He. }
  split; [split; [reflexivity | exact Hoff]|].
  split.
  { intros Hne. unfold SystemManager.isSystemOk, SystemManager.motionTaskRound.
    change (SystemManager.emergencyState s') with reason.
    destruct (Z.eqb_spec reason (ESTOP_NONE C)); [contradiction|].
    split; reflexivity. }
  rewrite Ha.
  destruct (axis_setEnabled_pos false a) as (P1 & P2 & _).
  destruct (axis_setEnabled_rest false a) as (_ & P3 & _).
  split; [repeat split; assumption|].
  exact (axis_setEnabled_false_line a).
Qed.

Lemma X30_emergency_stop_witness :
  let K := sampleConfigH in
  let C := sampleConfigKeys in
  let once := SystemManager.mkSystem
                (setEnabledSeq (alternating 1) (machine restingConfig)) 0 in
  let twice := SystemManager.mkSystem
                 (setEnabledSeq (alternating 2) (machine restingConfig)) 0 in
  (zAxis = zAxis \/ zAxis = xAxis)
  /\ 3 <> ESTOP_NONE C
  /\ counted (zAxis (SystemManager.motion once)) = true
  /\ stepperEnableCounter (zAxis (SystemManager.motion once)) = 1
  /\ counted (zAxis (SystemManager.motion twice)) = true
  /\ 2 <= stepperEnableCounter (zAxis (SystemManager.motion twice))
  /\ enaLevel (gpio (zAxis (SystemManager.motion
                              (SystemManager.emergencyStop 3 once)))) = Some false
  /\ enaLevel (gpio (zAxis (SystemManager.motion
                              (SystemManager.emergencyStop 3 twice)))) = Some true
  /\ SystemManager.motionTaskRound K C (tickAt100ms 0)
       (SystemManager.emergencyStop 3 twice)
     = Done (SystemManager.emergencyStop 3 twice).
Proof.
  cbv zeta.
  set (once := SystemManager.mkSystem
                 (setEnabledSeq (alternating 1) (machine restingConfig)) 0).
  set (twice := SystemManager.mkSystem
                  (setEnabledSeq (alternating 2) (machine restingConfig)) 0).
  assert (Hsel : zAxis = zAxis \/ zAxis = xAxis) by (left; reflexivity).
  assert (Hne : 3 <> ESTOP_NONE sampleConfigKeys) by (vm_compute; discriminate).
  assert (C1 : counted (zAxis (SystemManager.motion once)) = true) by reflexivity.
  assert (N1 : stepperEnableCounter (zAxis (SystemManager.motion once)) = 1)
    by reflexivity.
  assert (C2 : counted (zAxis (SystemManager.motion twice)) = true) by reflexivity.
  assert (N2 : 2 <= stepperEnableCounter (zAxis (SystemManager.motion twice)))
    by (vm_compute; discriminate).
  split; [exact Hsel|]. split; [exact Hne|]. split; [exact C1|].
  split; [exact N1|]. split; [exact C2|]. split; [exact N2|].
  destruct (X30_emergency_stop sampleConfigH sampleConfigKeys (tickAt100ms 0) 3
              once zAxis Hsel) as (_ & _ & _ & _ & H1).
  destruct (X30_emergency_stop sampleConfigH sampleConfigKeys (tickAt100ms 0) 3
              twice zAxis Hsel) as (_ & Hend & _ & _ & H2).
  split; [exact (proj2 (proj1 (H1 C1) N1))|].
  split.
  - rewrite (proj2 (proj2 (H2 C2) N2)). vm_compute. reflexivity.
  - exact (proj2 (Hend Hne)).
Defined.
